(* ===== verification/_CoqProject ===== *)
-Q . S2P
Prelude.v
JsString.v
SessionIdentity.v
UriDecode.v
MediaNames.v
Media.v
ProbeChain.v
Toolbar.v
Services.v
SyncEngine.v
Scenarios.v
Protocol.v
