(* ===== verification/Prelude.v ===== *)
(** * A verification development of the whiteboard client [src/src/js/main.js]

    ** The program

    [main.js] is the browser side of a collaborative whiteboard.  Its top
    level (lines 15-43) resolves the session from the query string: the
    whiteboard id (random-id mode with [uuidv4], the default
    ["myNewWhiteboard"], the normalisation of line 29, and a rewrite of
    [window.location.search] when the id changed), the user name and the
    access token.  [main] (48-88) opens one socket.io channel; on every
    ["connect"] it registers the relay handlers ([whiteboardConfig],
    [whiteboardInfoUpdate], [drawToWhiteboard], [refreshUserBadges],
    [wrongAccessToken] with its own [accessDenied] flag) and emits
    [joinWhiteboard].  A [whiteboardConfig] push stores the configuration
    in [ConfigService] and runs [initWhiteboard] (143-578), whose
    [$(document).ready] callback loads the drawing surface with the
    [sendFunction] gate (151-160, the single path of local mutations to the
    relay), requests the snapshot (164-168), registers the resize and
    drag-and-drop handlers and applies the read-only policy (452-465);
    [initWhiteboard] also adds a paste listener.  The same callback wires
    the toolbar (176-267, 439-450).  The media helpers (486-577) upload
    images and place them through the surface.  The
    services ([ConfigService], [InfoService], [ReadOnlyService]) and the
    surface ([whiteboard]) live outside src/.

    ** The library (files in dependency order)

    - [Prelude] (this file): JavaScript strings as lists of UTF-16 code
      units ([jsstring], literals [js "..."]), [||] and truthiness on
      [URLSearchParams.get] results, JavaScript values and plain objects
      ([jsval], [jsobj]) with property read [js_get] and assignment
      [js_set] (an existing property keeps its place), the sequencing
      notation [f >>> g] of handler bodies in [wb_scope], the hint
      databases [wb] and [wb_rw], the tactic [js_decide] for string
      literals, and the list lemmas the components share (filters,
      two-step and length induction, [Nat.iter], folds with an
      invariant, a counter or a commuting map).
    - [JsString]: the builtins the code calls, executable and following
      ECMA-262 and the HTML standard: [encodeURIComponent] (with the
      [URIError] of an unpaired surrogate as [None]), [unescape] (B.2.1.2),
      UTF-8 encoding, [substring], [btoa] (with [InvalidCharacterError] as
      [None]).  Bits are Z with [Z.shiftr]/[Z.land]; the rewrite database
      [wb_bits] turns them into division and remainder for [lia].
    - [SessionIdentity]: lines 15-37.  [UrlParams] gives
      [URLSearchParams.get/set/delete]; [resolveWhiteboardId] returns the
      id, the final parameters and every assignment to
      [window.location.search] in order; [myUsername] takes the decimal
      string of [Math.random()] as input, [resolveWhiteboardId] the value of
      [uuidv4()].
    - [UriDecode]: [decodeURIComponent] (ECMA-262 Decode: one to four
      [%XX] escapes per character, UTF-8 decoding with its rejection of
      overlong forms, surrogates and bad continuation octets, UTF-16
      re-encoding), and the custom title of lines 39-43 as a
      [TitleOutcome] ([KeepTitle], [SetTitle], [TitleThrows] for the
      URIError).
    - [MediaNames]: the string code of the media helpers:
      [isImageFileName] and [isPDFFileName] (513-524) with [split],
      [toLowerCase] and [includes]; the regular expression of line 408 as
      a leftmost greedy matcher [src_exec]; [startsWith], [indexOf],
      [lastIndexOf], [substr]; the URL of an uploaded image (497-503)
      with the decimal digits of the upload date.
    - [Media]: the drag-and-drop, paste, PDF and upload code (269-437,
      486-577) as an event system: the world [MWorld] holds the read-only
      flag, [correspondingReadOnlyWid], the tool, a clock [m_now] in ms,
      the open notices, one [dragCounter] per ready callback that ran,
      the paste listener count, and the pending asynchronous work indexed
      by creation order: FileReaders, [isValidImageUrl] probes (image
      load and timer with its deadline), pdf.js documents and page
      renders, uploads.  One function per handler and callback
      ([dragenter_one], [drop_one], [reader_loadend], [img_onload],
      [timer_fire], [pdf_resolved], [page_select], [render_done],
      [upload_success], [paste_one], ...), and [mstep] delivers a DOM
      event to every registered set of handlers, or completes one piece
      of pending work; [M_Tick ms] advances the clock and fires the due
      timers.  The paste listener's function-scoped [var reader] is kept:
      every reader's callback reads the last reader created
      ([RPaste alias]).
    - [ProbeChain]: a measure on the probes of [Media] (callbacks run
      plus pending completions weighted by what a callback may start)
      that no event but a drop raises.
    - [Toolbar]: the toolbar part of the ready callback (176-267,
      439-450, and the window listeners of 469-484) with jQuery's
      semantics: [.off("click").click(h)] replaces an element's click
      handlers, [.mouseout], [.on("input")] and [new Picker] add one per
      run; the state [TB] holds the handlers, the [btnsMini] cell of every
      run, the pickers and the DOM state the handlers change; [tstep]
      dispatches a DOM event to the handlers of its target.  It is a
      separate world: [Toolbar.tb_ready] is what each run of
      [SyncEngine.ready_callback] does besides the engine's part.
    - [Services]: the three services as type classes of operations
      ([ConfigStore], [InfoStore], [ReadOnlyStore]) with classes of laws,
      and instances built from the spec (they are not under src/).
    - [SyncEngine]: the page as an explicit world ([World]: the services,
      the socket's handler list and [accessDenied] cells, the emitted
      messages, the calls into the surface in order, the open notices, the
      pending ready callbacks and snapshot requests, the listener counts,
      the window size), one function per handler and callback of the
      source, socket.io's dispatch ([deliver]: every handler of the event
      name, oldest first, over the list as it was on arrival), and the
      event loop [step] on inputs (connect, relay message, ready callback,
      snapshot response or failure, local stroke, resize, notice
      dismissal), with [reachable] its closure from [init_world].  The
      engine is a Section over any services satisfying the laws.
    - [Scenarios]: the engine on the instances of [Services]: the spec's
      scenario, a trace of a reconnection, and the witnesses of the
      engine's theorems.
    - [Protocol]: the state machine of spec section 4.4 ([SpecState]:
      phase, configuration, queue of held-back live events, what the
      surface was given, [messagesReceived]; [spec_step]), the abstraction
      [abs] of an engine world, the environment [env_ok] of the spec's
      happy path, the refinement proof, the requests the page emits, and
      the general departures from the spec's ordering (C7, C12).

    ** What the theorems show

    - The send gate (C1-C3): [sendFunction] stamps the token and counts
      the message; in every reachable world with the surface loaded and no
      ready callback pending the read-only flag is the policy of lines
      452-465 ([readonly_invariant], by induction on [reachable] with the
      invariant that the socket holds one block of handlers per
      connection), so a read-only session emits no stroke.
    - The relay messages (C4-C7, C11): on a page that connected [n]
      times, a live event is applied and counted [n] times, in arrival
      order; a [wrongAccessToken] shows one notice per connection not yet
      denied; from any reachable world with a snapshot pending, a live
      draw reaches the surface before the snapshot (C7, in [Protocol]).
    - The ready callback (C9, C10, C12): what it does when [btoa] accepts
      the user name, that it does nothing when [btoa] throws, and (C12, in
      [Protocol]) that from any reachable world the read-only flag follows
      a configuration push only when it runs, so a stroke drawn in between
      is emitted.
    - The session identity (C14-C22): the normalisation is exactly the
      filter of its character class (through the round trip
      [unescape (encodeURIComponent s) = utf8 s] and the error case of
      [encodeURIComponent]), idempotent; the rewritten location is stable
      on reload; random-id mode; every id made only of stripped
      characters resolves to the empty id and the reload to
      [myNewWhiteboard] (C20); the default user name and its suffix.

    - The title (C23-C25): [decodeURIComponent] inverts
      [encodeURIComponent] on well-formed strings; a title ending in [%]
      throws at line 42; an encoded title is shown decoded.
    - The media names (C26-C28): the file-name tests equal a reference
      definition on the lower-cased last dot-free segment; the uploaded
      image URL is injective in the upload date, so same-millisecond
      uploads collide; the URL extracted from dragged HTML is exactly the
      maximal run after the leftmost [src=] the regular expression can
      match (C28).
    - The media pipeline (C29-C36): read-only mode silences dragenter,
      dragleave and drop, but not paste; a dropped image is uploaded once
      per ready callback that ran, with one timestamp, even after
      read-only is switched on; the upload callbacks; every pending probe
      has answered within 2000 ms in every reachable world (liveness, by
      the invariant [pbound] that deadlines are at most 2000 ms ahead),
      yet a late image load answers a second time; two pasted images
      upload only the second (or null); for any open PDF picker, the
      upload button sends the page whose rendering finished last, whatever
      page is selected (C36).
    - The protocol (C37, C38): on the happy path (one connection, one
      configuration push after the join, snapshot responses only to
      requests, no live event while loading or after a denial, [btoa]
      accepting the user name) every engine run refines the spec machine,
      by a step simulation under the invariant [good]; off that path the
      traces [draw_while_loading_diverges] and [draw_after_denial_applied]
      show where it departs.  In every reachable world every emitted
      message is a known request whose payload carries the token.
    - Termination (C39): after any events without a new drop at most
      [probe_budget] more probe callbacks run (six for one drop, and a
      trace reaches six).
    - The toolbar (C8, C13, C22, C40), all over every reachable toolbar
      ([treachable], with the handler invariant [tb_inv]): a second ready
      callback desynchronises the min/max toggle (C8); the slider's input
      handlers accumulate, one [setStrokeThickness] per ready callback
      (C13); clearWhiteboard is called only by a click on the confirm
      button while it is shown (C22); in read-only mode the add-image
      button and the slider do nothing, while undo, redo and the confirmed
      clear still reach the surface (C40).

    No function takes fuel: every recursion of the model is structural
    ([unescape] and [encodeURIComponent] consume one to six code units per
    call, handled by [list_length_ind]; [decodeURIComponent] matches up
    to twelve units at once with nested patterns).  Time in [Media] is a
    [Z] clock advanced only by [M_Tick], so the 2000 ms timeout is a
    comparison with a deadline and no bound on steps is needed; the
    handlers are folds over the registered handler sets.  Integers are [Z] and code units
    are kept in [0, 0xFFFF] by the well-formedness predicate [Utf16.wf].

    ** Not modelled, and the plan

    Not modelled: the drawing surface (its calls are recorded, its
    behaviour is external and not under src/), pdf.js, FileReader and the
    network (their completions are inputs of [mstep] or [step]),
    [keybinds] and [shortcutFunctions] (modules outside src/; calls into
    them are recorded), [getSubDir] (path construction only).  The toolbar
    and the media pipeline are separate worlds from the engine's: their
    link is the read-only flag and the ready callback, which each file
    takes as an input.  What remains to do: one world composing the
    engine, the toolbar and the media pipeline, so that the read-only
    theorems of the three are stated about the same flag. *)

From stdpp Require Import base list sets strings.
From Stdlib Require Import ZArith Lia Ascii.
From Stdlib Require String.
Export String.StringSyntax.

Declare Scope wb_scope.
Delimit Scope wb_scope with wb.
Open Scope Z_scope.

(** ** JavaScript strings *)

(** A JavaScript string is a sequence of UTF-16 code units. *)
Abbreviation jsstring := (list Z).

(** String literals of the source, all ASCII, as code units. *)
Fixpoint js (s : String.string) : jsstring :=
  match s with
  | String.EmptyString => []
  | String.String a s' => Z.of_nat (nat_of_ascii a) :: js s'
  end.

Arguments js s%_string : simpl never.

(** [urlParams.get(k) || d]: [get] returns [null] or a string, and [||]
    keeps its left operand when it is truthy, i.e. a non-empty string. *)
Definition js_or (o : option jsstring) (d : jsstring) : jsstring :=
  match o with
  | Some (c :: s) => c :: s
  | _ => d
  end.

(** JavaScript truthiness of [urlParams.get(k)]. *)
Definition truthy (o : option jsstring) : bool :=
  match o with
  | Some (_ :: _) => true
  | _ => false
  end.

(** ** JavaScript values and plain objects *)

#[local] Set Warnings "-register-all".
Inductive jsval :=
| JStr (s : jsstring)
| JNum (n : Z)
| JBool (b : bool)
| JNull
| JArr (l : list jsval)
| JObj (o : list (jsstring * jsval)).

(** A plain object: its own properties in insertion order. *)
Abbreviation jsobj := (list (jsstring * jsval)).

(** Property read [o[k]] ([None] is [undefined]). *)
Fixpoint js_get (o : jsobj) (k : jsstring) : option jsval :=
  match o with
  | [] => None
  | (k', v) :: o' => if decide (k = k') then Some v else js_get o' k
  end.

(** Property assignment [o[k] = v]: an existing property keeps its place,
    a new one is appended. *)
Fixpoint js_set (o : jsobj) (k : jsstring) (v : jsval) : jsobj :=
  match o with
  | [] => [(k, v)]
  | (k', v') :: o' =>
      if decide (k = k') then (k, v) :: o' else (k', v') :: js_set o' k v
  end.

(** An object never has two properties of the same name. *)
Definition js_wf (o : jsobj) : Prop := NoDup (map fst o).

(** ** Sequencing of handler bodies *)

(** [f >>> g] runs [f] then [g] on the world: the statements of a
    handler body in the order the source writes them. *)
Notation "f >>> g" := (fun w => g (f w)) (at level 40, left associativity) : wb_scope.

(** ** Generic lemmas *)

Create HintDb wb.
Create Rewrite HintDb wb_rw.

Section JsObjects.

Lemma js_get_set_eq (o : jsobj) k v : js_get (js_set o k v) k = Some v.
Proof.
  induction o as [|[k' v'] o IH]; simpl; [by rewrite decide_True|].
  case_decide; simpl; [by rewrite decide_True|].
  rewrite decide_False by done. exact IH.
Qed.

Lemma js_get_set_ne (o : jsobj) k k' v :
  k' ≠ k -> js_get (js_set o k v) k' = js_get o k'.
Proof.
  intros Hne. induction o as [|[k0 v0] o IH]; simpl.
  - by rewrite decide_False.
  - case_decide as Hk; simpl.
    + subst k0. by rewrite !decide_False.
    + case_decide; [done|exact IH].
Qed.

Lemma js_set_keys_in (o : jsobj) k v :
  k ∈ map fst o -> map fst (js_set o k v) = map fst o.
Proof.
  induction o as [|[k0 v0] o IH]; simpl; intros Hin.
  - by apply not_elem_of_nil in Hin.
  - case_decide as Hk; simpl; [by subst|].
    rewrite IH; [done|]. apply elem_of_cons in Hin as [->|]; done.
Qed.

Lemma js_set_keys_notin (o : jsobj) k v :
  k ∉ map fst o -> map fst (js_set o k v) = map fst o ++ [k].
Proof.
  induction o as [|[k0 v0] o IH]; simpl; intros Hin; [done|].
  apply not_elem_of_cons in Hin as [Hk Hin].
  rewrite decide_False by congruence. simpl. by rewrite IH.
Qed.

(** Assignment keeps an object well formed. *)
Lemma js_set_wf (o : jsobj) k v : js_wf o -> js_wf (js_set o k v).
Proof.
  unfold js_wf. intros Hnd. destruct (decide (k ∈ map fst o)).
  - by rewrite js_set_keys_in.
  - rewrite js_set_keys_notin by done.
    apply NoDup_app. split_and!; [done| |by apply NoDup_singleton].
    intros x Hx ->%list_elem_of_singleton. done.
Qed.

End JsObjects.

#[export] Hint Rewrite js_get_set_eq : wb_rw.
#[export] Hint Resolve js_set_wf : wb.

Section Filters.
Context {A : Type} (f : A -> bool).

Lemma filter_idem (l : list A) : List.filter f (List.filter f l) = List.filter f l.
Proof. apply forallb_filter_id, forallb_filter. Qed.

Lemma filter_all_true (l : list A) : forallb f (List.filter f l) = true.
Proof. apply forallb_filter. Qed.

Lemma filter_app_bool (l1 l2 : list A) :
  List.filter f (l1 ++ l2) = List.filter f l1 ++ List.filter f l2.
Proof. induction l1 as [|x l1 IH]; simpl; [done|]. destruct (f x); simpl; by rewrite IH. Qed.

Lemma filter_none (l : list A) : forallb (fun x => negb (f x)) l = true -> List.filter f l = [].
Proof. induction l as [|x l IH]; simpl; [done|]. destruct (f x); simpl; [done|exact IH]. Qed.

End Filters.

#[export] Hint Rewrite @filter_idem @filter_app_bool : wb_rw.

(** Induction that may consume one or two elements at a time, following
    loops that read a surrogate pair or an escape in one iteration. *)
Lemma list_pair_ind {A} (P : list A -> Prop) :
  P [] ->
  (forall c s, P s -> P (c :: s)) ->
  (forall c d s, P s -> P (c :: d :: s)) ->
  forall s, P s.
Proof.
  intros H0 H1 H2 s. cut (P s /\ forall c, P (c :: s)); [tauto|].
  induction s as [|x s [IHs IHc]]; split; auto.
Qed.

(** Strong induction on the length of a list, for loops that skip ahead. *)
Lemma list_length_ind {A} (P : list A -> Prop) :
  (forall s, (forall t, (length t < length s)%nat -> P t) -> P s) -> forall s, P s.
Proof.
  intros H s. remember (length s) as n eqn:Hn. revert s Hn.
  induction n as [n IH] using (well_founded_induction lt_wf).
  intros s ->. apply H. intros t Ht. by apply (IH (length t)).
Qed.

(** Iterating a world transformer, for handlers registered [n] times. *)
Lemma iter_succ_r {A} (n : nat) (f : A -> A) (a : A) :
  Nat.iter (S n) f a = Nat.iter n f (f a).
Proof. induction n as [|n IH]; simpl; [done|]. by rewrite <- IH. Qed.

(** A property kept by [f] is kept by [Nat.iter n f]. *)
Lemma iter_inv {A} (P : A -> Prop) (f : A -> A) (n : nat) (a : A) :
  (forall x, P x -> P (f x)) -> P a -> P (Nat.iter n f a).
Proof. intros Hf Ha. induction n as [|n IH]; simpl; auto. Qed.

Lemma repeat_S_r {A} (x : A) (n : nat) : repeat x (S n) = repeat x n ++ [x].
Proof. rewrite <- repeat_cons. reflexivity. Qed.

(** A property kept by every step of a [fold_left] is kept by the fold. *)
Lemma fold_left_inv {A B} (P : A -> Prop) (f : A -> B -> A) (l : list B) (a : A) :
  (forall x b, b ∈ l -> P x -> P (f x b)) -> P a -> P (fold_left f l a).
Proof.
  revert a. induction l as [|b l IH]; intros a Hf Ha; simpl; [done|].
  apply IH; [intros x b' Hb'; apply Hf; by right|]. apply Hf; [left|done].
Qed.

(** A fold whose steps leave the start value in place returns it. *)
Lemma fold_left_fixed {A B} (f : A -> B -> A) (l : list B) (a : A) :
  (forall b, f a b = a) -> fold_left f l a = a.
Proof. intros Hf. induction l as [|b l IH]; simpl; [done|]. by rewrite Hf. Qed.

(** A map [g] that commutes with every step of a fold commutes with the fold. *)
Lemma fold_left_comm {A B} (g : A -> A) (f : A -> B -> A) (l : list B) (a : A) :
  (forall x b, f (g x) b = g (f x b)) -> fold_left f l (g a) = g (fold_left f l a).
Proof. intros Hg. revert a. induction l as [|b l IH]; intros a; simpl; [done|]. by rewrite Hg, IH. Qed.

(** A fold that takes [P j] to [P (S j)] at every step ends in [P (length l)]. *)
Lemma fold_left_count {A B} (P : nat -> A -> Prop) (f : A -> B -> A) (l : list B) (a : A) :
  P 0%nat a -> (forall j x b, P j x -> P (S j) (f x b)) -> P (length l) (fold_left f l a).
Proof.
  intros H0 Hs. cut (forall j a, P j a -> P (j + length l)%nat (fold_left f l a)); [intros H; apply (H 0%nat); done|].
  induction l as [|b l IH]; intros j x Hx; simpl; [by rewrite Nat.add_0_r|].
  rewrite <- Nat.add_succ_comm. apply IH. by apply Hs.
Qed.

(** A sum over a list after the element at [i] is replaced. *)
Lemma sum_list_with_insert {A} (f : A -> nat) (l : list A) i x y :
  l !! i = Some x -> (sum_list_with f (<[i := y]> l) + f x = sum_list_with f l + f y)%nat.
Proof.
  revert i. induction l as [|z l IH]; intros [|i] Hi; simpl in *; try done.
  - injection Hi as ->. lia.
  - specialize (IH i Hi). lia.
Qed.

Lemma sum_list_with_plus {A} (f g : A -> nat) (l : list A) :
  sum_list_with (fun x => f x + g x)%nat l = (sum_list_with f l + sum_list_with g l)%nat.
Proof. induction l as [|x l IH]; simpl; [done|]. rewrite IH. lia. Qed.

(** The development's routine closing tactic: rewrite with [wb_rw], compute,
    and close what remains by [lia] or [done]. *)
Ltac wb_auto := repeat progress (autorewrite with wb_rw in *; simpl in *); try done; try lia.

(** Decide equalities between string literals of the source. *)
Ltac js_decide :=
  repeat match goal with
  | |- context [decide (js ?a = js ?b)] =>
      let H := fresh "Hjs" in
      destruct (decide (js a = js b)) as [H|H];
      [ try (exfalso; vm_compute in H; congruence) | try (exfalso; apply H; reflexivity) ]
  end.
