(* ===== verification/JsString.v ===== *)
(** * JsString: the ECMAScript string builtins called by [main.js]

    Line 29 of [main.js] normalises the whiteboard id with
    [unescape(encodeURIComponent(whiteboardId)).replace(/[^a-zA-Z0-9\-]/g, "")],
    line 36 builds the default user name with [substring(2, 6)] and line
    149 passes the user name through [btoa].  This file gives these
    builtins as executable functions on strings of UTF-16 code units,
    following the algorithms of ECMA-262 (Encode, B.2.1.2 unescape,
    String.prototype.substring) and of the HTML standard (btoa), and
    proves what the normalisation needs: [encodeURIComponent] fails
    exactly on lone surrogates, and on a well-formed string
    [unescape (encodeURIComponent s)] is the UTF-8 encoding of [s], one
    code unit per byte. *)

From stdpp Require Import base list.
From Stdlib Require Import ZArith Lia.
From S2P Require Import Prelude.
Open Scope Z_scope.

Module Utf16.

Definition is_high (c : Z) : bool := (0xD800 <=? c) && (c <=? 0xDBFF).
Definition is_low (c : Z) : bool := (0xDC00 <=? c) && (c <=? 0xDFFF).

(** UTF16SurrogatePairToCodePoint. *)
Definition pair_cp (hi lo : Z) : Z := 0x10000 + (hi - 0xD800) * 0x400 + (lo - 0xDC00).

(** A well-formed string: code units of 16 bits, every leading surrogate
    followed by a trailing one, no trailing surrogate alone. *)
Fixpoint wf (s : jsstring) : bool :=
  match s with
  | [] => true
  | c :: s1 =>
      (0 <=? c) && (c <=? 0xFFFF) &&
      (if is_low c then false
       else if is_high c then
         match s1 with
         | d :: s2 => is_low d && wf s2
         | [] => false
         end
       else wf s1)
  end.

(** The code points of a string (CodePointAt read left to right; a lone
    surrogate stands for itself). *)
Fixpoint code_points (s : jsstring) : list Z :=
  match s with
  | [] => []
  | c :: s1 =>
      if is_high c then
        match s1 with
        | d :: s2 => if is_low d then pair_cp c d :: code_points s2 else c :: code_points s1
        | [] => [c]
        end
      else c :: code_points s1
  end.

End Utf16.

Module Utf8.

(** The UTF-8 octets of a code point (ECMA-262 CodePointToUTF8 / RFC 3629). *)
Definition encode (cp : Z) : list Z :=
  if cp <? 0x80 then [cp]
  else if cp <? 0x800 then
    [0xC0 + Z.shiftr cp 6; 0x80 + Z.land cp 63]
  else if cp <? 0x10000 then
    [0xE0 + Z.shiftr cp 12; 0x80 + Z.land (Z.shiftr cp 6) 63; 0x80 + Z.land cp 63]
  else
    [0xF0 + Z.shiftr cp 18; 0x80 + Z.land (Z.shiftr cp 12) 63;
     0x80 + Z.land (Z.shiftr cp 6) 63; 0x80 + Z.land cp 63].

(** The UTF-8 encoding of a string. *)
Definition of_utf16 (s : jsstring) : list Z := concat (map encode (Utf16.code_points s)).

End Utf8.

(** ** encodeURIComponent *)

Definition in_range (lo hi c : Z) : bool := (lo <=? c) && (c <=? hi).

(** uriUnreserved: ASCII letters, digits and [-_.!~*'()]. *)
Definition uri_unreserved (c : Z) : bool :=
  in_range 65 90 c || in_range 97 122 c || in_range 48 57 c ||
  bool_decide (c ∈ [45; 95; 46; 33; 126; 42; 39; 40; 41]).

(** An upper-case hexadecimal digit. *)
Definition hex_digit (d : Z) : Z := if d <? 10 then 48 + d else 55 + d.

(** ["%" + two upper-case hex digits] of one octet. *)
Definition pct_octet (b : Z) : jsstring := [37; hex_digit (Z.shiftr b 4); hex_digit (Z.land b 15)].

Definition pct_octets (bs : list Z) : jsstring := concat (map pct_octet bs).

(** Encode(string, uriUnreserved): [None] is the [URIError] thrown on an
    unpaired surrogate. *)
Fixpoint encodeURIComponent (s : jsstring) : option jsstring :=
  match s with
  | [] => Some []
  | c :: s1 =>
      if uri_unreserved c then (c ::.) <$> encodeURIComponent s1
      else if Utf16.is_low c then None
      else if Utf16.is_high c then
        match s1 with
        | d :: s2 =>
            if Utf16.is_low d
            then (pct_octets (Utf8.encode (Utf16.pair_cp c d)) ++.) <$> encodeURIComponent s2
            else None
        | [] => None
        end
      else (pct_octets (Utf8.encode c) ++.) <$> encodeURIComponent s1
  end.

(** ** unescape (ECMA-262 B.2.1.2) *)

Definition is_hex (c : Z) : bool := in_range 48 57 c || in_range 65 70 c || in_range 97 102 c.

Definition hex_val (c : Z) : Z :=
  if in_range 48 57 c then c - 48 else if in_range 65 70 c then c - 55 else c - 87.

(** [%uXXXX] (k + 6 <= len) is tried first, then [%XX] (k + 3 <= len); a
    [%] that starts neither is copied. *)
Fixpoint unescape (s : jsstring) : jsstring :=
  match s with
  | [] => []
  | c :: s1 =>
      if negb (c =? 37) then c :: unescape s1 else
      match s1 with
      | h1 :: s2 =>
          match s2 with
          | h2 :: s3 =>
              if h1 =? 117 then
                match s3 with
                | h3 :: h4 :: h5 :: s6 =>
                    if is_hex h2 && is_hex h3 && is_hex h4 && is_hex h5
                    then (4096 * hex_val h2 + 256 * hex_val h3 + 16 * hex_val h4 + hex_val h5)
                           :: unescape s6
                    else c :: unescape s1
                | _ => c :: unescape s1
                end
              else if is_hex h1 && is_hex h2 then (16 * hex_val h1 + hex_val h2) :: unescape s3
              else c :: unescape s1
          | [] => c :: unescape s1
          end
      | [] => c :: unescape s1
      end
  end.

(** ** String.prototype.substring and btoa *)

Definition clamp (len : nat) (z : Z) : nat := Z.to_nat (Z.max 0 (Z.min z (Z.of_nat len))).

(** [s.substring(a, b)]: both bounds clamped to [0, length], swapped when
    the first is the larger. *)
Definition substring (s : jsstring) (a b : Z) : jsstring :=
  let i := clamp (length s) a in
  let j := clamp (length s) b in
  take (Nat.max i j - Nat.min i j) (drop (Nat.min i j) s).

Definition b64_char (i : Z) : Z :=
  if i <? 26 then 65 + i else if i <? 52 then 71 + i else if i <? 62 then i - 4
  else if i =? 62 then 43 else 47.

(** Base64 of a byte string, padded with [=]. *)
Fixpoint base64 (bs : list Z) : jsstring :=
  match bs with
  | a :: b :: c :: r =>
      [b64_char (Z.shiftr a 2); b64_char (Z.lor (Z.shiftl (Z.land a 3) 4) (Z.shiftr b 4));
       b64_char (Z.lor (Z.shiftl (Z.land b 15) 2) (Z.shiftr c 6)); b64_char (Z.land c 63)]
      ++ base64 r
  | [a; b] =>
      [b64_char (Z.shiftr a 2); b64_char (Z.lor (Z.shiftl (Z.land a 3) 4) (Z.shiftr b 4));
       b64_char (Z.shiftl (Z.land b 15) 2); 61]
  | [a] => [b64_char (Z.shiftr a 2); b64_char (Z.shiftl (Z.land a 3) 4); 61; 61]
  | [] => []
  end.

(** [btoa(s)]: [None] is the [InvalidCharacterError] thrown when a code
    unit is above 0xFF. *)
Definition btoa (s : jsstring) : option jsstring :=
  if forallb (fun c => c <=? 255) s then Some (base64 s) else None.

(** ** Arithmetic of the bit operations *)

Definition is_byte (b : Z) : Prop := 0 <= b < 256.

Section Bits.

Lemma shiftr_div (x n : Z) : 0 <= n -> Z.shiftr x n = x / 2 ^ n.
Proof. apply Z.shiftr_div_pow2. Qed.

Lemma land_mod (x n : Z) : 0 <= n -> Z.land x (2 ^ n - 1) = x mod 2 ^ n.
Proof. intros Hn. rewrite <- Z.land_ones by done. f_equal. by rewrite Z.ones_equiv. Qed.

Lemma land_15 x : Z.land x 15 = x mod 16.
Proof. apply (land_mod x 4). lia. Qed.

Lemma land_63 x : Z.land x 63 = x mod 64.
Proof. apply (land_mod x 6). lia. Qed.

Lemma land_3 x : Z.land x 3 = x mod 4.
Proof. apply (land_mod x 2). lia. Qed.

Lemma shiftr_2 x : Z.shiftr x 2 = x / 4.
Proof. by apply shiftr_div. Qed.
Lemma shiftr_4 x : Z.shiftr x 4 = x / 16.
Proof. by apply shiftr_div. Qed.
Lemma shiftr_6 x : Z.shiftr x 6 = x / 64.
Proof. by apply shiftr_div. Qed.
Lemma shiftr_12 x : Z.shiftr x 12 = x / 4096.
Proof. by apply shiftr_div. Qed.
Lemma shiftr_18 x : Z.shiftr x 18 = x / 262144.
Proof. by apply shiftr_div. Qed.

End Bits.

Create Rewrite HintDb wb_bits.
#[export] Hint Rewrite land_3 land_15 land_63 shiftr_2 shiftr_4 shiftr_6 shiftr_12 shiftr_18 : wb_bits.

(** Turn the bit operations into division and remainder, then [lia]. *)
Ltac bits_lia := unfold is_byte in *; autorewrite with wb_bits in *; Z.div_mod_to_equations; lia.

(** ** Hexadecimal digits *)

Lemma hex_digit_spec d :
  0 <= d < 16 -> is_hex (hex_digit d) = true /\ hex_val (hex_digit d) = d /\ (hex_digit d =? 117) = false.
Proof.
  intros Hd.
  assert (d = 0 \/ d = 1 \/ d = 2 \/ d = 3 \/ d = 4 \/ d = 5 \/ d = 6 \/ d = 7 \/ d = 8 \/
          d = 9 \/ d = 10 \/ d = 11 \/ d = 12 \/ d = 13 \/ d = 14 \/ d = 15) as Hcases by lia.
  repeat destruct Hcases as [-> | Hcases]; try (subst d); vm_compute; auto.
Qed.

Lemma unescape_plain c t : c <> 37 -> unescape (c :: t) = c :: unescape t.
Proof. intros Hc. simpl. by rewrite (proj2 (Z.eqb_neq c 37) Hc). Qed.

(** [unescape] decodes the escape [pct_octet b] of a byte back to [b]. *)
Lemma unescape_pct_octet b t : is_byte b -> unescape (pct_octet b ++ t) = b :: unescape t.
Proof.
  intros Hb. unfold pct_octet.
  destruct (hex_digit_spec (Z.shiftr b 4)) as (H1 & V1 & U1); [bits_lia|].
  destruct (hex_digit_spec (Z.land b 15)) as (H2 & V2 & _); [bits_lia|].
  simpl. rewrite U1, H1, H2, V1, V2. f_equal. bits_lia.
Qed.

Lemma unescape_pct_octets bs t :
  Forall is_byte bs -> unescape (pct_octets bs ++ t) = bs ++ unescape t.
Proof.
  induction 1 as [|b bs Hb _ IH]; [done|].
  change (pct_octets (b :: bs)) with (pct_octet b ++ pct_octets bs).
  rewrite <- app_assoc, unescape_pct_octet by done. simpl. by rewrite IH.
Qed.

(** ** UTF-8 *)

Lemma utf8_encode_ascii cp : 0 <= cp < 0x80 -> Utf8.encode cp = [cp].
Proof. intros Hcp. unfold Utf8.encode. destruct (Z.ltb_spec cp 0x80); [done|lia]. Qed.

(** Every octet of a code point is a byte, and above ASCII every octet
    has its high bit set. *)
Lemma utf8_encode_bytes cp :
  0 <= cp <= 0x10FFFF ->
  Forall (fun b => is_byte b /\ (0x80 <= cp -> 0x80 <= b)) (Utf8.encode cp).
Proof.
  intros Hcp. unfold Utf8.encode, is_byte.
  destruct (Z.ltb_spec cp 0x80); [repeat constructor; lia|].
  destruct (Z.ltb_spec cp 0x800); [repeat constructor; bits_lia|].
  destruct (Z.ltb_spec cp 0x10000); repeat constructor; bits_lia.
Qed.

Lemma utf8_encode_is_byte cp : 0 <= cp <= 0x10FFFF -> Forall is_byte (Utf8.encode cp).
Proof. intros H. eapply Forall_impl; [by apply utf8_encode_bytes|]. by intros b []. Qed.

Lemma pair_cp_range c d :
  Utf16.is_high c = true -> Utf16.is_low d = true -> 0x10000 <= Utf16.pair_cp c d <= 0x10FFFF.
Proof. unfold Utf16.is_high, Utf16.is_low, Utf16.pair_cp. intros H1 H2. lia. Qed.

Lemma of_utf16_single c s :
  Utf16.is_high c = false -> Utf8.of_utf16 (c :: s) = Utf8.encode c ++ Utf8.of_utf16 s.
Proof. intros H. unfold Utf8.of_utf16. simpl. by rewrite H. Qed.

Lemma of_utf16_pair c d s :
  Utf16.is_high c = true -> Utf16.is_low d = true ->
  Utf8.of_utf16 (c :: d :: s) = Utf8.encode (Utf16.pair_cp c d) ++ Utf8.of_utf16 s.
Proof. intros H1 H2. unfold Utf8.of_utf16. simpl. by rewrite H1, H2. Qed.

(** The cases of a well-formed string. *)
Lemma wf_cons c s :
  Utf16.wf (c :: s) = true ->
  0 <= c <= 0xFFFF /\ Utf16.is_low c = false /\
  (if Utf16.is_high c then exists d s2, s = d :: s2 /\ Utf16.is_low d = true /\ Utf16.wf s2 = true
   else Utf16.wf s = true).
Proof.
  simpl. intros H. apply andb_prop in H as [Hr H]. apply andb_prop in Hr as [H0 H1].
  apply Z.leb_le in H0. apply Z.leb_le in H1.
  destruct (Utf16.is_low c); [done|]. split; [lia|]. split; [done|].
  destruct (Utf16.is_high c); [|done].
  destruct s as [|d s2]; [done|]. apply andb_prop in H as [Hd Hs]. eauto.
Qed.

Lemma unreserved_ascii c : uri_unreserved c = true -> 0 <= c < 0x80 /\ c <> 37.
Proof.
  unfold uri_unreserved, in_range. intros H.
  repeat (apply orb_prop in H as [H|H]); try (apply andb_prop in H as [H1 H2];
    apply Z.leb_le in H1; apply Z.leb_le in H2; lia).
  apply bool_decide_eq_true in H. repeat (apply elem_of_cons in H as [->|H]; [lia|]).
  by apply not_elem_of_nil in H.
Qed.

Lemma unreserved_not_surrogate c :
  uri_unreserved c = true -> Utf16.is_high c = false /\ Utf16.is_low c = false.
Proof.
  intros [Hc _]%unreserved_ascii. unfold Utf16.is_high, Utf16.is_low.
  split; apply andb_false_iff; left; apply Z.leb_gt; lia.
Qed.

Lemma fmap_unescape_pct bs (o : option jsstring) r :
  Forall is_byte bs -> unescape <$> o = Some r ->
  unescape <$> ((pct_octets bs ++.) <$> o) = Some (bs ++ r).
Proof.
  intros Hbs Ho. destruct o as [e|]; simpl in *; [|done].
  injection Ho as <-. by rewrite unescape_pct_octets.
Qed.

Lemma fmap_unescape_plain c (o : option jsstring) r :
  c <> 37 -> unescape <$> o = Some r -> unescape <$> ((c ::.) <$> o) = Some ([c] ++ r).
Proof.
  intros Hc Ho. destruct o as [e|]; [|done].
  injection Ho as <-. cbn [fmap option_fmap option_map]. by rewrite unescape_plain.
Qed.

Lemma surrogate_range c : Utf16.is_high c = true -> 0 <= c <= 0xFFFF.
Proof. unfold Utf16.is_high. lia. Qed.

(** ** The round trip and the error case of line 29 *)

Lemma encode_roundtrip (s : jsstring) :
  Utf16.wf s = true -> unescape <$> encodeURIComponent s = Some (Utf8.of_utf16 s).
Proof.
  induction s as [s IH] using list_length_ind.
  destruct s as [|c s]; [done|]. intros Hwf.
  destruct (wf_cons c s Hwf) as (Hc & Hlow & Hrest). simpl encodeURIComponent.
  destruct (uri_unreserved c) eqn:Hu.
  - destruct (unreserved_not_surrogate c Hu) as [Hhi _]. rewrite Hhi in Hrest.
    destruct (unreserved_ascii c Hu) as [Ha Hpct].
    rewrite of_utf16_single, utf8_encode_ascii by done.
    apply fmap_unescape_plain; [done|]. apply IH; [simpl; lia|done].
  - rewrite Hlow. destruct (Utf16.is_high c) eqn:Hhi.
    + destruct Hrest as (d & s2 & -> & Hd & Hs2). rewrite Hd, of_utf16_pair by done.
      pose proof (pair_cp_range c d Hhi Hd).
      apply fmap_unescape_pct; [apply utf8_encode_is_byte; lia|].
      apply IH; [simpl; lia|done].
    + rewrite of_utf16_single by done.
      apply fmap_unescape_pct; [apply utf8_encode_is_byte; lia|].
      apply IH; [simpl; lia|done].
Qed.

(** C16: On a well-formed string, [unescape] undoes [encodeURIComponent] up to
    UTF-8: the result is the UTF-8 encoding of the string, one code unit
    per byte. *)
Theorem unescape_encodeURIComponent (s : jsstring) :
  Utf16.wf s = true -> unescape <$> encodeURIComponent s = Some (Utf8.of_utf16 s).
Proof. apply encode_roundtrip. Qed.

(** C17: For a string of 16-bit code units, [encodeURIComponent] throws
    ([None]) exactly when the string is not well formed, i.e. has an
    unpaired surrogate. *)
Theorem encodeURIComponent_fails_iff (s : jsstring) :
  forallb (in_range 0 0xFFFF) s = true ->
  (encodeURIComponent s = None <-> Utf16.wf s = false).
Proof.
  induction s as [s IH] using list_length_ind.
  destruct s as [|c s]; [done|]. simpl forallb. intros [Hc Hs]%andb_prop.
  assert (Hw : Utf16.wf (c :: s) =
    if Utf16.is_low c then false else if Utf16.is_high c then
      match s with d :: s2 => Utf16.is_low d && Utf16.wf s2 | [] => false end
    else Utf16.wf s).
  { simpl. unfold in_range in Hc. by rewrite Hc. }
  rewrite Hw. simpl encodeURIComponent.
  destruct (uri_unreserved c) eqn:Hu.
  - destruct (unreserved_not_surrogate c Hu) as [-> ->]. rewrite fmap_None.
    apply IH; [simpl; lia|done].
  - destruct (Utf16.is_low c); [done|]. destruct (Utf16.is_high c).
    + destruct s as [|d s2]; [done|]. simpl in Hs. apply andb_prop in Hs as [_ Hs2].
      destruct (Utf16.is_low d); [|done]. rewrite fmap_None. apply IH; [simpl; lia|done].
    + rewrite fmap_None. apply IH; [simpl; lia|done].
Qed.

(** ** Witnesses *)

Lemma unescape_encodeURIComponent_witness :
  Utf16.wf (js "My Board" ++ [0xE9; 0xD83D; 0xDE00]) = true /\
  unescape <$> encodeURIComponent (js "My Board" ++ [0xE9; 0xD83D; 0xDE00]) =
    Some (Utf8.of_utf16 (js "My Board" ++ [0xE9; 0xD83D; 0xDE00])).
Proof. split; [reflexivity|]. apply unescape_encodeURIComponent. reflexivity. Defined.

Lemma encodeURIComponent_fails_iff_witness :
  forallb (in_range 0 0xFFFF) [65; 0xDC00] = true /\
  (encodeURIComponent [65; 0xDC00] = None <-> Utf16.wf [65; 0xDC00] = false).
Proof. split; [reflexivity|]. apply encodeURIComponent_fails_iff. reflexivity. Defined.
