(* ===== verification/SessionIdentity.v ===== *)
(** * SessionIdentity: lines 15-37 of [main.js]

    The top level of [main.js] reads the query string into a
    [URLSearchParams] object, resolves the whiteboard id (random-id mode,
    default name, the normalisation of line 29), rewrites
    [window.location.search] when the id changed, and reads the user name
    and the access token.  The query string is an association list with
    the [URLSearchParams] methods [get], [set] and [delete]; every
    assignment to [window.location.search] is recorded as a navigation
    carrying the parameters at that moment (the browser follows the last
    one).  The theorems characterise the normalisation (it is the filter
    of the regular expression applied to the code units of the id,
    idempotent, its output in the character class), the random-id mode,
    and the stability of the rewritten location. *)

From stdpp Require Import base list.
From Stdlib Require Import ZArith Lia.
From S2P Require Import Prelude JsString.
Open Scope Z_scope.

(** ** URLSearchParams *)

Module UrlParams.

Abbreviation params := (list (jsstring * jsstring)).

(** [get(name)]: the value of the first pair named [name], or [null]. *)
Fixpoint get (p : params) (k : jsstring) : option jsstring :=
  match p with
  | [] => None
  | (k', v) :: p' => if decide (k = k') then Some v else get p' k
  end.

(** [delete(name)]: remove every pair named [name]. *)
Definition delete (p : params) (k : jsstring) : params :=
  List.filter (fun kv => negb (bool_decide (kv.1 = k))) p.

(** [set(name, value)]: overwrite the first pair named [name] and remove
    the others, or append the pair. *)
Fixpoint set (p : params) (k v : jsstring) : params :=
  match p with
  | [] => [(k, v)]
  | (k', v') :: p' => if decide (k = k') then (k, v) :: delete p' k else (k', v') :: set p' k v
  end.

End UrlParams.

Import UrlParams.

(** ** The whiteboard id *)

(** The class [[a-zA-Z0-9\-]] of the regular expression of line 29. *)
Definition is_id_char (c : Z) : bool :=
  in_range 97 122 c || in_range 65 90 c || in_range 48 57 c || (c =? 45).

(** Line 29: [unescape(encodeURIComponent(id)).replace(/[^a-zA-Z0-9\-]/g, "")];
    [None] is the [URIError] of [encodeURIComponent]. *)
Definition normalize (raw : jsstring) : option jsstring :=
  (fun e => List.filter is_id_char (unescape e)) <$> encodeURIComponent raw.

(** The outcome of lines 15-34: the id, the final state of the shared
    [urlParams] object, and the assignments to [window.location.search]
    in program order. *)
Record Resolved := {
  r_wid : jsstring;
  r_params : params;
  r_navigations : list params;
}.

(** Lines 15-34.  [fresh] is the value [uuidv4()] returns.  [None] is the
    exception line 29 throws. *)
Definition resolveWhiteboardId (p0 : params) (fresh : jsstring) : option Resolved :=
  let '(wid1, p1, nav1) :=
    if truthy (get p0 (js "randomid"))
    then (Some fresh, delete p0 (js "randomid"), [delete p0 (js "randomid")])
    else (get p0 (js "whiteboardid"), p0, []) in
  let wid2 := if truthy wid1 then default [] wid1 else js "myNewWhiteboard" in
  wid3 ← normalize wid2;
  if decide (get p1 (js "whiteboardid") = Some wid3)
  then Some {| r_wid := wid3; r_params := p1; r_navigations := nav1 |}
  else
    let p2 := set p1 (js "whiteboardid") wid3 in
    Some {| r_wid := wid3; r_params := p2; r_navigations := nav1 ++ [p2] |}.

(** Line 36: the user name, or ["unknown"] followed by characters 2 to 5
    of the decimal string of [Math.random()] (given as [rnd]). *)
Definition myUsername (p : params) (rnd : jsstring) : jsstring :=
  js_or (get p (js "username")) (js "unknown" ++ substring rnd 2 6).

(** Line 37. *)
Definition accessToken (p : params) : jsstring := js_or (get p (js "accesstoken")) [].

(** ** Lemmas on URLSearchParams *)

Section UrlParamsFacts.

Lemma get_delete_eq (p : params) k : get (delete p k) k = None.
Proof.
  induction p as [|[k' v] p IH]; [done|]. unfold delete in *; simpl.
  case_bool_decide; simpl; [exact IH|]. rewrite decide_False by congruence. exact IH.
Qed.

Lemma get_delete_ne (p : params) k k' : k' ≠ k -> get (delete p k) k' = get p k'.
Proof.
  intros Hne. induction p as [|[k0 v] p IH]; [done|]. unfold delete in *; simpl.
  case_bool_decide as Hk; simpl.
  - subst k0. rewrite decide_False by done. exact IH.
  - case_decide; [done|exact IH].
Qed.

Lemma get_set_eq (p : params) k v : get (set p k v) k = Some v.
Proof.
  induction p as [|[k' v'] p IH]; simpl; [by rewrite decide_True|].
  case_decide; simpl; [by rewrite decide_True|]. by rewrite decide_False.
Qed.

Lemma get_set_ne (p : params) k k' v : k' ≠ k -> get (set p k v) k' = get p k'.
Proof.
  intros Hne. induction p as [|[k0 v0] p IH]; simpl; [by rewrite decide_False|].
  case_decide as Hk; simpl.
  - subst k0. rewrite !decide_False by done. by apply get_delete_ne.
  - case_decide; [done|exact IH].
Qed.

End UrlParamsFacts.

#[export] Hint Rewrite get_delete_eq get_set_eq : wb_rw.
#[export] Hint Rewrite get_delete_ne get_set_ne using (vm_compute; congruence) : wb_rw.

(** ** Lemmas on the normalisation *)

Section NormalizeLemmas.

Lemma id_char_ascii c : is_id_char c = true -> 0 <= c < 0x80.
Proof.
  unfold is_id_char, in_range. intros H.
  repeat (apply orb_prop in H as [H|H]); try (apply Z.eqb_eq in H; lia);
  apply andb_prop in H as [H1 H2]; apply Z.leb_le in H1; apply Z.leb_le in H2; lia.
Qed.

Lemma id_char_unreserved c : is_id_char c = true -> uri_unreserved c = true.
Proof.
  unfold is_id_char, uri_unreserved. intros H.
  repeat (apply orb_prop in H as [H|H]); try (rewrite H; by rewrite ?orb_true_r).
  apply Z.eqb_eq in H as ->. reflexivity.
Qed.

(** A string of the character class is its own encoding and unescaping. *)
Lemma encode_id_chars (n : jsstring) :
  forallb is_id_char n = true -> encodeURIComponent n = Some n.
Proof.
  induction n as [|c n IH]; [done|]. simpl. intros [Hc Hn]%andb_prop.
  rewrite id_char_unreserved by done. by rewrite IH.
Qed.

Lemma unescape_id_chars (n : jsstring) : forallb is_id_char n = true -> unescape n = n.
Proof.
  induction n as [|c n IH]; [done|]. simpl forallb. intros [Hc Hn]%andb_prop.
  destruct (id_char_ascii c Hc). rewrite unescape_plain, IH; [done|done|].
  intros ->. discriminate.
Qed.

Lemma filter_high_bytes (bs : list Z) :
  Forall (fun b => 0x80 <= b) bs -> List.filter is_id_char bs = [].
Proof.
  intros H. apply filter_none. apply forallb_forall. intros b Hb.
  rewrite Forall_forall in H. specialize (H b (proj2 (list_elem_of_In _ _) Hb)).
  destruct (is_id_char b) eqn:E; [|done]. apply id_char_ascii in E. lia.
Qed.

(** The class of line 29 removes every UTF-8 byte of a non-ASCII code
    point, as it removes the code units of that code point. *)
Lemma filter_encode cp :
  0 <= cp <= 0x10FFFF -> List.filter is_id_char (Utf8.encode cp) = List.filter is_id_char [cp].
Proof.
  intros Hcp. destruct (Z.ltb_spec cp 0x80).
  - by rewrite utf8_encode_ascii by lia.
  - rewrite filter_high_bytes.
    + simpl. destruct (is_id_char cp) eqn:E; [apply id_char_ascii in E; lia|done].
    + eapply Forall_impl; [by apply utf8_encode_bytes|]. intros b [_ Hb]. lia.
Qed.

Lemma surrogate_not_id c : Utf16.is_high c = true \/ Utf16.is_low c = true -> is_id_char c = false.
Proof.
  unfold Utf16.is_high, Utf16.is_low. intros H.
  destruct (is_id_char c) eqn:E; [|done]. apply id_char_ascii in E. lia.
Qed.

Lemma filter_of_utf16 (s : jsstring) :
  Utf16.wf s = true -> List.filter is_id_char (Utf8.of_utf16 s) = List.filter is_id_char s.
Proof.
  induction s as [s IH] using list_length_ind.
  destruct s as [|c s]; [done|]. intros Hwf.
  destruct (wf_cons c s Hwf) as (Hc & Hlow & Hrest).
  destruct (Utf16.is_high c) eqn:Hhi.
  - destruct Hrest as (d & s2 & -> & Hd & Hs2).
    pose proof (pair_cp_range c d Hhi Hd).
    rewrite (of_utf16_pair c d s2 Hhi Hd), filter_app_bool, filter_encode by lia.
    rewrite (IH s2); [|simpl; lia|done]. simpl.
    rewrite (surrogate_not_id c), (surrogate_not_id d) by (left + right; done).
    destruct (is_id_char (Utf16.pair_cp c d)) eqn:E; [apply id_char_ascii in E; lia|done].
  - rewrite (of_utf16_single c s Hhi), filter_app_bool, filter_encode by lia.
    rewrite (IH s); [|simpl; lia|done]. simpl. by destruct (is_id_char c).
Qed.

Lemma normalize_wf_filter (s : jsstring) :
  Utf16.wf s = true -> normalize s = Some (List.filter is_id_char s).
Proof.
  intros Hwf. unfold normalize.
  pose proof (encode_roundtrip s Hwf) as H.
  destruct (encodeURIComponent s) as [e|]; [|done].
  injection H as He. simpl. by rewrite He, filter_of_utf16.
Qed.

Lemma filter_none_id (s : jsstring) : forallb (fun c => negb (is_id_char c)) s = true -> List.filter is_id_char s = [].
Proof.
  induction s as [|c s IH]; simpl; [done|]. intros [Hc Hs]%andb_prop.
  apply negb_true_iff in Hc. rewrite Hc. by apply IH.
Qed.

End NormalizeLemmas.

(** ** Theorems on the whiteboard id *)

(** C14: On a well-formed id, the normalisation of line 29 is exactly the
    removal of the code units outside [[a-zA-Z0-9-]]: the UTF-8 detour
    through [encodeURIComponent] and [unescape] changes nothing. *)
Theorem normalize_is_filter (s : jsstring) :
  Utf16.wf s = true -> normalize s = Some (List.filter is_id_char s).
Proof. apply normalize_wf_filter. Qed.

Lemma normalize_fixed (s n : jsstring) :
  normalize s = Some n -> forallb is_id_char n = true /\ normalize n = Some n.
Proof.
  unfold normalize. intros H.
  destruct (encodeURIComponent s) as [e|]; [|done]. injection H as <-.
  split; [apply filter_all_true|].
  rewrite encode_id_chars by apply filter_all_true. simpl.
  rewrite unescape_id_chars by apply filter_all_true. by rewrite filter_idem.
Qed.

(** C15: The normalisation is idempotent, and its output lies in the
    character class [[a-zA-Z0-9-]]. *)
Theorem normalize_idempotent (s n : jsstring) :
  normalize s = Some n -> forallb is_id_char n = true /\ normalize n = Some n.
Proof. apply normalize_fixed. Qed.

(** ** Theorems on the resolution of lines 15-34 *)

Section ResolveLemmas.

Lemma randomid_ne_whiteboardid : js "randomid" ≠ js "whiteboardid".
Proof. vm_compute. congruence. Qed.

(** The shape of a successful resolution: the branch of line 19, the
    normalised id, and the branch of line 31. *)
Lemma resolve_cases p f r :
  resolveWhiteboardId p f = Some r ->
  exists p1 nav1 wid2,
    (if truthy (get p (js "randomid"))
     then p1 = delete p (js "randomid") /\ nav1 = [p1]
     else p1 = p /\ nav1 = []) /\
    normalize wid2 = Some (r_wid r) /\
    ((get p1 (js "whiteboardid") = Some (r_wid r) /\ r_params r = p1 /\ r_navigations r = nav1) \/
     (r_params r = set p1 (js "whiteboardid") (r_wid r) /\ r_navigations r = nav1 ++ [r_params r])).
Proof.
  unfold resolveWhiteboardId. intros H.
  destruct (truthy (get p (js "randomid"))) eqn:Hr; simpl in H;
  match type of H with context [normalize ?w] =>
    destruct (normalize w) as [wid3|] eqn:Hn; [|done]; eexists; eexists; exists w end;
  simpl in H; case_decide; injection H as <-; simpl; eauto 10.
Qed.

(** The resolved id is in normal form and is what the final location
    carries; the random-id parameter is not set there. *)
Lemma resolve_final p f r :
  resolveWhiteboardId p f = Some r ->
  normalize (r_wid r) = Some (r_wid r) /\
  get (r_params r) (js "whiteboardid") = Some (r_wid r) /\
  truthy (get (r_params r) (js "randomid")) = false /\
  ((r_navigations r = [] /\ r_params r = p) \/ last (r_navigations r) = Some (r_params r)).
Proof.
  intros (p1 & nav1 & wid2 & Hbr & Hn & Hend)%resolve_cases.
  apply normalize_fixed in Hn as [_ Hn]. split; [done|].
  assert (Hr1 : truthy (get p1 (js "randomid")) = false).
  { destruct (truthy (get p (js "randomid"))) eqn:Hr; destruct Hbr as [-> _];
      [by rewrite get_delete_eq|done]. }
  destruct Hend as [(Hg & -> & ->) | (-> & ->)].
  - split_and!; [done|done|]. destruct (truthy (get p _)); destruct Hbr as [-> ->]; [by right|by left].
  - rewrite get_set_eq, get_set_ne by apply randomid_ne_whiteboardid.
    split_and!; [done|done|]. right. by rewrite last_app.
Qed.

End ResolveLemmas.

(** C18: No reload loop: once the location has been rewritten, loading the
    page again with the rewritten query string resolves the same
    (non-empty) id and rewrites nothing, whatever [uuidv4()] returns. *)
Theorem resolve_stable (p : params) (f f' : jsstring) (r : Resolved) :
  resolveWhiteboardId p f = Some r -> r_wid r ≠ [] ->
  resolveWhiteboardId (r_params r) f' =
    Some {| r_wid := r_wid r; r_params := r_params r; r_navigations := [] |}.
Proof.
  intros Hres Hne. destruct (resolve_final p f r Hres) as (Hn & Hg & Hr & _).
  unfold resolveWhiteboardId. rewrite Hr, Hg.
  destruct (r_wid r) as [|c w] eqn:Hw; [done|]. simpl. rewrite Hn. simpl.
  by rewrite decide_True.
Qed.

(** C19: Random-id mode: with a truthy [randomid] parameter and a fresh
    id in the character class, the page resolves the fresh id, and the
    last location it navigates to carries it and no [randomid]. *)
Theorem resolve_random (p : params) (fresh : jsstring) :
  truthy (get p (js "randomid")) = true -> fresh ≠ [] -> forallb is_id_char fresh = true ->
  exists r, resolveWhiteboardId p fresh = Some r /\ r_wid r = fresh /\
    last (r_navigations r) = Some (r_params r) /\
    get (r_params r) (js "whiteboardid") = Some fresh /\ get (r_params r) (js "randomid") = None.
Proof.
  intros Hr Hne Hid.
  assert (Hn : normalize fresh = Some fresh).
  { unfold normalize. rewrite encode_id_chars by done. simpl.
    rewrite unescape_id_chars by done. f_equal. by apply forallb_filter_id. }
  unfold resolveWhiteboardId. rewrite Hr.
  destruct fresh as [|c w]; [done|]. simpl truthy. cbn iota beta. simpl default. rewrite Hn. simpl.
  case_decide as Hg; eexists; (split; [reflexivity|]); simpl; split_and!;
    rewrite ?last_app, ?get_set_eq; try done;
    rewrite ?get_set_ne by apply randomid_ne_whiteboardid; by rewrite get_delete_eq.
Qed.

(** C20: Any non-empty id made only of characters outside the class
    resolves to the empty id [""] on this load, although the default name
    is meant for an empty id: the default of line 26 is applied before the
    normalisation of line 29.  The location is rewritten to carry the
    empty id, and the next load, whatever [uuidv4()] returns, resolves
    ["myNewWhiteboard"], a different session. *)
Theorem resolve_symbols_only_id (p : params) (s f f' : jsstring) :
  truthy (get p (js "randomid")) = false -> get p (js "whiteboardid") = Some s -> s <> [] ->
  Utf16.wf s = true -> forallb (fun c => negb (is_id_char c)) s = true ->
  exists r, resolveWhiteboardId p f = Some r /\ r_wid r = [] /\
    get (r_params r) (js "whiteboardid") = Some [] /\ last (r_navigations r) = Some (r_params r) /\
    r_wid <$> resolveWhiteboardId (r_params r) f' = Some (js "myNewWhiteboard").
Proof.
  intros Hr Hg Hne Hwf Hs.
  assert (Hn : normalize s = Some []) by (rewrite normalize_wf_filter by done; by rewrite filter_none_id).
  unfold resolveWhiteboardId at 1. rewrite Hr, Hg.
  destruct s as [|c s']; [done|]. simpl truthy. cbn iota beta. simpl default. rewrite Hn. simpl.
  eexists; split; [reflexivity|]. cbn [r_wid r_params r_navigations last].
  rewrite get_set_eq. split_and!; [done|done|done|].
  unfold resolveWhiteboardId. rewrite get_set_ne, Hr by apply randomid_ne_whiteboardid.
  rewrite get_set_eq. simpl truthy. cbn iota beta.
  replace (normalize (js "myNewWhiteboard")) with (Some (js "myNewWhiteboard")) by (vm_compute; reflexivity).
  simpl. reflexivity.
Qed.

Lemma substring_2_6_length (s : jsstring) : length (substring s 2 6) = Nat.min 4 (length s - 2).
Proof.
  unfold substring, clamp. rewrite length_take, length_drop.
  destruct (length s) as [|[|[|[|[|[|n]]]]]]; simpl; lia.
Qed.

(** C21: Without a [username] parameter the name is ["unknown"] followed
    by [min 4 (length rnd - 2)] characters of the decimal string of
    [Math.random()]: fewer than four when that string is short. *)
Theorem myUsername_default (p : params) (rnd : jsstring) :
  truthy (get p (js "username")) = false ->
  myUsername p rnd = js "unknown" ++ substring rnd 2 6 /\
  length (substring rnd 2 6) = Nat.min 4 (length rnd - 2).
Proof.
  intros Hu. split; [|apply substring_2_6_length].
  unfold myUsername. destruct (get p (js "username")) as [[|c s]|]; done.
Qed.

(** ** Witnesses *)

Lemma normalize_is_filter_witness :
  Utf16.wf (js "My Board!!") = true /\
  normalize (js "My Board!!") = Some (List.filter is_id_char (js "My Board!!")).
Proof. split; [reflexivity|]. apply normalize_is_filter. reflexivity. Defined.

Lemma normalize_idempotent_witness :
  normalize (js "My Board!!") = Some (js "MyBoard") /\
  (forallb is_id_char (js "MyBoard") = true /\ normalize (js "MyBoard") = Some (js "MyBoard")).
Proof. split; [reflexivity|]. apply (normalize_idempotent (js "My Board!!")). reflexivity. Defined.

Lemma resolve_stable_witness :
  let r := {| r_wid := js "MyBoard"; r_params := [(js "whiteboardid", js "MyBoard")];
              r_navigations := [[(js "whiteboardid", js "MyBoard")]] |} in
  resolveWhiteboardId [(js "whiteboardid", js "My Board!!")] (js "u") = Some r /\
  r_wid r ≠ [] /\
  resolveWhiteboardId (r_params r) (js "v") =
    Some {| r_wid := r_wid r; r_params := r_params r; r_navigations := [] |}.
Proof.
  intros r. split; [vm_compute; reflexivity|]. split; [vm_compute; congruence|].
  apply (resolve_stable [(js "whiteboardid", js "My Board!!")] (js "u")); [vm_compute; reflexivity|].
  vm_compute; congruence.
Defined.

Lemma resolve_random_witness :
  exists r, resolveWhiteboardId [(js "randomid", js "true")] (js "110ec58a-a0f2-4ac4") = Some r /\
    r_wid r = js "110ec58a-a0f2-4ac4" /\ last (r_navigations r) = Some (r_params r) /\
    get (r_params r) (js "whiteboardid") = Some (js "110ec58a-a0f2-4ac4") /\
    get (r_params r) (js "randomid") = None.
Proof. apply resolve_random; [reflexivity|vm_compute; congruence|reflexivity]. Defined.

Lemma myUsername_default_witness :
  truthy (get [] (js "username")) = false /\
  (myUsername [] (js "0.5") = js "unknown" ++ substring (js "0.5") 2 6 /\
   length (substring (js "0.5") 2 6) = Nat.min 4 (length (js "0.5") - 2)).
Proof. split; [reflexivity|]. apply myUsername_default. reflexivity. Defined.

(** A short decimal string gives a one-digit suffix: [Math.random()]
    returning [0.5] names the user ["unknown5"]. *)
Example myUsername_short_suffix : myUsername [] (js "0.5") = js "unknown5".
Proof. reflexivity. Qed.

Lemma resolve_symbols_only_id_witness :
  let p := [(js "whiteboardid", js "!!!")] in
  truthy (get p (js "randomid")) = false /\ get p (js "whiteboardid") = Some (js "!!!") /\
  js "!!!" <> [] /\ Utf16.wf (js "!!!") = true /\ forallb (fun c => negb (is_id_char c)) (js "!!!") = true /\
  exists r, resolveWhiteboardId p (js "f") = Some r /\ r_wid r = [] /\
    get (r_params r) (js "whiteboardid") = Some [] /\ last (r_navigations r) = Some (r_params r) /\
    r_wid <$> resolveWhiteboardId (r_params r) (js "g") = Some (js "myNewWhiteboard").
Proof.
  intros p. assert (Hne : js "!!!" <> []) by (vm_compute; discriminate).
  refine (conj eq_refl (conj eq_refl (conj Hne (conj _ (conj _ _))))); [vm_compute; reflexivity..|].
  apply (resolve_symbols_only_id p (js "!!!")); [reflexivity|reflexivity|exact Hne|vm_compute; reflexivity..].
Defined.
