(* ===== verification/UriDecode.v ===== *)
(** * UriDecode: decodeURIComponent and the page title (line 42)

    Lines 40-43 of [main.js] set [document.title] to
    [decodeURIComponent(title)] when the [title] parameter is truthy.
    [decodeURIComponent] is ECMA-262's Decode(string, "") : [%XX] escapes
    are read as UTF-8 octet sequences and turned back into UTF-16, and
    any malformed escape, continuation octet or code point throws
    [URIError] ([None] here).  The call is at the top level of the module,
    so a [URIError] aborts the evaluation of [main.js] before [main] is
    defined.

    The file proves that [decodeURIComponent] inverts [encodeURIComponent]
    on every well-formed string, characterises the title outcome, and
    shows a title with a stray [%] throws. *)

From stdpp Require Import base list.
From Stdlib Require Import ZArith Lia.
From S2P Require Import Prelude JsString SessionIdentity.
Open Scope Z_scope.

(** ** Decode *)

(** Two hexadecimal digits of an escape, or [URIError]. *)
Definition hex_byte (h1 h2 : Z) : option Z :=
  if is_hex h1 && is_hex h2 then Some (16 * hex_val h1 + hex_val h2) else None.

(** The number of leading 1 bits of an octet (5 stands for "more than 4"). *)
Definition lead_count (b : Z) : nat :=
  if b <? 0x80 then 0 else if b <? 0xC0 then 1 else if b <? 0xE0 then 2
  else if b <? 0xF0 then 3 else if b <? 0xF8 then 4 else 5.

(** The two most significant bits of a continuation octet are [10]. *)
Definition is_cont (b : Z) : bool := Z.shiftr b 6 =? 2.

(** [%XX] of a continuation octet: the [%], two hex digits, bits [10]. *)
Definition cont_byte (p h1 h2 : Z) : option Z :=
  if p =? 37 then
    match hex_byte h1 h2 with Some b => if is_cont b then Some b else None | None => None end
  else None.

Definition is_surrogate (cp : Z) : bool := (0xD800 <=? cp) && (cp <=? 0xDFFF).

(** The code point of a multi-octet sequence, when it is a valid UTF-8
    encoding (shortest form, no surrogate, at most 0x10FFFF). *)
Definition utf8_cp (bs : list Z) : option Z :=
  match bs with
  | [b0; b1] =>
      let cp := Z.land b0 31 * 64 + Z.land b1 63 in
      if 0x80 <=? cp then Some cp else None
  | [b0; b1; b2] =>
      let cp := Z.land b0 15 * 4096 + Z.land b1 63 * 64 + Z.land b2 63 in
      if (0x800 <=? cp) && negb (is_surrogate cp) then Some cp else None
  | [b0; b1; b2; b3] =>
      let cp := Z.land b0 7 * 262144 + Z.land b1 63 * 4096 + Z.land b2 63 * 64 + Z.land b3 63 in
      if (0x10000 <=? cp) && (cp <=? 0x10FFFF) then Some cp else None
  | _ => None
  end.

(** UTF16EncodeCodePoint. *)
Definition utf16_of_cp (cp : Z) : jsstring :=
  if cp <=? 0xFFFF then [cp]
  else [Z.shiftr (cp - 0x10000) 10 + 0xD800; Z.land (cp - 0x10000) 1023 + 0xDC00].

(** The octets of an escape sequence, decoded and re-encoded in UTF-16. *)
Definition decode_seq (bs : list Z) : option jsstring := utf16_of_cp <$> utf8_cp bs.

(** Decode(string, ""): one code unit, or one escape of [n] octets read as
    [n] consecutive [%XX] (a missing one, a bad digit or a bad
    continuation octet throws). *)
Fixpoint decodeURIComponent (s : jsstring) : option jsstring :=
  match s with
  | [] => Some []
  | c :: s1 =>
      if negb (c =? 37) then (c ::.) <$> decodeURIComponent s1 else
      match s1 with
      | h1 :: h2 :: s3 =>
          match hex_byte h1 h2 with
          | None => None
          | Some b =>
              match lead_count b, s3 with
              | 0%nat, _ => (b ::.) <$> decodeURIComponent s3
              | 2%nat, p1 :: x1 :: y1 :: s4 =>
                  match cont_byte p1 x1 y1 with
                  | Some b1 =>
                      match decode_seq [b; b1] with
                      | Some u => (u ++.) <$> decodeURIComponent s4
                      | None => None
                      end
                  | None => None
                  end
              | 3%nat, p1 :: x1 :: y1 :: p2 :: x2 :: y2 :: s4 =>
                  match cont_byte p1 x1 y1, cont_byte p2 x2 y2 with
                  | Some b1, Some b2 =>
                      match decode_seq [b; b1; b2] with
                      | Some u => (u ++.) <$> decodeURIComponent s4
                      | None => None
                      end
                  | _, _ => None
                  end
              | 4%nat, p1 :: x1 :: y1 :: p2 :: x2 :: y2 :: p3 :: x3 :: y3 :: s4 =>
                  match cont_byte p1 x1 y1, cont_byte p2 x2 y2, cont_byte p3 x3 y3 with
                  | Some b1, Some b2, Some b3 =>
                      match decode_seq [b; b1; b2; b3] with
                      | Some u => (u ++.) <$> decodeURIComponent s4
                      | None => None
                      end
                  | _, _, _ => None
                  end
              | _, _ => None
              end
          end
      | _ => None
      end
  end.

(** ** The title (lines 40-43) *)

Inductive TitleOutcome :=
| KeepTitle
| SetTitle (t : jsstring)
| TitleThrows.

Definition pageTitle (p : UrlParams.params) : TitleOutcome :=
  let title := UrlParams.get p (js "title") in
  if truthy title then
    match decodeURIComponent (default [] title) with
    | Some t => SetTitle t
    | None => TitleThrows
    end
  else KeepTitle.

(** ** Bits of the decoder *)

Section DecodeBits.

Lemma land_31 x : Z.land x 31 = x mod 32.
Proof. apply (land_mod x 5). lia. Qed.
Lemma land_7 x : Z.land x 7 = x mod 8.
Proof. apply (land_mod x 3). lia. Qed.
Lemma land_1023 x : Z.land x 1023 = x mod 1024.
Proof. apply (land_mod x 10). lia. Qed.
Lemma shiftr_10 x : Z.shiftr x 10 = x / 1024.
Proof. by apply shiftr_div. Qed.

End DecodeBits.

#[export] Hint Rewrite land_31 land_7 land_1023 shiftr_10 : wb_bits.

(** ** Escapes of single octets *)

Section Escapes.

Lemma hex_byte_pct b : is_byte b -> hex_byte (hex_digit (Z.shiftr b 4)) (hex_digit (Z.land b 15)) = Some b.
Proof.
  intros Hb. unfold hex_byte.
  destruct (hex_digit_spec (Z.shiftr b 4)) as (H1 & V1 & _); [bits_lia|].
  destruct (hex_digit_spec (Z.land b 15)) as (H2 & V2 & _); [bits_lia|].
  rewrite H1, H2, V1, V2. f_equal. bits_lia.
Qed.

Lemma cont_byte_pct b :
  0x80 <= b < 0xC0 -> cont_byte 37 (hex_digit (Z.shiftr b 4)) (hex_digit (Z.land b 15)) = Some b.
Proof.
  intros Hb. unfold cont_byte. rewrite hex_byte_pct by bits_lia.
  unfold is_cont. replace (Z.shiftr b 6 =? 2) with true by (symmetry; apply Z.eqb_eq; bits_lia). done.
Qed.

Lemma decode_plain c t : c <> 37 -> decodeURIComponent (c :: t) = (c ::.) <$> decodeURIComponent t.
Proof. intros Hc. simpl. by rewrite (proj2 (Z.eqb_neq c 37) Hc). Qed.

Lemma decode_pct_ascii b t :
  0 <= b < 0x80 -> decodeURIComponent (pct_octet b ++ t) = (b ::.) <$> decodeURIComponent t.
Proof.
  intros Hb. cbn [pct_octet app decodeURIComponent Z.eqb negb Pos.eqb].
  rewrite hex_byte_pct by bits_lia. unfold lead_count.
  by destruct (Z.ltb_spec b 0x80); [|lia].
Qed.

(** An escape of [n] octets whose first one announces [n]. *)
Lemma decode_pct_seq b0 bs t :
  is_byte b0 -> lead_count b0 = S (length bs) -> (1 <= length bs <= 3)%nat ->
  Forall (fun b => 0x80 <= b < 0xC0) bs ->
  decodeURIComponent (pct_octets (b0 :: bs) ++ t) =
    match decode_seq (b0 :: bs) with Some u => (u ++.) <$> decodeURIComponent t | None => None end.
Proof.
  intros Hb0 Hn Hlen Hbs. cbn [pct_octets map concat pct_octet app decodeURIComponent Z.eqb negb Pos.eqb].
  rewrite hex_byte_pct, Hn by done.
  destruct bs as [|b1 [|b2 [|b3 [|b4 bs]]]]; simpl in Hlen; try lia;
    repeat match goal with H : Forall _ (_ :: _) |- _ => inversion_clear H end;
    cbn [map concat pct_octet app]; by rewrite ?cont_byte_pct.
Qed.

End Escapes.

(** ** The octets of [Utf8.encode] are a valid sequence *)

Section Utf8Valid.

Lemma utf16_of_cp_bmp c : 0 <= c <= 0xFFFF -> utf16_of_cp c = [c].
Proof. intros Hc. unfold utf16_of_cp. by destruct (Z.leb_spec c 0xFFFF); [|lia]. Qed.

Lemma utf16_of_cp_pair c d :
  Utf16.is_high c = true -> Utf16.is_low d = true -> utf16_of_cp (Utf16.pair_cp c d) = [c; d].
Proof.
  intros Hc Hd. pose proof (pair_cp_range c d Hc Hd).
  unfold Utf16.is_high, Utf16.is_low, utf16_of_cp, Utf16.pair_cp in *.
  destruct (Z.leb_spec (0x10000 + (c - 0xD800) * 0x400 + (d - 0xDC00)) 0xFFFF); [lia|].
  f_equal; [|f_equal]; bits_lia.
Qed.

Lemma lead_count_2 b : 0xC0 <= b < 0xE0 -> lead_count b = 2%nat.
Proof.
  intros Hb. unfold lead_count.
  destruct (Z.ltb_spec b 0x80), (Z.ltb_spec b 0xC0), (Z.ltb_spec b 0xE0); done || lia.
Qed.

Lemma lead_count_3 b : 0xE0 <= b < 0xF0 -> lead_count b = 3%nat.
Proof.
  intros Hb. unfold lead_count.
  destruct (Z.ltb_spec b 0x80), (Z.ltb_spec b 0xC0), (Z.ltb_spec b 0xE0), (Z.ltb_spec b 0xF0);
    done || lia.
Qed.

Lemma lead_count_4 b : 0xF0 <= b < 0xF8 -> lead_count b = 4%nat.
Proof.
  intros Hb. unfold lead_count.
  destruct (Z.ltb_spec b 0x80), (Z.ltb_spec b 0xC0), (Z.ltb_spec b 0xE0), (Z.ltb_spec b 0xF0),
    (Z.ltb_spec b 0xF8); done || lia.
Qed.

(** A code point above ASCII is encoded as a lead octet announcing the
    length of the sequence, continuation octets, and decodes back. *)
Lemma utf8_encode_valid cp :
  0x80 <= cp <= 0x10FFFF -> is_surrogate cp = false ->
  exists b0 bs, Utf8.encode cp = b0 :: bs /\ is_byte b0 /\ lead_count b0 = S (length bs) /\
    (1 <= length bs <= 3)%nat /\ Forall (fun b => 0x80 <= b < 0xC0) bs /\
    decode_seq (b0 :: bs) = Some (utf16_of_cp cp).
Proof.
  intros Hcp Hs. unfold Utf8.encode, decode_seq, utf8_cp, is_surrogate in *.
  destruct (Z.ltb_spec cp 0x80); [lia|].
  destruct (Z.ltb_spec cp 0x800); [|destruct (Z.ltb_spec cp 0x10000)];
    (do 2 eexists; split; [reflexivity|]);
    (split; [bits_lia|]); (split; [first [apply lead_count_2 | apply lead_count_3 | apply lead_count_4]; bits_lia|]);
    (split; [simpl; lia|]); (split; [repeat constructor; bits_lia|]).
  all: match goal with |- context [if ?x then Some ?e else None] =>
         replace x with true; [replace e with cp by bits_lia; done|symmetry] end.
  - apply Z.leb_le. bits_lia.
  - apply andb_true_iff. split; [apply Z.leb_le; bits_lia|].
    apply negb_true_iff, andb_false_iff. apply andb_false_iff in Hs as [Hs|Hs]; [left|right]; apply Z.leb_gt in Hs;
      apply Z.leb_gt; bits_lia.
  - apply andb_true_iff. split; apply Z.leb_le; bits_lia.
Qed.

End Utf8Valid.

(** ** The round trip *)

Section RoundTrip.

Lemma decode_pct_cp cp t :
  0 <= cp <= 0x10FFFF -> is_surrogate cp = false ->
  decodeURIComponent (pct_octets (Utf8.encode cp) ++ t) = (utf16_of_cp cp ++.) <$> decodeURIComponent t.
Proof.
  intros Hcp Hs. destruct (Z.ltb_spec cp 0x80).
  - rewrite utf8_encode_ascii, utf16_of_cp_bmp by lia.
    cbn [pct_octets map concat]. rewrite app_nil_r. apply decode_pct_ascii. lia.
  - destruct (utf8_encode_valid cp) as (b0 & bs & -> & Hb0 & Hn & Hl & Hbs & Hd); [lia|done|].
    by rewrite decode_pct_seq, Hd.
Qed.

Lemma bind_decode_prefix (pre u : jsstring) (o : option jsstring) r :
  (forall t, decodeURIComponent (pre ++ t) = (u ++.) <$> decodeURIComponent t) ->
  o ≫= decodeURIComponent = Some r -> ((pre ++.) <$> o) ≫= decodeURIComponent = Some (u ++ r).
Proof.
  intros Hpre Ho. destruct o as [e|]; [|done]. simpl in *. by rewrite Hpre, Ho.
Qed.

Lemma not_surrogate c : Utf16.is_high c = false -> Utf16.is_low c = false -> is_surrogate c = false.
Proof.
  unfold Utf16.is_high, Utf16.is_low, is_surrogate. intros H1 H2.
  apply andb_false_iff in H1, H2. apply andb_false_iff.
  destruct H1 as [H1|H1]; [by left|]. destruct H2 as [H2|H2]; [|by right].
  apply Z.leb_gt in H1, H2. lia.
Qed.

Lemma pair_not_surrogate c d :
  Utf16.is_high c = true -> Utf16.is_low d = true -> is_surrogate (Utf16.pair_cp c d) = false.
Proof.
  intros Hc Hd. pose proof (pair_cp_range c d Hc Hd). unfold is_surrogate.
  apply andb_false_iff. right. apply Z.leb_gt. lia.
Qed.

Lemma decode_encode_roundtrip (s : jsstring) :
  Utf16.wf s = true -> encodeURIComponent s ≫= decodeURIComponent = Some s.
Proof.
  induction s as [s IH] using list_length_ind.
  destruct s as [|c s]; [done|]. intros Hwf.
  destruct (wf_cons c s Hwf) as (Hc & Hlow & Hrest). simpl encodeURIComponent.
  destruct (uri_unreserved c) eqn:Hu.
  - destruct (unreserved_not_surrogate c Hu) as [Hhi _]. rewrite Hhi in Hrest.
    destruct (unreserved_ascii c Hu) as [_ Hpct].
    apply (bind_decode_prefix [c] [c]); [intros t; by apply decode_plain|].
    apply IH; [simpl; lia|done].
  - rewrite Hlow. destruct (Utf16.is_high c) eqn:Hhi.
    + destruct Hrest as (d & s2 & -> & Hd & Hs2). rewrite Hd.
      pose proof (pair_cp_range c d Hhi Hd).
      change (c :: d :: s2) with ([c; d] ++ s2). rewrite <- (utf16_of_cp_pair c d Hhi Hd).
      apply bind_decode_prefix; [intros t; apply decode_pct_cp; [lia|by apply pair_not_surrogate]|].
      apply IH; [simpl; lia|done].
    + change (c :: s) with ([c] ++ s). rewrite <- (utf16_of_cp_bmp c) by lia.
      apply bind_decode_prefix; [intros t; apply decode_pct_cp; [lia|by apply not_surrogate]|].
      apply IH; [simpl; lia|done].
Qed.

End RoundTrip.

(** ** Errors and plain strings *)

Section DecodeErrors.

Lemma hex_byte_37_r h : hex_byte h 37 = None.
Proof. unfold hex_byte. by rewrite andb_false_r. Qed.

Lemma cont_byte_37_r p h : cont_byte p h 37 = None.
Proof. unfold cont_byte. rewrite hex_byte_37_r. by destruct (p =? 37). Qed.

(** A string that ends with [%] always throws: the last escape misses its
    digits, whatever comes before it. *)
Lemma decode_trailing_pct (s : jsstring) : decodeURIComponent (s ++ [37]) = None.
Proof.
  induction s as [s IH] using list_length_ind.
  destruct s as [|c s]; [done|]. cbn [app decodeURIComponent].
  destruct (negb (c =? 37)); [rewrite IH; [done|simpl; lia]|].
  destruct s as [|h1 [|h2 s3]]; cbn [app]; [done|by rewrite hex_byte_37_r|].
  destruct (hex_byte h1 h2) as [b|]; [|done].
  destruct (lead_count b) as [|[|[|[|[|n]]]]]; [rewrite IH; [done|simpl; lia]|done| | | |done].
  - destruct s3 as [|p1 [|x1 [|y1 s4]]].
    4: cbn [app]; repeat case_match; try done; rewrite IH; [done|simpl; lia].
    all: cbn [app]; by rewrite ?cont_byte_37_r.
  - destruct s3 as [|p1 [|x1 [|y1 [|p2 [|x2 [|y2 s4]]]]]].
    7: cbn [app]; repeat case_match; try done; rewrite IH; [done|simpl; lia].
    all: cbn [app]; rewrite ?cont_byte_37_r; by repeat case_match.
  - destruct s3 as [|p1 [|x1 [|y1 [|p2 [|x2 [|y2 [|p3 [|x3 [|y3 s4]]]]]]]]].
    10: cbn [app]; repeat case_match; try done; rewrite IH; [done|simpl; lia].
    all: cbn [app]; rewrite ?cont_byte_37_r; by repeat case_match.
Qed.

(** A string without [%] decodes to itself. *)
Lemma decode_no_pct (s : jsstring) : 37 ∉ s -> decodeURIComponent s = Some s.
Proof.
  induction s as [|c s IH]; intros Hs; [done|].
  apply not_elem_of_cons in Hs as [Hc Hs]. rewrite decode_plain by done. by rewrite IH.
Qed.

End DecodeErrors.

Lemma pct_encode_cons cp t : exists r, pct_octets (Utf8.encode cp) ++ t = 37 :: r.
Proof. unfold Utf8.encode. repeat case_match; eexists; reflexivity. Qed.

Lemma encode_nonempty (s e : jsstring) : s <> [] -> encodeURIComponent s = Some e -> e <> [].
Proof.
  destruct s as [|c s]; [done|]. intros _ H. simpl in H.
  repeat case_match; try done; apply fmap_Some in H as (x & _ & ->); [done| |];
    match goal with |- pct_octets (Utf8.encode ?cp) ++ _ <> [] =>
      by destruct (pct_encode_cons cp x) as [r ->] end.
Qed.

(** ** Claims *)

Section Claims.

(** C23: [decodeURIComponent] inverts [encodeURIComponent]: on every
    well-formed string the encoding succeeds and decodes back to the
    string, code unit for code unit. *)
Theorem decode_encodeURIComponent (s : jsstring) :
  Utf16.wf s = true -> encodeURIComponent s ≫= decodeURIComponent = Some s.
Proof. apply decode_encode_roundtrip. Qed.

(** C24: A [title] parameter that ends with [%] (for instance
    [?title=100%]) makes line 42 throw [URIError], whatever precedes the
    [%]; the exception escapes the top level of the module. *)
Theorem pageTitle_trailing_pct (p : UrlParams.params) (s : jsstring) :
  UrlParams.get p (js "title") = Some (s ++ [37]) -> pageTitle p = TitleThrows.
Proof.
  intros Hg. unfold pageTitle. cbv zeta. rewrite Hg.
  replace (truthy (Some (s ++ [37]))) with true by (by destruct s).
  cbn [default id]. by rewrite decode_trailing_pct.
Qed.

(** C25: A non-empty title given as [encodeURIComponent(t)] of a
    well-formed [t] becomes the page title [t]; a non-empty title without
    [%] is shown as given. *)
Theorem pageTitle_set (p : UrlParams.params) (t e : jsstring) :
  UrlParams.get p (js "title") = Some e -> e <> [] ->
  ((Utf16.wf t = true /\ encodeURIComponent t = Some e) \/ (t = e /\ 37 ∉ e)) ->
  pageTitle p = SetTitle t.
Proof.
  intros Hg He Ht. unfold pageTitle. cbv zeta. rewrite Hg.
  replace (truthy (Some e)) with true by (by destruct e). cbn [default id].
  destruct Ht as [[Hwf Henc]|[-> Hn]].
  - pose proof (decode_encode_roundtrip t Hwf) as Hd. rewrite Henc in Hd. simpl in Hd. by rewrite Hd.
  - by rewrite decode_no_pct.
Qed.

End Claims.

(** ** Witnesses *)

Lemma decode_encodeURIComponent_witness :
  encodeURIComponent [0x4E2D; 0xD83D; 0xDE00; 0x41] ≫= decodeURIComponent =
    Some [0x4E2D; 0xD83D; 0xDE00; 0x41].
Proof. apply decode_encodeURIComponent. vm_compute. reflexivity. Defined.

Lemma pageTitle_trailing_pct_witness :
  pageTitle [(js "title", js "100%")] = TitleThrows.
Proof. apply (pageTitle_trailing_pct _ (js "100")). vm_compute. reflexivity. Defined.

Lemma pageTitle_set_witness :
  pageTitle [(js "title", js "Caf%C3%A9")] = SetTitle [67; 97; 102; 0xE9].
Proof.
  apply (pageTitle_set _ _ (js "Caf%C3%A9")); [vm_compute; reflexivity|vm_compute; congruence|].
  left. split; vm_compute; reflexivity.
Defined.
