(* ===== verification/MediaNames.v ===== *)
(** * MediaNames: the string computations of the media handlers

    The media pipeline of [main.js] decides what to do with a dropped or
    pasted item from strings alone: [isImageFileName] and [isPDFFileName]
    (lines 513-524) take the part of a file name after its last dot, lower
    it and look it up in a list of extensions; the cross-document drop
    (lines 406-414) extracts the [src] of an HTML fragment with the
    regular expression of line 408 ([src=], an optional double quote, a
    run of characters other than the double quote and white space as its
    group, an optional double quote, white space) and tests
    [url.startsWith("http")]; the paste handler (line 555) tests
    [type.indexOf("image") !== -1]; [uploadImgAndAddToWhiteboard]
    (lines 486-510) builds the upload URL and the URL of the uploaded
    image from [document.URL], [correspondingReadOnlyWid] and the upload's
    millisecond timestamp.

    [String.prototype.toLowerCase] is given exactly on the code units
    whose lower case contains an ASCII letter: [A-Z], U+0130 (lowered to
    "i" followed by U+0307) and the Kelvin sign U+212A (lowered to "k").
    Every other code unit is kept: the real mapping sends it to non-ASCII
    code units, so no comparison with the ASCII extension lists of the
    code can tell the two apart. *)

From stdpp Require Import base list sets.
From Stdlib Require Import ZArith Lia DecimalN.
From S2P Require Import Prelude JsString.
Open Scope Z_scope.

(** ** String.prototype operations *)

(** [s.split(sep)] for a one-code-unit separator: the pieces between the
    separators, at least one. *)
Fixpoint split_on (sep : Z) (s : jsstring) : list jsstring :=
  match s with
  | [] => [[]]
  | c :: s' =>
      if c =? sep then [] :: split_on sep s'
      else match split_on sep s' with
           | w :: ws => (c :: w) :: ws
           | [] => [[c]]
           end
  end.

(** [parts[parts.length - 1]]: the last piece ([split_on] never returns
    an empty array). *)
Definition last_piece (parts : list jsstring) : jsstring := default [] (last parts).

Definition lower_unit (c : Z) : jsstring :=
  if in_range 65 90 c then [c + 32]
  else if c =? 0x130 then [0x69; 0x307]
  else if c =? 0x212A then [0x6B]
  else [c].

Definition toLowerCase (s : jsstring) : jsstring := flat_map lower_unit s.

(** [known_extensions.includes(x)]: SameValueZero on strings. *)
Definition includes (l : list jsstring) (x : jsstring) : bool := bool_decide (x ∈ l).

Fixpoint is_prefix (p s : jsstring) : bool :=
  match p, s with
  | [], _ => true
  | a :: p', b :: s' => (a =? b) && is_prefix p' s'
  | _ :: _, [] => false
  end.

(** [s.startsWith(p)]. *)
Definition startsWith (s p : jsstring) : bool := is_prefix p s.

(** [s.indexOf(p)] from position [i]. *)
Fixpoint index_of_from (p s : jsstring) (i : Z) : Z :=
  if is_prefix p s then i
  else match s with
       | [] => -1
       | _ :: s' => index_of_from p s' (i + 1)
       end.

Definition indexOf (s p : jsstring) : Z := index_of_from p s 0.

(** [s.lastIndexOf(c)] for a one-code-unit [c]. *)
Fixpoint lastIndexOf_from (c : Z) (s : jsstring) (i : Z) (found : Z) : Z :=
  match s with
  | [] => found
  | d :: s' => lastIndexOf_from c s' (i + 1) (if d =? c then i else found)
  end.

Definition lastIndexOf (s : jsstring) (c : Z) : Z := lastIndexOf_from c s 0 (-1).

(** [s.substr(0, n)] (B.2.2.1 with start 0): the first [n] code units,
    none when [n] is negative. *)
Definition substr0 (s : jsstring) (n : Z) : jsstring :=
  take (Z.to_nat (Z.max 0 (Z.min n (Z.of_nat (length s))))) s.

(** ** The file-name tests (lines 513-524) *)

Definition image_extensions : list jsstring :=
  [js "png"; js "jpg"; js "jpeg"; js "gif"; js "tiff"; js "bmp"; js "webp"].

Definition pdf_extensions : list jsstring := [js "pdf"].

Definition extension (filename : jsstring) : jsstring := last_piece (split_on 46 filename).

Definition isImageFileName (filename : jsstring) : bool :=
  includes image_extensions (toLowerCase (extension filename)).

Definition isPDFFileName (filename : jsstring) : bool :=
  includes pdf_extensions (toLowerCase (extension filename)).

(** ** The [src] of a cross-document drag (lines 406-414) *)

(** [\s]: WhiteSpace and LineTerminator of ECMA-262. *)
Definition is_js_space (c : Z) : bool :=
  bool_decide (c ∈ [9; 10; 11; 12; 13; 32; 0xA0; 0x1680; 0x2028; 0x2029; 0x202F; 0x205F; 0x3000; 0xFEFF])
  || in_range 0x2000 0x200A c.

(** The class of the group: neither the double quote (34) nor white space. *)
Definition is_url_char (c : Z) : bool := negb ((c =? 34) || is_js_space c).

(** The greedy group: the longest run of URL characters. *)
Fixpoint url_run (s : jsstring) : jsstring :=
  match s with
  | c :: s' => if is_url_char c then c :: url_run s' else []
  | [] => []
  end.

(** A match of the expression starting at the head of [s]: [src=], then
    the optional quote, tried with the quote first and without it on
    backtracking, then a non-empty run (the optional trailing quote and
    white space always match). *)
Definition src_at (s : jsstring) : option jsstring :=
  match s with
  | a :: b :: c :: d :: r =>
      if (a =? 115) && (b =? 114) && (c =? 99) && (d =? 61) then
        let with_quote := match r with q :: r' => if q =? 34 then url_run r' else [] | [] => [] end in
        match with_quote, url_run r with
        | _ :: _, _ => Some with_quote
        | [], _ :: _ => Some (url_run r)
        | [], [] => None
        end
      else None
  | _ => None
  end.

(** [rex.exec(imageUrl)]: the leftmost match, its first group. *)
Fixpoint src_exec (s : jsstring) : option jsstring :=
  match s with
  | [] => None
  | _ :: s' => match src_at s with Some g => Some g | None => src_exec s' end
  end.

(** Where the expression of line 408 can start a match: [src=], the
    optional quote, then at least one character of the group's class. *)
Definition re_starts (s : jsstring) : Prop :=
  exists q c t, s = js "src=" ++ q ++ c :: t /\ (q = [] \/ q = [34]) /\ is_url_char c = true.

(** Lines 409-414: the group when the expression matched, else the empty
    string. *)
Definition extract_url (imageUrl : jsstring) : jsstring := default [] (src_exec imageUrl).

(** ** Upload URLs (lines 486-510) *)

Definition digit_units : Decimal.uint -> jsstring :=
  fix go d :=
    match d with
    | Decimal.Nil => []
    | Decimal.D0 d => 48 :: go d | Decimal.D1 d => 49 :: go d
    | Decimal.D2 d => 50 :: go d | Decimal.D3 d => 51 :: go d
    | Decimal.D4 d => 52 :: go d | Decimal.D5 d => 53 :: go d
    | Decimal.D6 d => 54 :: go d | Decimal.D7 d => 55 :: go d
    | Decimal.D8 d => 56 :: go d | Decimal.D9 d => 57 :: go d
    end.

(** [String(n)] of a non-negative integer (a timestamp [+new Date()]). *)
Definition number_to_string (n : Z) : jsstring := digit_units (N.to_uint (Z.to_N n)).

(** [document.URL.substr(0, document.URL.lastIndexOf("/"))]. *)
Definition root_url (documentURL : jsstring) : jsstring := substr0 documentURL (lastIndexOf documentURL 47).

Definition upload_url (documentURL : jsstring) : jsstring := root_url documentURL ++ js "/api/upload".

(** [correspondingReadOnlyWid] in a template literal: the string
    [undefined] before any configuration. *)
Definition template_wid (crw : option jsstring) : jsstring := default (js "undefined") crw.

(** Lines 498-502: the template [rootUrl/uploads/crw/crw_date.png]. *)
Definition uploaded_image_url (documentURL : jsstring) (crw : option jsstring) (date : Z) : jsstring :=
  let w := template_wid crw in
  root_url documentURL ++ js "/uploads/" ++ w ++ js "/" ++ w ++ js "_" ++ number_to_string date ++ js ".png".

(** The reference extension: the longest suffix without a dot. *)
Fixpoint take_until (sep : Z) (s : jsstring) : jsstring :=
  match s with
  | [] => []
  | c :: s' => if c =? sep then [] else c :: take_until sep s'
  end.

Definition ext_ref (filename : jsstring) : jsstring := reverse (take_until 46 (reverse filename)).

(** ** split and the extension *)

Section Split.

Lemma split_on_nonempty sep s : split_on sep s <> [].
Proof. destruct s as [|c s]; simpl; [done|]. case_match; [done|]. by case_match. Qed.

Lemma split_on_nosep sep s : sep ∉ s -> split_on sep s = [s].
Proof.
  induction s as [|c s IH]; intros Hs; [done|]. apply not_elem_of_cons in Hs as [Hc Hs].
  simpl. rewrite (proj2 (Z.eqb_neq c sep)) by congruence. by rewrite IH.
Qed.

Lemma split_on_app_sep sep x e : split_on sep (x ++ sep :: e) = split_on sep x ++ split_on sep e.
Proof.
  induction x as [|c x IH]; simpl; [by rewrite Z.eqb_refl|].
  rewrite IH. case_match; [done|].
  destruct (split_on sep x) as [|w ws] eqn:Hx; [by destruct (split_on_nonempty sep x)|]. done.
Qed.

(** Every string is dot-free, or ends with a dot and a dot-free suffix. *)
Lemma last_sep_cases sep (s : jsstring) : sep ∉ s \/ exists x e, s = x ++ sep :: e /\ sep ∉ e.
Proof.
  induction s as [|c s IH] using rev_ind; [left; set_solver|].
  destruct (decide (c = sep)) as [->|Hc].
  - right. exists s, []. split; [done|set_solver].
  - destruct IH as [Hs|(x & e & -> & He)].
    + left. rewrite elem_of_app, list_elem_of_singleton. intros [|]; congruence.
    + right. exists x, (e ++ [c]). split; [by rewrite <- app_assoc|].
      rewrite elem_of_app, list_elem_of_singleton. intros [|]; congruence.
Qed.

Lemma take_until_nosep sep s : sep ∉ s -> take_until sep s = s.
Proof.
  induction s as [|c s IH]; intros Hs; [done|]. apply not_elem_of_cons in Hs as [Hc Hs].
  simpl. rewrite (proj2 (Z.eqb_neq c sep)) by congruence. by rewrite IH.
Qed.

Lemma extension_nodot e : 46 ∉ e -> extension e = e.
Proof. intros He. unfold extension, last_piece. by rewrite split_on_nosep. Qed.

Lemma extension_after_dot x e : 46 ∉ e -> extension (x ++ 46 :: e) = e.
Proof.
  intros He. unfold extension, last_piece. rewrite split_on_app_sep, (split_on_nosep 46 e) by done.
  by rewrite last_app.
Qed.

End Split.

(** ** Decimal timestamps *)

Section Decimal.

Lemma digit_units_inj d1 d2 : digit_units d1 = digit_units d2 -> d1 = d2.
Proof.
  revert d2. induction d1; intros []; simpl; intros H; try discriminate;
    try (injection H as H); f_equal; auto.
Qed.

Lemma number_to_string_inj a b :
  0 <= a -> 0 <= b -> number_to_string a = number_to_string b -> a = b.
Proof.
  unfold number_to_string. intros Ha Hb H. apply digit_units_inj, DecimalN.Unsigned.to_uint_inj in H.
  lia.
Qed.

End Decimal.

(** ** lastIndexOf and the root URL *)

Section RootUrl.

Lemma lastIndexOf_from_nosep c s i f : c ∉ s -> lastIndexOf_from c s i f = f.
Proof.
  revert i f. induction s as [|d s IH]; intros i f Hs; [done|]. apply not_elem_of_cons in Hs as [Hd Hs].
  simpl. rewrite (proj2 (Z.eqb_neq d c)) by congruence. by apply IH.
Qed.

Lemma lastIndexOf_from_app c x y i f :
  lastIndexOf_from c (x ++ y) i f = lastIndexOf_from c y (i + Z.of_nat (length x)) (lastIndexOf_from c x i f).
Proof.
  revert i f. induction x as [|d x IH]; intros i f; simpl; [by rewrite Z.add_0_r|].
  rewrite IH. f_equal. lia.
Qed.

Lemma lastIndexOf_last c x y : c ∉ y -> lastIndexOf (x ++ c :: y) c = Z.of_nat (length x).
Proof.
  intros Hy. unfold lastIndexOf. rewrite lastIndexOf_from_app. simpl.
  rewrite Z.eqb_refl, lastIndexOf_from_nosep by done. lia.
Qed.

(** The root is the part of the document URL before its last slash. *)
Lemma root_url_last_slash x y : 47 ∉ y -> root_url (x ++ 47 :: y) = x.
Proof.
  intros Hy. unfold root_url, substr0. rewrite lastIndexOf_last by done.
  rewrite length_app. simpl. rewrite Z.min_l, Z.max_r, Nat2Z.id by lia.
  by rewrite take_app_length.
Qed.

Lemma root_url_no_slash u : 47 ∉ u -> root_url u = [].
Proof.
  intros Hu. unfold root_url, substr0, lastIndexOf. rewrite lastIndexOf_from_nosep by done.
  by replace (Z.to_nat _) with 0%nat by lia.
Qed.

End RootUrl.

(** ** The src extraction *)

Section Src.

Lemma url_run_spec s : exists post, s = url_run s ++ post /\ Forall (fun c => is_url_char c = true) (url_run s) /\
  match post with c :: _ => is_url_char c = false | [] => True end.
Proof.
  induction s as [|c s (post & Hs & Hf & Hp)]; [by exists []|]. simpl.
  destruct (is_url_char c) eqn:Hc.
  - exists post. split; [simpl; by f_equal|]. split; [by constructor|done].
  - by exists (c :: s).
Qed.

(** What [src_at] returns: a non-empty maximal run of URL characters that
    follows [src=] and an optional quote. *)
Lemma src_at_spec s g :
  src_at s = Some g ->
  exists q post, s = js "src=" ++ q ++ g ++ post /\ (q = [] \/ q = [34]) /\ g <> [] /\
    Forall (fun c => is_url_char c = true) g /\ match post with c :: _ => is_url_char c = false | [] => True end.
Proof.
  destruct s as [|a [|b [|c [|d r]]]]; try done. unfold src_at.
  destruct ((a =? 115) && (b =? 114) && (c =? 99) && (d =? 61)) eqn:Hsrc; [|done].
  repeat rewrite andb_true_iff in Hsrc. destruct Hsrc as [[[Ha%Z.eqb_eq Hb%Z.eqb_eq] Hc%Z.eqb_eq] Hd%Z.eqb_eq].
  subst a b c d.
  destruct r as [|q r']; [done|]. cbv zeta.
  destruct (Z.eqb_spec q 34) as [->|Hq].
  - replace (url_run (34 :: r')) with (@nil Z) by reflexivity.
    destruct (url_run_spec r') as (post & Hr & Hf & Hp).
    destruct (url_run r') as [|x l] eqn:Hu; [done|]. intros [= <-].
    exists [34], post. split; [by rewrite Hr at 1|]. split; [by right|]. by split.
  - destruct (url_run_spec (q :: r')) as (post & Hr & Hf & Hp).
    destruct (url_run (q :: r')) as [|x l] eqn:Hu; [done|]. intros [= <-].
    exists [], post. split; [by rewrite Hr at 1|]. split; [by left|]. by split.
Qed.

End Src.

Section SrcExec.

Lemma src_exec_cons c s :
  src_exec (c :: s) = match src_at (c :: s) with Some g => Some g | None => src_exec s end.
Proof. reflexivity. Qed.

Lemma src_exec_spec s g :
  src_exec s = Some g ->
  exists pre q post, s = pre ++ js "src=" ++ q ++ g ++ post /\ (q = [] \/ q = [34]) /\ g <> [] /\
    Forall (fun c => is_url_char c = true) g.
Proof.
  induction s as [|c s IH]; [done|]. rewrite src_exec_cons. destruct (src_at (c :: s)) as [g'|] eqn:Ha.
  - intros [= <-]. destruct (src_at_spec _ _ Ha) as (q & post & Hs & Hq & Hg & Hf & _).
    exists [], q, post. naive_solver.
  - intros (pre & q & post & -> & Hq & Hg & Hf)%IH. exists (c :: pre), q, post. naive_solver.
Qed.

Lemma url_run_app u r :
  Forall (fun c => is_url_char c = true) u -> match r with c :: _ => is_url_char c = false | [] => True end ->
  url_run (u ++ r) = u.
Proof.
  intros Hu Hr. induction Hu as [|c u Hc _ IH]; simpl; [|by rewrite Hc, IH].
  destruct r as [|c r]; [done|]. simpl. by rewrite Hr.
Qed.

Lemma src_at_none s : ~ re_starts s -> src_at s = None.
Proof.
  intros Hn. destruct (src_at s) as [g|] eqn:Ha; [exfalso|done].
  destruct (src_at_spec _ _ Ha) as (q & post & -> & Hq & Hg & Hf & _).
  destruct g as [|c g]; [done|]. apply Hn. exists q, c, (g ++ post). split; [done|].
  split; [done|]. by inversion Hf.
Qed.

Lemma src_at_match q u r :
  (q = [] \/ q = [34]) -> u <> [] -> Forall (fun c => is_url_char c = true) u ->
  match r with c :: _ => is_url_char c = false | [] => True end ->
  src_at (js "src=" ++ q ++ u ++ r) = Some u.
Proof.
  intros Hq Hu Hf Hr. change (js "src=") with [115; 114; 99; 61]. cbn [app]. unfold src_at.
  rewrite !Z.eqb_refl. cbn [andb]. destruct u as [|c u]; [done|].
  destruct Hq as [->| ->]; cbn [app]; cbv zeta.
  - inversion Hf as [|? ? Hc]; subst. unfold is_url_char in Hc.
    destruct (c =? 34); [done|]. by rewrite (url_run_app (c :: u) r Hf Hr : url_run (c :: u ++ r) = c :: u).
  - cbn [Z.eqb Pos.eqb]. by rewrite (url_run_app (c :: u) r Hf Hr : url_run (c :: u ++ r) = c :: u).
Qed.

Lemma src_exec_skip pre t :
  (forall k, (k < length pre)%nat -> src_at (drop k (pre ++ t)) = None) -> src_exec (pre ++ t) = src_exec t.
Proof.
  induction pre as [|c pre IH]; intros Hk; [done|]. cbn [app]. rewrite src_exec_cons.
  rewrite (Hk 0%nat ltac:(simpl; lia) : src_at (c :: pre ++ t) = None). apply IH. intros k Hlt. apply (Hk (S k)). simpl. lia.
Qed.

Lemma take_until_app sep a b : sep ∉ a -> take_until sep (a ++ b) = a ++ take_until sep b.
Proof.
  induction a as [|c a IH]; intros Ha; [done|]. apply not_elem_of_cons in Ha as [Hc Ha].
  simpl. rewrite (proj2 (Z.eqb_neq c sep)) by congruence. by rewrite IH.
Qed.

Lemma extension_ref s : extension s = ext_ref s.
Proof.
  unfold ext_ref. destruct (last_sep_cases 46 s) as [Hs|(x & e & -> & He)].
  - rewrite extension_nodot, take_until_nosep by (by rewrite ?elem_of_reverse). by rewrite reverse_involutive.
  - rewrite extension_after_dot by done. rewrite reverse_app, reverse_cons, <- app_assoc.
    rewrite take_until_app by (by rewrite elem_of_reverse). simpl. rewrite ?Z.eqb_refl, ?app_nil_r.
    by rewrite reverse_involutive.
Qed.

End SrcExec.

Section Claims.

(** C26: [isImageFileName] and [isPDFFileName] test the lower-cased
    longest dot-free suffix of the name: the extension after the last
    dot, or the whole name when it has no dot (so a file called [png] is
    an image). *)
Theorem fileName_tests_ref (name : jsstring) :
  isImageFileName name = includes image_extensions (toLowerCase (ext_ref name)) /\
  isPDFFileName name = includes pdf_extensions (toLowerCase (ext_ref name)).
Proof. unfold isImageFileName, isPDFFileName. by rewrite extension_ref. Qed.

(** C27: Two uploads of the same page get the same image URL exactly
    when their [+new Date()] timestamps are equal: the URL determines the
    timestamp. *)
Theorem uploaded_image_url_inj (u : jsstring) (crw : option jsstring) (d1 d2 : Z) :
  0 <= d1 -> 0 <= d2 ->
  uploaded_image_url u crw d1 = uploaded_image_url u crw d2 <-> d1 = d2.
Proof.
  intros H1 H2. split; [|by intros ->].
  unfold uploaded_image_url. intros Heq.
  repeat (apply app_inv_head in Heq). apply app_inv_tail in Heq.
  by apply number_to_string_inj.
Qed.

(** C28: The URL extracted from the HTML of a cross-document drag is the
    group of the leftmost match: when the HTML is [pre], [src=], an
    optional quote, a non-empty run [u] of characters without quote or
    white space that the next character does not extend, and no match of
    the expression starts inside [pre], the extracted URL is exactly [u]. *)
Theorem extract_url_spec (html pre q u r : jsstring) :
  html = pre ++ js "src=" ++ q ++ u ++ r -> (q = [] \/ q = [34]) -> u <> [] ->
  Forall (fun c => is_url_char c = true) u ->
  match r with c :: _ => is_url_char c = false | [] => True end ->
  (forall k, (k < length pre)%nat -> ~ re_starts (drop k html)) ->
  extract_url html = u.
Proof.
  intros -> Hq Hu Hf Hr Hpre. unfold extract_url.
  rewrite src_exec_skip by (intros k Hk; by apply src_at_none, Hpre).
  change (js "src=") with [115; 114; 99; 61]. cbn [app]. rewrite src_exec_cons.
  change (115 :: 114 :: 99 :: 61 :: q ++ u ++ r) with (js "src=" ++ q ++ u ++ r).
  by rewrite src_at_match.
Qed.

End Claims.

(** ** Witnesses *)

Lemma uploaded_image_url_inj_witness :
  uploaded_image_url (js "https://wb.example/board") (Some (js "r1")) 1700000000000 <>
  uploaded_image_url (js "https://wb.example/board") (Some (js "r1")) 1700000000001.
Proof.
  intros Heq. apply (uploaded_image_url_inj _ _ 1700000000000 1700000000001) in Heq; lia.
Defined.

Lemma extract_url_spec_witness :
  let html := js "<img src=" ++ [34] ++ js "a.png" ++ [34] ++ js ">" in
  html = js "<img " ++ js "src=" ++ [34] ++ js "a.png" ++ [34] ++ js ">" /\
  ([34] = [] \/ [34] = [34]) /\ js "a.png" <> [] /\ Forall (fun c => is_url_char c = true) (js "a.png") /\
  (forall k, (k < length (js "<img "))%nat -> ~ re_starts (drop k html)) /\
  extract_url html = js "a.png".
Proof.
  intros html.
  assert (Hpre : forall k, (k < length (js "<img "))%nat -> ~ re_starts (drop k html)).
  { intros k Hk. change (length (js "<img ")) with 5%nat in Hk.
    intros (q & c & t & E & [-> | ->] & _);
      (destruct k as [|[|[|[|[|k]]]]]; [..|lia]); vm_compute in E; discriminate. }
  assert (Hu : js "a.png" <> []) by (vm_compute; discriminate).
  assert (Hf : Forall (fun c => is_url_char c = true) (js "a.png")) by (vm_compute; repeat constructor).
  refine (conj eq_refl (conj (or_intror eq_refl) (conj Hu (conj Hf (conj Hpre _))))).
  apply (extract_url_spec html (js "<img ") [34] (js "a.png") ([34] ++ js ">"));
    [reflexivity|right; reflexivity|exact Hu|exact Hf|vm_compute; reflexivity|exact Hpre].
Defined.
