(* ===== verification/Media.v ===== *)
(** * Media: the drop, paste, probe and upload handlers as an event system

    The ready callback of [initWhiteboard] registers, each time it runs,
    a set of drag-and-drop handlers on [#whiteboardContainer] with its own
    [dragCounter] (lines 269-437), and [initWhiteboard] registers one more
    paste listener on [window] (lines 545-577).  The handlers start
    asynchronous work: [FileReader]s (lines 301-307, 310-399 and 558-566),
    image-URL probes with a 2000 ms timer ([isValidImageUrl], lines
    527-542), PDF loading and page rendering with [pdf.js], and uploads
    ([uploadImgAndAddToWhiteboard], lines 486-510).  Their callbacks run
    later, each as one event of the page.

    [MWorld] holds the state these handlers share: the read-only flag and
    the configuration as the other components leave them, the clock, the
    open notices, the drag counters, the stores of readers, probes, PDF
    tasks, renders and uploads (indexed by creation order, as the closures
    that refer to them), and the images placed on the surface.  [mstep]
    runs one event (a DOM event, a callback of an asynchronous task, the
    passing of time, or a change made by another component) to
    completion; a callback of a task that is not pending does nothing.

    The paste handler declares [var reader] inside its loop: the variable
    is function-scoped, so every [onloadend] closure of one paste reads
    the reader created last.  [RPaste alias] records that reader, and
    the upload of a paste reader sends the current [result] of the alias
    ([null] while it has not loaded). *)

From stdpp Require Import base list sets.
From Stdlib Require Import ZArith Lia.
From S2P Require Import Prelude JsString MediaNames.
Open Scope Z_scope.

(** ** Data *)

(** An open [.basicalert]: a notice, or the page picker of a PDF task. *)
Inductive Alert :=
| ANotice (msg : jsstring)
| APdfModal (pdf : nat).

#[export] Instance Alert_eq_dec : EqDecision Alert.
Proof. solve_decision. Defined.

(** What a reader's [onloadend] does. *)
Inductive ReaderKind :=
| RDropImage              (** lines 301-307: upload its own result *)
| RDropPdf                (** lines 310-399: open [this.result] with pdf.js *)
| RPaste (alias : nat).   (** lines 558-566: upload the result of the reader [alias] *)

(** A [FileReader]: the data URL (or bytes) of its blob, and whether it
    has loaded ([result] is [null] before). *)
Record Reader := { rd_data : jsstring; rd_kind : ReaderKind; rd_done : bool }.

(** The callbacks passed to [isValidImageUrl] by the drop handler: the
    probe of the dragged file URL (line 416), then of the [src] of the
    dragged HTML (line 420). *)
Inductive ProbeCont :=
| PFirst (fileUrl url : jsstring)
| PSecond (url : jsstring).

(** An [isValidImageUrl] probe: the timer of line 538 (pending or not),
    the image load (pending or not), and every value passed to its
    callback. *)
Record Probe := {
  pr_url : jsstring; pr_deadline : Z; pr_timer : bool; pr_loading : bool;
  pr_cont : ProbeCont; pr_answers : list bool }.

(** A [pdfjsLib.getDocument] task and the picker it opens (lines 316-399):
    the number of pages, the page selected, and [currentDataUrl]. *)
Inductive PdfState :=
| PdfLoading
| PdfFailed
| PdfOpen (pages selected : nat) (current : option jsstring).

(** [showPDFPageAsImage(page)]: [getPage] then [render], pending or not. *)
Record Render := { rn_pdf : nat; rn_page : nat; rn_pending : bool }.

(** A POST to [/api/upload]: [imagedata] ([None] for [null]), [date]. *)
Record Upload := { up_data : option jsstring; up_date : Z; up_pending : bool }.

(** [e.originalEvent.dataTransfer]: the files (name and content) and the
    [URL] and [text/html] data (empty when absent). *)
Record DataTransfer := { dt_files : list (jsstring * jsstring); dt_url : jsstring; dt_html : jsstring }.

(** The page state the media handlers read and write. *)
Record MWorld := {
  m_ro : bool;  (* [ReadOnlyService.readOnlyActive], read by every handler *)
  m_crw : option jsstring;  (* [ConfigService.correspondingReadOnlyWid] *)
  m_tool : jsstring;  (* [whiteboard.tool] *)
  m_now : Z;  (* the clock of [new Date()] and of the timers, in ms *)
  m_alerts : list Alert;  (* the open [.basicalert] elements, oldest first *)
  m_counters : list Z;  (* the [dragCounter] of each registered set of drag handlers *)
  m_indicator : bool;  (* [whiteboard.dropIndicator] shown *)
  m_paste : nat;  (* the registered paste listeners *)
  m_readers : list Reader;  (* every [FileReader] created, by creation order *)
  m_probes : list Probe;  (* every [isValidImageUrl] probe *)
  m_pdfs : list PdfState;  (* every [pdfjsLib.getDocument] task and its picker *)
  m_renders : list Render;  (* every page rendering *)
  m_uploads : list Upload;  (* every upload POSTed to [/api/upload] *)
  m_placed : list jsstring;  (* the URLs passed to [whiteboard.addImgToCanvasByUrl] *)
}.


Definition set_ro (v : bool) (w : MWorld) : MWorld :=
  {| m_ro := v; m_crw := m_crw w; m_tool := m_tool w; m_now := m_now w;
     m_alerts := m_alerts w; m_counters := m_counters w; m_indicator := m_indicator w; m_paste := m_paste w;
     m_readers := m_readers w; m_probes := m_probes w; m_pdfs := m_pdfs w; m_renders := m_renders w;
     m_uploads := m_uploads w; m_placed := m_placed w |}.

Definition set_crw (v : option jsstring) (w : MWorld) : MWorld :=
  {| m_ro := m_ro w; m_crw := v; m_tool := m_tool w; m_now := m_now w;
     m_alerts := m_alerts w; m_counters := m_counters w; m_indicator := m_indicator w; m_paste := m_paste w;
     m_readers := m_readers w; m_probes := m_probes w; m_pdfs := m_pdfs w; m_renders := m_renders w;
     m_uploads := m_uploads w; m_placed := m_placed w |}.

Definition set_tool (v : jsstring) (w : MWorld) : MWorld :=
  {| m_ro := m_ro w; m_crw := m_crw w; m_tool := v; m_now := m_now w;
     m_alerts := m_alerts w; m_counters := m_counters w; m_indicator := m_indicator w; m_paste := m_paste w;
     m_readers := m_readers w; m_probes := m_probes w; m_pdfs := m_pdfs w; m_renders := m_renders w;
     m_uploads := m_uploads w; m_placed := m_placed w |}.

Definition set_now (v : Z) (w : MWorld) : MWorld :=
  {| m_ro := m_ro w; m_crw := m_crw w; m_tool := m_tool w; m_now := v;
     m_alerts := m_alerts w; m_counters := m_counters w; m_indicator := m_indicator w; m_paste := m_paste w;
     m_readers := m_readers w; m_probes := m_probes w; m_pdfs := m_pdfs w; m_renders := m_renders w;
     m_uploads := m_uploads w; m_placed := m_placed w |}.

Definition set_alerts (v : list Alert) (w : MWorld) : MWorld :=
  {| m_ro := m_ro w; m_crw := m_crw w; m_tool := m_tool w; m_now := m_now w;
     m_alerts := v; m_counters := m_counters w; m_indicator := m_indicator w; m_paste := m_paste w;
     m_readers := m_readers w; m_probes := m_probes w; m_pdfs := m_pdfs w; m_renders := m_renders w;
     m_uploads := m_uploads w; m_placed := m_placed w |}.

Definition set_counters (v : list Z) (w : MWorld) : MWorld :=
  {| m_ro := m_ro w; m_crw := m_crw w; m_tool := m_tool w; m_now := m_now w;
     m_alerts := m_alerts w; m_counters := v; m_indicator := m_indicator w; m_paste := m_paste w;
     m_readers := m_readers w; m_probes := m_probes w; m_pdfs := m_pdfs w; m_renders := m_renders w;
     m_uploads := m_uploads w; m_placed := m_placed w |}.

Definition set_indicator (v : bool) (w : MWorld) : MWorld :=
  {| m_ro := m_ro w; m_crw := m_crw w; m_tool := m_tool w; m_now := m_now w;
     m_alerts := m_alerts w; m_counters := m_counters w; m_indicator := v; m_paste := m_paste w;
     m_readers := m_readers w; m_probes := m_probes w; m_pdfs := m_pdfs w; m_renders := m_renders w;
     m_uploads := m_uploads w; m_placed := m_placed w |}.

Definition set_paste (v : nat) (w : MWorld) : MWorld :=
  {| m_ro := m_ro w; m_crw := m_crw w; m_tool := m_tool w; m_now := m_now w;
     m_alerts := m_alerts w; m_counters := m_counters w; m_indicator := m_indicator w; m_paste := v;
     m_readers := m_readers w; m_probes := m_probes w; m_pdfs := m_pdfs w; m_renders := m_renders w;
     m_uploads := m_uploads w; m_placed := m_placed w |}.

Definition set_readers (v : list Reader) (w : MWorld) : MWorld :=
  {| m_ro := m_ro w; m_crw := m_crw w; m_tool := m_tool w; m_now := m_now w;
     m_alerts := m_alerts w; m_counters := m_counters w; m_indicator := m_indicator w; m_paste := m_paste w;
     m_readers := v; m_probes := m_probes w; m_pdfs := m_pdfs w; m_renders := m_renders w;
     m_uploads := m_uploads w; m_placed := m_placed w |}.

Definition set_probes (v : list Probe) (w : MWorld) : MWorld :=
  {| m_ro := m_ro w; m_crw := m_crw w; m_tool := m_tool w; m_now := m_now w;
     m_alerts := m_alerts w; m_counters := m_counters w; m_indicator := m_indicator w; m_paste := m_paste w;
     m_readers := m_readers w; m_probes := v; m_pdfs := m_pdfs w; m_renders := m_renders w;
     m_uploads := m_uploads w; m_placed := m_placed w |}.

Definition set_pdfs (v : list PdfState) (w : MWorld) : MWorld :=
  {| m_ro := m_ro w; m_crw := m_crw w; m_tool := m_tool w; m_now := m_now w;
     m_alerts := m_alerts w; m_counters := m_counters w; m_indicator := m_indicator w; m_paste := m_paste w;
     m_readers := m_readers w; m_probes := m_probes w; m_pdfs := v; m_renders := m_renders w;
     m_uploads := m_uploads w; m_placed := m_placed w |}.

Definition set_renders (v : list Render) (w : MWorld) : MWorld :=
  {| m_ro := m_ro w; m_crw := m_crw w; m_tool := m_tool w; m_now := m_now w;
     m_alerts := m_alerts w; m_counters := m_counters w; m_indicator := m_indicator w; m_paste := m_paste w;
     m_readers := m_readers w; m_probes := m_probes w; m_pdfs := m_pdfs w; m_renders := v;
     m_uploads := m_uploads w; m_placed := m_placed w |}.

Definition set_uploads (v : list Upload) (w : MWorld) : MWorld :=
  {| m_ro := m_ro w; m_crw := m_crw w; m_tool := m_tool w; m_now := m_now w;
     m_alerts := m_alerts w; m_counters := m_counters w; m_indicator := m_indicator w; m_paste := m_paste w;
     m_readers := m_readers w; m_probes := m_probes w; m_pdfs := m_pdfs w; m_renders := m_renders w;
     m_uploads := v; m_placed := m_placed w |}.

Definition set_placed (v : list jsstring) (w : MWorld) : MWorld :=
  {| m_ro := m_ro w; m_crw := m_crw w; m_tool := m_tool w; m_now := m_now w;
     m_alerts := m_alerts w; m_counters := m_counters w; m_indicator := m_indicator w; m_paste := m_paste w;
     m_readers := m_readers w; m_probes := m_probes w; m_pdfs := m_pdfs w; m_renders := m_renders w;
     m_uploads := m_uploads w; m_placed := v |}.

(** The events of the page that reach the media handlers. *)
Inductive MInput :=
| M_DragEnter
| M_DragLeave
| M_Drop (dt : option DataTransfer)
| M_ReaderLoadEnd (i : nat)
| M_PdfResolved (i : nat) (pages : nat)
| M_PdfRejected (i : nat)
| M_PageSelect (i : nat) (page : nat)
| M_RenderDone (r : nat) (dataUrl : jsstring)
| M_PdfUploadClick (i : nat)
| M_ImgLoad (p : nat)
| M_ImgError (p : nat)       (** [onerror] and [onabort] share the handler *)
| M_Tick (ms : nat)            (** [ms] milliseconds pass; due timers fire *)
| M_UploadSuccess (u : nat)
| M_UploadError (u : nat) (err : jsstring)  (** [JSON.stringify(err)] *)
| M_Paste (clipboard : option (list (jsstring * jsstring)))  (** item types and contents *)
| M_AlertClose (k : nat)
| M_ReadyHandlers              (** a ready callback registers one more set of drag handlers *)
| M_PasteListener              (** [initWhiteboard] registers one more paste listener *)
| M_SetReadOnly (b : bool)
| M_SetConfig (crw : option jsstring)
| M_SetTool (tool : jsstring).

Definition msg_not_image : jsstring := js "File must be an image!".
Definition msg_bad_pdf : jsstring := js "Error loading pdf as image! Check that this is a vaild pdf file!".
Definition msg_not_imagedata : jsstring := js "Can only upload Imagedata!".
Definition msg_paste_hint : jsstring :=
  js "Please Drag&Drop the image or pdf into the Whiteboard. (Browsers don't allow copy+past from the filesystem directly)".
Definition msg_upload_failed (err : jsstring) : jsstring := js "Failed to upload frame: " ++ err.

(** The probe timeout of line 540. *)
Definition probe_timeout : Z := 2000.

Section Handlers.

(** [document.URL] of the page. *)
Variable documentURL : jsstring.

(** ** Effects shared by the handlers *)

(** [showBasicAlert(msg)] (lines 90-141): one more open notice. *)
Definition alert_notice (msg : jsstring) (w : MWorld) : MWorld := set_alerts (m_alerts w ++ [ANotice msg]) w.

(** [uploadImgAndAddToWhiteboard(data)] (lines 486-496): the POST, dated
    by [+new Date()]. *)
Definition uploadImgAndAddToWhiteboard (data : option jsstring) (w : MWorld) : MWorld :=
  set_uploads (m_uploads w ++ [{| up_data := data; up_date := m_now w; up_pending := true |}]) w.

(** [whiteboard.addImgToCanvasByUrl(url)]. *)
Definition addImgToCanvasByUrl (url : jsstring) (w : MWorld) : MWorld := set_placed (m_placed w ++ [url]) w.

(** [new window.FileReader()] started on a blob. *)
Definition new_reader (data : jsstring) (k : ReaderKind) (w : MWorld) : MWorld :=
  set_readers (m_readers w ++ [{| rd_data := data; rd_kind := k; rd_done := false |}]) w.

(** [reader.result]: [null] until the reader has loaded. *)
Definition reader_result (w : MWorld) (i : nat) : option jsstring :=
  match m_readers w !! i with
  | Some r => if rd_done r then Some (rd_data r) else None
  | None => None
  end.

(** ** isValidImageUrl (lines 527-542) *)

(** The call: a timer due [probe_timeout] ms from now, and the image load. *)
Definition isValidImageUrl (url : jsstring) (k : ProbeCont) (w : MWorld) : MWorld :=
  set_probes (m_probes w ++ [{| pr_url := url; pr_deadline := m_now w + probe_timeout; pr_timer := true;
                                 pr_loading := true; pr_cont := k; pr_answers := [] |}]) w.

(** The callbacks passed by the drop handler (lines 416-432). *)
Definition probe_callback (k : ProbeCont) (isImage : bool) (w : MWorld) : MWorld :=
  match k with
  | PFirst fileUrl url =>
      if isImage && isImageFileName url then addImgToCanvasByUrl fileUrl w
      else isValidImageUrl url (PSecond url) w
  | PSecond url =>
      if isImage then
        if isImageFileName url || startsWith url (js "http") then addImgToCanvasByUrl url w
        else uploadImgAndAddToWhiteboard (Some url) w
      else alert_notice msg_not_imagedata w
  end.

(** Probe [i] calls its callback with [b], leaving its timer and its load
    in the given states. *)
Definition answer (i : nat) (p : Probe) (timer loading b : bool) (w : MWorld) : MWorld :=
  probe_callback (pr_cont p) b
    (set_probes (<[i := {| pr_url := pr_url p; pr_deadline := pr_deadline p; pr_timer := timer;
                           pr_loading := loading; pr_cont := pr_cont p; pr_answers := pr_answers p ++ [b] |}]>
                 (m_probes w)) w).

(** [img.onload]: [clearTimeout(timer); callback(true)]. *)
Definition img_onload (i : nat) (w : MWorld) : MWorld :=
  match m_probes w !! i with
  | Some p => if pr_loading p then answer i p false false true w else w
  | None => w
  end.

(** [img.onerror = img.onabort]: [clearTimeout(timer); callback(false)]. *)
Definition img_onerror (i : nat) (w : MWorld) : MWorld :=
  match m_probes w !! i with
  | Some p => if pr_loading p then answer i p false false false w else w
  | None => w
  end.

(** The timer of line 538, when due: [callback(false)]; the image keeps
    loading. *)
Definition timer_fire (i : nat) (w : MWorld) : MWorld :=
  match m_probes w !! i with
  | Some p => if pr_timer p && (pr_deadline p <=? m_now w) then answer i p false (pr_loading p) false w else w
  | None => w
  end.

(** [ms] milliseconds pass, then the due timers fire in the order they
    were set (a timer set by a callback is due [probe_timeout] later). *)
Definition tick (ms : nat) (w : MWorld) : MWorld :=
  let w1 := set_now (m_now w + Z.of_nat ms) w in
  fold_left (fun w' i => timer_fire i w') (seq 0 (length (m_probes w1))) w1.

(** ** The drag-and-drop handlers of one ready callback (lines 269-437) *)

Definition counter (k : nat) (w : MWorld) : Z := default 0 (m_counters w !! k).

(** [dragenter] (lines 271-277). *)
Definition dragenter_one (k : nat) (w : MWorld) : MWorld :=
  if m_ro w then w
  else set_indicator true (set_counters (<[k := counter k w + 1]> (m_counters w)) w).

(** [dragleave] (lines 279-288). *)
Definition dragleave_one (k : nat) (w : MWorld) : MWorld :=
  if m_ro w then w
  else
    let c := counter k w - 1 in
    let w1 := set_counters (<[k := c]> (m_counters w)) w in
    if c =? 0 then set_indicator false w1 else w1.

(** The body of the [drop] handler for a [dataTransfer] (lines 294-434). *)
Definition drop_transfer (dt : DataTransfer) (w : MWorld) : MWorld :=
  match dt_files dt with
  | (name, data) :: _ =>
      if isImageFileName name then new_reader data RDropImage w
      else if isPDFFileName name then new_reader data RDropPdf w
      else alert_notice msg_not_image w
  | [] => isValidImageUrl (dt_url dt) (PFirst (dt_url dt) (extract_url (dt_html dt))) w
  end.

(** [drop] (lines 290-437): nothing when read-only; otherwise the body,
    then [dragCounter = 0] and the indicator hidden. *)
Definition drop_one (dt : option DataTransfer) (k : nat) (w : MWorld) : MWorld :=
  if m_ro w then w
  else
    let w1 := match dt with Some d => drop_transfer d w | None => w end in
    set_indicator false (set_counters (<[k := 0]> (m_counters w1)) w1).

(** A DOM event runs the handlers of every registered set, in order. *)
Definition for_each_handler (h : nat -> MWorld -> MWorld) (w : MWorld) : MWorld :=
  fold_left (fun w' k => h k w') (seq 0 (length (m_counters w))) w.

(** ** FileReader callbacks *)

(** [reader.onloadend] of reader [i] (lines 304-307, 313-398, 562-566). *)
Definition reader_loadend (i : nat) (w : MWorld) : MWorld :=
  match m_readers w !! i with
  | Some r =>
      if rd_done r then w
      else
        let w1 := set_readers (<[i := {| rd_data := rd_data r; rd_kind := rd_kind r; rd_done := true |}]>
                                (m_readers w)) w in
        match rd_kind r with
        | RDropImage => uploadImgAndAddToWhiteboard (Some (rd_data r)) w1
        | RDropPdf => set_pdfs (m_pdfs w1 ++ [PdfLoading]) w1
        | RPaste a => uploadImgAndAddToWhiteboard (reader_result w1 a) w1
        end
  | None => w
  end.

(** ** The PDF picker (lines 316-399) *)

(** [showPDFPageAsImage(page)]: [getPage] and [render] of a page. *)
Definition showPDFPageAsImage (i page : nat) (w : MWorld) : MWorld :=
  set_renders (m_renders w ++ [{| rn_pdf := i; rn_page := page; rn_pending := true |}]) w.

(** The picker is displayed while its alert is open. *)
Definition modal_open (i : nat) (w : MWorld) : bool := bool_decide (APdfModal i ∈ m_alerts w).

(** [loadingTask.promise] resolved: the picker with its pages, shown as
    an alert, and page 1 rendered. *)
Definition pdf_resolved (i pages : nat) (w : MWorld) : MWorld :=
  match m_pdfs w !! i with
  | Some PdfLoading =>
      showPDFPageAsImage i 1
        (set_alerts (m_alerts w ++ [APdfModal i]) (set_pdfs (<[i := PdfOpen pages 1 None]> (m_pdfs w)) w))
  | _ => w
  end.

(** [loadingTask.promise] rejected (lines 389-396). *)
Definition pdf_rejected (i : nat) (w : MWorld) : MWorld :=
  match m_pdfs w !! i with
  | Some PdfLoading => alert_notice msg_bad_pdf (set_pdfs (<[i := PdfFailed]> (m_pdfs w)) w)
  | _ => w
  end.

(** The [select] change handler (lines 330-332). *)
Definition page_select (i page : nat) (w : MWorld) : MWorld :=
  match m_pdfs w !! i with
  | Some (PdfOpen pages _ cur) =>
      if modal_open i w && (1 <=? page)%nat && (page <=? pages)%nat
      then showPDFPageAsImage i page (set_pdfs (<[i := PdfOpen pages page cur]> (m_pdfs w)) w)
      else w
  | _ => w
  end.

(** [renderTask.promise] resolved (lines 380-385): [currentDataUrl] is the
    page that finished rendering last. *)
Definition render_done (r : nat) (dataUrl : jsstring) (w : MWorld) : MWorld :=
  match m_renders w !! r with
  | Some rn =>
      if rn_pending rn then
        let w1 := set_renders (<[r := {| rn_pdf := rn_pdf rn; rn_page := rn_page rn; rn_pending := false |}]>
                                (m_renders w)) w in
        match m_pdfs w1 !! rn_pdf rn with
        | Some (PdfOpen pages sel _) => set_pdfs (<[rn_pdf rn := PdfOpen pages sel (Some dataUrl)]> (m_pdfs w1)) w1
        | _ => w1
        end
      else w
  | None => w
  end.

(** The upload button (lines 334-342): when [currentDataUrl] is set,
    remove every [.basicalert] and upload it. *)
Definition pdf_upload_click (i : nat) (w : MWorld) : MWorld :=
  match m_pdfs w !! i with
  | Some (PdfOpen _ _ cur) =>
      if modal_open i w && truthy cur then uploadImgAndAddToWhiteboard cur (set_alerts [] w) else w
  | _ => w
  end.

(** ** Upload callbacks (lines 497-508) *)

Definition finish_upload (up : Upload) : Upload :=
  {| up_data := up_data up; up_date := up_date up; up_pending := false |}.

(** [success]: the image URL is built from [correspondingReadOnlyWid] as
    it is when the response arrives. *)
Definition upload_success (u : nat) (w : MWorld) : MWorld :=
  match m_uploads w !! u with
  | Some up =>
      if up_pending up then
        addImgToCanvasByUrl (uploaded_image_url documentURL (m_crw w) (up_date up))
          (set_uploads (<[u := finish_upload up]> (m_uploads w)) w)
      else w
  | None => w
  end.

Definition upload_error (u : nat) (err : jsstring) (w : MWorld) : MWorld :=
  match m_uploads w !! u with
  | Some up =>
      if up_pending up then
        alert_notice (msg_upload_failed err) (set_uploads (<[u := finish_upload up]> (m_uploads w)) w)
      else w
  | None => w
  end.

(** ** The paste listener (lines 545-577) *)

(** [items[i].type.indexOf("image") !== -1]. *)
Definition is_image_item (it : jsstring * jsstring) : bool := negb (indexOf it.1 (js "image") =? -1).

(** One paste listener: nothing while a notice is open or without
    [clipboardData]; a reader per image item, all of whose callbacks read
    the last one; the hint when no item is an image and the tool is not
    [text]. *)
Definition paste_one (clip : option (list (jsstring * jsstring))) (w : MWorld) : MWorld :=
  if negb (bool_decide (m_alerts w = [])) then w
  else
    match clip with
    | None => w
    | Some items =>
        let imgs := List.filter is_image_item items in
        let alias := (length (m_readers w) + length imgs - 1)%nat in
        let w1 := fold_left (fun w' it => new_reader it.2 (RPaste alias) w') imgs w in
        if bool_decide (imgs = []) && negb (bool_decide (m_tool w = js "text"))
        then alert_notice msg_paste_hint w1 else w1
    end.

(** A paste event runs every registered listener. *)
Definition paste (clip : option (list (jsstring * jsstring))) (w : MWorld) : MWorld :=
  Nat.iter (m_paste w) (paste_one clip) w.

(** ** The event loop *)

Definition mstep (i : MInput) (w : MWorld) : MWorld :=
  match i with
  | M_DragEnter => for_each_handler dragenter_one w
  | M_DragLeave => for_each_handler dragleave_one w
  | M_Drop dt => for_each_handler (drop_one dt) w
  | M_ReaderLoadEnd r => reader_loadend r w
  | M_PdfResolved p pages => pdf_resolved p pages w
  | M_PdfRejected p => pdf_rejected p w
  | M_PageSelect p page => page_select p page w
  | M_RenderDone r d => render_done r d w
  | M_PdfUploadClick p => pdf_upload_click p w
  | M_ImgLoad p => img_onload p w
  | M_ImgError p => img_onerror p w
  | M_Tick ms => tick ms w
  | M_UploadSuccess u => upload_success u w
  | M_UploadError u err => upload_error u err w
  | M_Paste clip => paste clip w
  | M_AlertClose k => set_alerts (delete k (m_alerts w)) w
  | M_ReadyHandlers => set_counters (m_counters w ++ [0]) w
  | M_PasteListener => set_paste (S (m_paste w)) w
  | M_SetReadOnly b => set_ro b w
  | M_SetConfig crw => set_crw crw w
  | M_SetTool t => set_tool t w
  end.

Definition mrun (ins : list MInput) (w : MWorld) : MWorld := fold_left (fun w i => mstep i w) ins w.

(** The page before [initWhiteboard]: no handler yet, the mouse tool. *)
Definition m_init : MWorld :=
  {| m_ro := false; m_crw := None; m_tool := js "mouse"; m_now := 0; m_alerts := [];
     m_counters := []; m_indicator := false; m_paste := 0; m_readers := []; m_probes := [];
     m_pdfs := []; m_renders := []; m_uploads := []; m_placed := [] |}.

Inductive mreachable : MWorld -> Prop :=
| mreach_init : mreachable m_init
| mreach_step i w : mreachable w -> mreachable (mstep i w).

End Handlers.

(** ** Lemmas *)

Section ReadOnly.

Context (documentURL : jsstring).

Lemma for_each_handler_fixed h w : (forall k, h k w = w) -> for_each_handler h w = w.
Proof. intros Hh. apply fold_left_fixed. intros k. apply Hh. Qed.

Lemma paste_one_set_ro b clip w : paste_one clip (set_ro b w) = set_ro b (paste_one clip w).
Proof.
  unfold paste_one. cbn [m_alerts m_readers m_tool set_ro].
  case_match; [done|]. destruct clip as [items|]; [|done].
  rewrite (fold_left_comm (set_ro b)) by reflexivity. by case_match.
Qed.

End ReadOnly.

Section DropReaders.

Context (documentURL : jsstring).

Definition drop_reader (data : jsstring) : Reader := {| rd_data := data; rd_kind := RDropImage; rd_done := false |}.

Lemma lookup_app_length {A} (l r : list A) x : (l ++ x :: r) !! length l = Some x.
Proof. rewrite lookup_app_r, Nat.sub_diag by lia. done. Qed.

Lemma insert_app_length {A} (l r : list A) x y : <[length l := y]> (l ++ x :: r) = l ++ y :: r.
Proof. rewrite insert_app_r_alt, Nat.sub_diag by lia. done. Qed.

Lemma lookup_app_S {A} (l r : list A) x y : (l ++ x :: y :: r) !! S (length l) = Some y.
Proof. rewrite lookup_app_r by lia. by replace (S (length l) - length l)%nat with 1%nat by lia. Qed.

Lemma insert_app_S {A} (l r : list A) x y z : <[S (length l) := z]> (l ++ x :: y :: r) = l ++ x :: z :: r.
Proof. rewrite insert_app_r_alt by lia. by replace (S (length l) - length l)%nat with 1%nat by lia. Qed.

(** Each registered set of handlers starts its own reader on an image drop. *)
Lemma drop_image_fold dt name data rest w :
  m_ro w = false -> dt_files dt = (name, data) :: rest -> isImageFileName name = true ->
  let w' := for_each_handler (drop_one (Some dt)) w in
  m_readers w' = m_readers w ++ repeat (drop_reader data) (length (m_counters w)) /\
  m_ro w' = false /\ m_uploads w' = m_uploads w /\ m_now w' = m_now w.
Proof.
  intros Hro Hdt Himg. unfold for_each_handler. rewrite <- (length_seq (length (m_counters w)) 0) at 2.
  apply (fold_left_count (fun j x => m_readers x = m_readers w ++ repeat (drop_reader data) j /\
    m_ro x = false /\ m_uploads x = m_uploads w /\ m_now x = m_now w)).
  - by rewrite app_nil_r.
  - intros j x k (Hr & Hx & Hu & Hn). rewrite repeat_S_r, app_assoc, <- Hr.
    unfold drop_one, drop_transfer. rewrite ?Hx, Hdt, Himg. cbn. split_and!; done.
Qed.

(** The readers of an image drop, completing in order, each POST their data. *)
Lemma loadend_uploads data n : forall R w,
  m_readers w = R ++ repeat (drop_reader data) n ->
  let w' := mrun documentURL (map M_ReaderLoadEnd (seq (length R) n)) w in
  m_uploads w' = m_uploads w ++ repeat {| up_data := Some data; up_date := m_now w; up_pending := true |} n /\
  m_ro w' = m_ro w.
Proof.
  induction n as [|n IH]; intros R w Hr; [cbn; by rewrite app_nil_r|].
  cbn [repeat] in Hr.
  change (mrun documentURL (map M_ReaderLoadEnd (seq (length R) (S n))) w)
    with (mrun documentURL (map M_ReaderLoadEnd (seq (S (length R)) n)) (reader_loadend (length R) w)).
  cbv zeta. unfold reader_loadend. rewrite Hr, lookup_app_length. cbn [rd_done drop_reader rd_kind rd_data].
  rewrite insert_app_length.
  destruct (IH (R ++ [{| rd_data := data; rd_kind := RDropImage; rd_done := true |}]) (uploadImgAndAddToWhiteboard (Some data)
     (set_readers (R ++ {| rd_data := data; rd_kind := RDropImage; rd_done := true |} :: repeat (drop_reader data) n) w))) as [Hu Hro].
  { cbn. by rewrite <- app_assoc. }
  rewrite length_app, Nat.add_1_r in Hu, Hro. rewrite Hu, Hro. cbn.
  split; [|done]. by rewrite <- app_assoc.
Qed.

End DropReaders.

Section Probes.

Context (documentURL : jsstring).

(** What the callbacks and timers of other probes leave of probe [i]. *)
Definition probe_frame (i : nat) (w' w : MWorld) : Prop :=
  m_probes w' !! i = m_probes w !! i /\ m_now w' = m_now w /\ (length (m_probes w) <= length (m_probes w'))%nat.

Lemma probe_frame_refl i w : probe_frame i w w.
Proof. by repeat split. Qed.

Lemma probe_frame_trans i w1 w2 w3 : probe_frame i w3 w2 -> probe_frame i w2 w1 -> probe_frame i w3 w1.
Proof. intros (H1 & H2 & H3) (H4 & H5 & H6). repeat split; [congruence|congruence|lia]. Qed.

Lemma probe_callback_frame k b w i : (i < length (m_probes w))%nat -> probe_frame i (probe_callback k b w) w.
Proof.
  intros Hi. unfold probe_callback, probe_frame.
  repeat case_match; cbn; rewrite ?lookup_app_l, ?length_app by done; repeat split; lia.
Qed.

Lemma answer_frame j p t l b w i :
  i <> j -> (i < length (m_probes w))%nat -> probe_frame i (answer j p t l b w) w.
Proof.
  intros Hij Hi. unfold answer.
  eapply probe_frame_trans; [apply probe_callback_frame; cbn [m_probes set_probes]; by rewrite length_insert|].
  unfold probe_frame. cbn [m_probes m_now set_probes]. split; [by rewrite list_lookup_insert_ne|]. split; [done|].
  by rewrite length_insert.
Qed.

(** The probe that answers: its answer is recorded, the rest kept. *)
Lemma answer_self i p t l b w :
  m_probes w !! i = Some p ->
  exists p', m_probes (answer i p t l b w) !! i = Some p' /\ pr_answers p' = pr_answers p ++ [b] /\
    pr_timer p' = t /\ pr_loading p' = l /\ pr_deadline p' = pr_deadline p /\
    m_now (answer i p t l b w) = m_now w.
Proof.
  intros Hp. assert (Hi : (i < length (m_probes w))%nat) by (by apply lookup_lt_Some in Hp).
  unfold answer.
  set (p' := {| pr_url := pr_url p; pr_deadline := pr_deadline p; pr_timer := t; pr_loading := l;
                pr_cont := pr_cont p; pr_answers := pr_answers p ++ [b] |}).
  destruct (probe_callback_frame (pr_cont p) b (set_probes (<[i := p']> (m_probes w)) w) i)
    as (Hl & Hn & _); [cbn [m_probes set_probes]; by rewrite length_insert|].
  exists p'. rewrite Hl, Hn. cbn [m_probes m_now set_probes]. rewrite list_lookup_insert_eq by done.
  by split_and!.
Qed.

Lemma timer_fire_frame j w i : i <> j -> (i < length (m_probes w))%nat -> probe_frame i (timer_fire j w) w.
Proof.
  intros Hij Hi. unfold timer_fire. repeat case_match; try apply probe_frame_refl. by apply answer_frame.
Qed.

Lemma fire_all_frame l w i :
  i ∉ l -> (i < length (m_probes w))%nat ->
  probe_frame i (fold_left (fun w' j => timer_fire j w') l w) w.
Proof.
  intros Hl Hi. apply (fold_left_inv (fun x => probe_frame i x w)); [|apply probe_frame_refl].
  intros x j Hj Hx. eapply probe_frame_trans; [|exact Hx].
  apply timer_fire_frame; [set_solver|]. destruct Hx as (_ & _ & Hx). lia.
Qed.

(** A pending timer whose deadline is reached fires during the tick: the
    callback receives [false], the image may still be loading. *)
Lemma seq_split i n : (i < n)%nat -> seq 0 n = seq 0 i ++ i :: seq (S i) (n - S i).
Proof. intros Hi. replace n with (i + S (n - S i))%nat at 1 by lia. by rewrite seq_app. Qed.

Lemma tick_fires w i p ms :
  m_probes w !! i = Some p -> pr_timer p = true -> pr_deadline p <= m_now w + Z.of_nat ms ->
  exists p', m_probes (tick ms w) !! i = Some p' /\ pr_answers p' = pr_answers p ++ [false] /\
    pr_timer p' = false /\ pr_loading p' = pr_loading p.
Proof.
  intros Hp Ht Hd. assert (Hi : (i < length (m_probes w))%nat) by (by apply lookup_lt_Some in Hp).
  unfold tick. set (w1 := set_now (m_now w + Z.of_nat ms) w).
  rewrite (seq_split i) by (cbn [w1 m_probes set_now]; done).
  rewrite fold_left_app.
  destruct (fire_all_frame (seq 0 i) w1 i) as (H1 & H2 & H3); [rewrite elem_of_seq; lia|done|].
  cbn [fold_left]. unfold timer_fire at 2. rewrite H1. cbn [w1 m_probes set_now]. rewrite Hp, Ht.
  rewrite (proj2 (Z.leb_le _ _)) by (rewrite H2; cbn; lia). cbn [andb].
  destruct (answer_self i p false (pr_loading p) false
    (fold_left (fun w' j => timer_fire j w') (seq 0 i) w1)) as (p' & Hp' & Ha & Ht' & Hl & _ & _);
    [by rewrite H1|].
  destruct (fire_all_frame (seq (S i) (length (m_probes w) - S i))
    (answer i p false (pr_loading p) false (fold_left (fun w' j => timer_fire j w') (seq 0 i) w1)) i)
    as (H4 & _ & _); [rewrite elem_of_seq; lia|by apply lookup_lt_Some in Hp'|].
  exists p'. by rewrite H4.
Qed.

End Probes.

Section ProbeDeadlines.

Context (documentURL : jsstring).

(** Every probe's deadline is at most [probe_timeout] ahead of the clock. *)
Definition pbound (w : MWorld) : Prop :=
  Forall (fun p => pr_deadline p <= m_now w + probe_timeout) (m_probes w).

Lemma pbound_eq w w' : m_probes w' = m_probes w -> m_now w' = m_now w -> pbound w -> pbound w'.
Proof. unfold pbound. intros -> ->. done. Qed.

Lemma pbound_isValidImageUrl url k w : pbound w -> pbound (isValidImageUrl url k w).
Proof. unfold pbound. intros H. cbn. apply Forall_app. split; [done|]. constructor; [cbn; lia|done]. Qed.

Lemma pbound_probe_callback k b w : pbound w -> pbound (probe_callback k b w).
Proof.
  intros H. unfold probe_callback.
  repeat case_match; first [apply pbound_isValidImageUrl | eapply pbound_eq]; done.
Qed.

Lemma pbound_answer i p t l b w : m_probes w !! i = Some p -> pbound w -> pbound (answer i p t l b w).
Proof.
  intros Hp H. unfold answer. apply pbound_probe_callback. unfold pbound in *. cbn.
  apply Forall_insert; [done|]. cbn. by eapply Forall_lookup_1 in H; [|exact Hp].
Qed.

Lemma pbound_set_now n w : m_now w <= n -> pbound w -> pbound (set_now n w).
Proof. unfold pbound. intros Hn H. cbn. eapply Forall_impl; [exact H|]. intros p Hp. unfold probe_timeout in *. lia. Qed.

(** Close [pbound] goals for the handlers: frames, new probes, answers. *)
Ltac pbound_auto :=
  repeat first
    [ assumption
    | progress cbv zeta
    | progress case_match
    | match goal with |- pbound (?f ?w) => apply (pbound_eq w); [reflexivity|reflexivity|] end
    | eapply pbound_answer; [eassumption|]
    | apply pbound_isValidImageUrl
    | apply pbound_probe_callback ].

Lemma pbound_tick ms w : pbound w -> pbound (tick ms w).
Proof.
  intros H. unfold tick. apply fold_left_inv; [|apply pbound_set_now; [lia|done]].
  intros x j _ Hx. unfold timer_fire. pbound_auto.
Qed.

Lemma pbound_handlers h w : (forall k x, pbound x -> pbound (h k x)) -> pbound w -> pbound (for_each_handler h w).
Proof. intros Hh H. unfold for_each_handler. apply fold_left_inv; [|done]. intros x k _. apply Hh. Qed.

Lemma pbound_new_reader d k w : pbound w -> pbound (new_reader d k w).
Proof. intros H. by apply (pbound_eq w). Qed.

Lemma pbound_paste clip w : pbound w -> pbound (paste clip w).
Proof.
  intros H. unfold paste. apply iter_inv; [|done]. intros x Hx. unfold paste_one.
  case_match; [done|]. destruct clip as [items|]; [|done]. cbv zeta.
  match goal with |- context [fold_left ?f ?l x] =>
    assert (Hf : pbound (fold_left f l x))
      by (apply fold_left_inv; [intros y it _; apply pbound_new_reader|done]) end.
  case_match; [|done]. unfold alert_notice. exact (pbound_eq _ _ eq_refl eq_refl Hf).
Qed.

Lemma pbound_mstep i w : pbound w -> pbound (mstep documentURL i w).
Proof.
  intros H. destruct i; cbn [mstep].
  1-3: apply pbound_handlers; [intros k x Hx; unfold dragenter_one, dragleave_one, drop_one, drop_transfer;
         pbound_auto|done].
  all: try (apply pbound_tick; done).
  all: try (apply pbound_paste; done).
  all: unfold reader_loadend, pdf_resolved, pdf_rejected, page_select, render_done, pdf_upload_click,
         img_onload, img_onerror, upload_success, upload_error, showPDFPageAsImage,
         uploadImgAndAddToWhiteboard, alert_notice, addImgToCanvasByUrl; pbound_auto.
Qed.

Lemma mreachable_pbound w : mreachable documentURL w -> pbound w.
Proof.
  induction 1 as [|i w _ IH]; [constructor|]. by apply pbound_mstep.
Qed.

End ProbeDeadlines.

Section PdfPicker.

(** A pending render of an open picker's page that finishes sets
    [currentDataUrl], keeps the selection and touches nothing else the
    upload button reads. *)
Lemma render_done_open r rn d pages sel cur w :
  m_renders w !! r = Some rn -> rn_pending rn = true -> m_pdfs w !! rn_pdf rn = Some (PdfOpen pages sel cur) ->
  m_pdfs (render_done r d w) = <[rn_pdf rn := PdfOpen pages sel (Some d)]> (m_pdfs w) /\
  m_alerts (render_done r d w) = m_alerts w /\ m_uploads (render_done r d w) = m_uploads w /\
  m_now (render_done r d w) = m_now w /\
  m_renders (render_done r d w) = <[r := {| rn_pdf := rn_pdf rn; rn_page := rn_page rn; rn_pending := false |}]> (m_renders w).
Proof. intros Hr Hp Hpdf. unfold render_done. rewrite Hr, Hp. cbv zeta. cbn [m_pdfs set_renders]. by rewrite Hpdf. Qed.

End PdfPicker.

Lemma mrun_reachable documentURL ins w :
  mreachable documentURL w -> mreachable documentURL (mrun documentURL ins w).
Proof.
  revert w. induction ins as [|i ins IH]; intros w Hw; [done|]. apply IH. by apply mreach_step.
Qed.

(** ** Claims *)

Section Claims.

Context (documentURL : jsstring).

(** C29: With read-only mode on, [dragenter], [dragleave] and [drop] do
    nothing at all, in every registered set of handlers (the early
    returns of lines 272, 280 and 292). *)
Theorem drag_drop_read_only (w : MWorld) (dt : option DataTransfer) :
  m_ro w = true ->
  mstep documentURL M_DragEnter w = w /\ mstep documentURL M_DragLeave w = w /\
  mstep documentURL (M_Drop dt) w = w.
Proof.
  intros Hro. cbn [mstep]. split_and!; apply for_each_handler_fixed; intros k;
    unfold dragenter_one, dragleave_one, drop_one; by rewrite Hro.
Qed.

(** C30: The paste listener does not look at the read-only flag: a paste
    does the same with read-only mode on as with it off, readers and
    uploads included. *)
Theorem paste_ignores_read_only (w : MWorld) (clip : option (list (jsstring * jsstring))) :
  mstep documentURL (M_Paste clip) (set_ro true w) = set_ro true (mstep documentURL (M_Paste clip) w).
Proof.
  cbn [mstep]. unfold paste. cbn [m_paste set_ro]. generalize (m_paste w) as n.
  induction n as [|n IH]; [done|]. rewrite !Nat.iter_succ, IH. apply paste_one_set_ro.
Qed.

(** C31: An image file dropped on a page whose ready callback ran [n]
    times starts [n] readers, one per registered set of drop handlers;
    each POSTs the file when it has loaded, with the same timestamp, even
    if read-only mode was switched on in between. *)
Theorem drop_image_uploads (w : MWorld) (dt : DataTransfer) (name data : jsstring) rest :
  m_ro w = false -> dt_files dt = (name, data) :: rest -> isImageFileName name = true ->
  let w1 := mstep documentURL (M_SetReadOnly true) (mstep documentURL (M_Drop (Some dt)) w) in
  let w2 := mrun documentURL (map M_ReaderLoadEnd (seq (length (m_readers w)) (length (m_counters w)))) w1 in
  m_ro w2 = true /\
  m_uploads w2 = m_uploads w ++ repeat {| up_data := Some data; up_date := m_now w; up_pending := true |}
                                  (length (m_counters w)).
Proof.
  intros Hro Hdt Himg. cbv zeta. cbn [mstep].
  destruct (drop_image_fold dt name data rest w Hro Hdt Himg) as (Hr & _ & Hu & Hn).
  destruct (loadend_uploads documentURL data (length (m_counters w)) (m_readers w)
    (set_ro true (for_each_handler (drop_one (Some dt)) w))) as [Hu' Hro']; [exact Hr|].
  rewrite Hu', Hro'. cbn [m_uploads m_ro m_now set_ro]. by rewrite Hu, Hn.
Qed.

(** C32: When an upload succeeds, the image placed is the one at
    [rootUrl/uploads/crw/crw_date.png] with [correspondingReadOnlyWid] as
    it is when the response arrives; when it fails, nothing is placed and
    one notice shows the error. *)
Theorem upload_callbacks (w : MWorld) (u : nat) (up : Upload) (err : jsstring) :
  m_uploads w !! u = Some up -> up_pending up = true ->
  m_placed (mstep documentURL (M_UploadSuccess u) w) =
    m_placed w ++ [uploaded_image_url documentURL (m_crw w) (up_date up)] /\
  m_placed (mstep documentURL (M_UploadError u err) w) = m_placed w /\
  m_alerts (mstep documentURL (M_UploadError u err) w) = m_alerts w ++ [ANotice (msg_upload_failed err)].
Proof. intros Hu Hp. cbn [mstep]. unfold upload_success, upload_error. by rewrite Hu, Hp. Qed.

(** C33: Every probe of [isValidImageUrl] whose timer is pending has
    called back within [probe_timeout] = 2000 ms: after 2000 ms or more
    pass, it has answered [false] (the spec's bound on an unreachable
    URL). *)
Theorem probe_answers_within_timeout (w : MWorld) (i : nat) (p : Probe) (ms : nat) :
  mreachable documentURL w -> m_probes w !! i = Some p -> pr_timer p = true -> (2000 <= ms)%nat ->
  exists p', m_probes (mstep documentURL (M_Tick ms) w) !! i = Some p' /\
  pr_answers p' = pr_answers p ++ [false].
Proof.
  intros Hr Hp Ht Hms. pose proof (mreachable_pbound documentURL w Hr) as Hb.
  eapply Forall_lookup_1 in Hb; [|exact Hp]. cbn beta in Hb. unfold probe_timeout in Hb.
  destruct (tick_fires w i p ms Hp Ht) as (p' & Hp' & Ha & _); [lia|]. by exists p'.
Qed.

(** C34: A probe whose timer fires before its image loads calls its
    callback twice, first with [false] and then with [true]: the load
    handler does not check that the timeout has already answered. *)
Theorem probe_double_callback (w : MWorld) (i : nat) (p : Probe) (ms : nat) :
  m_probes w !! i = Some p -> pr_timer p = true -> pr_loading p = true ->
  pr_deadline p <= m_now w + Z.of_nat ms ->
  exists p', m_probes (mstep documentURL (M_ImgLoad i) (mstep documentURL (M_Tick ms) w)) !! i = Some p' /\
  pr_answers p' = pr_answers p ++ [false; true].
Proof.
  intros Hp Ht Hl Hd. cbn [mstep].
  destruct (tick_fires w i p ms Hp Ht Hd) as (p1 & Hp1 & Ha1 & _ & Hl1).
  unfold img_onload. rewrite Hp1, Hl1, Hl.
  destruct (answer_self i p1 false false true (tick ms w) Hp1) as (p2 & Hp2 & Ha2 & _).
  exists p2. split; [done|]. by rewrite Ha2, Ha1, <- app_assoc.
Qed.

(** C35: When two image items are pasted together, both readers' callbacks
    read the shared [reader] variable, i.e. the second reader: the first
    image is never uploaded.  If the first reader finishes first it
    uploads [null], otherwise the second image is uploaded twice. *)
Theorem paste_uploads_last_item (w : MWorld) (t1 t2 d1 d2 : jsstring) :
  m_paste w = 1%nat -> m_alerts w = [] -> is_image_item (t1, d1) = true -> is_image_item (t2, d2) = true ->
  let n := length (m_readers w) in
  let w0 := mstep documentURL (M_Paste (Some [(t1, d1); (t2, d2)])) w in
  m_uploads (mrun documentURL [M_ReaderLoadEnd n; M_ReaderLoadEnd (S n)] w0) =
    m_uploads w ++ [{| up_data := None; up_date := m_now w; up_pending := true |};
                    {| up_data := Some d2; up_date := m_now w; up_pending := true |}] /\
  m_uploads (mrun documentURL [M_ReaderLoadEnd (S n); M_ReaderLoadEnd n] w0) =
    m_uploads w ++ [{| up_data := Some d2; up_date := m_now w; up_pending := true |};
                    {| up_data := Some d2; up_date := m_now w; up_pending := true |}].
Proof.
  intros Hp Ha H1 H2. cbv zeta. unfold mrun. cbn [fold_left mstep].
  replace (paste _ w) with (paste_one (Some [(t1, d1); (t2, d2)]) w) by (unfold paste; by rewrite Hp).
  unfold paste_one. rewrite Ha, bool_decide_true by done. cbn [negb List.filter]. rewrite H1, H2.
  rewrite bool_decide_false by done. cbn [andb length fold_left].
  replace (length (m_readers w) + 2 - 1)%nat with (S (length (m_readers w))) by lia.
  unfold reader_loadend, new_reader. cbn [m_readers set_readers]. rewrite <- app_assoc. cbn [app].
  split; repeat first
    [ progress unfold reader_result | rewrite lookup_app_length | rewrite lookup_app_S
    | rewrite insert_app_length | rewrite insert_app_S
    | progress cbn [rd_done rd_kind rd_data snd m_readers set_readers uploadImgAndAddToWhiteboard
                    m_uploads set_uploads m_now] ];
    by rewrite <- app_assoc.
Qed.

(** C36: In the PDF picker, [currentDataUrl] is the page whose rendering
    finished last, not the page selected: when two pending renderings of
    an open picker's pages finish, the upload button sends the second one,
    whatever pages they rendered and whatever page is selected, and the
    selection stays as it was. *)
Theorem pdf_picker_uploads_last_render (w : MWorld) (i pages sel r1 r2 : nat) (cur : option jsstring)
    (rn1 rn2 : Render) (d1 d2 : jsstring) :
  m_pdfs w !! i = Some (PdfOpen pages sel cur) -> modal_open i w = true -> r1 <> r2 ->
  m_renders w !! r1 = Some rn1 -> m_renders w !! r2 = Some rn2 -> rn_pdf rn1 = i -> rn_pdf rn2 = i ->
  rn_pending rn1 = true -> rn_pending rn2 = true -> d2 <> [] ->
  let w' := pdf_upload_click i (render_done r2 d2 (render_done r1 d1 w)) in
  m_uploads w' = m_uploads w ++ [{| up_data := Some d2; up_date := m_now w; up_pending := true |}] /\
  m_pdfs w' !! i = Some (PdfOpen pages sel (Some d2)).
Proof.
  intros Hpdf Hm Hne Hr1 Hr2 <- Hi2 Hp1 Hp2 Hd. cbv zeta.
  destruct (render_done_open r1 rn1 d1 pages sel cur w Hr1 Hp1 Hpdf) as (Hq1 & Ha1 & Hu1 & Hn1 & Hs1).
  destruct (render_done_open r2 rn2 d2 pages sel (Some d1) (render_done r1 d1 w)) as (Hq2 & Ha2 & Hu2 & Hn2 & _).
  { by rewrite Hs1, list_lookup_insert_ne. }
  { done. }
  { by rewrite Hq1, Hi2, list_lookup_insert_eq by (eapply lookup_lt_Some; exact Hpdf). }
  set (w2 := render_done r2 d2 (render_done r1 d1 w)) in *.
  assert (Hw2 : m_pdfs w2 !! rn_pdf rn1 = Some (PdfOpen pages sel (Some d2))).
  { rewrite Hq2, Hi2, list_lookup_insert_eq; [done|]. rewrite Hq1, length_insert. by eapply lookup_lt_Some. }
  unfold pdf_upload_click. rewrite Hw2. unfold modal_open in *. rewrite Ha2, Ha1, Hm.
  destruct d2 as [|c d2]; [done|]. cbn. by rewrite Hu2, Hu1, Hn2, Hn1.
Qed.

End Claims.

(** ** Scenarios and witnesses *)

Definition doc0 : jsstring := js "https://wb.example/boards/index.html".

Definition png_drop : DataTransfer := {| dt_files := [(js "photo.PNG", js "data:image/png;base64,AAAA")];
                                         dt_url := []; dt_html := [] |}.

Definition pdf_drop : DataTransfer := {| dt_files := [(js "slides.pdf", js "%PDF-1.4")];
                                         dt_url := []; dt_html := [] |}.

Definition link_drop : DataTransfer :=
  {| dt_files := []; dt_url := js "https://img.example/a.png";
     dt_html := js "<img src=https://img.example/a.png>" |}.

Definition w_two_sets : MWorld := mrun doc0 [M_ReadyHandlers; M_ReadyHandlers] m_init.
Definition w_link : MWorld := mrun doc0 [M_ReadyHandlers; M_Drop (Some link_drop)] m_init.

Lemma drag_drop_read_only_witness :
  let w := mrun doc0 [M_ReadyHandlers; M_SetReadOnly true] m_init in
  mstep doc0 M_DragEnter w = w /\ mstep doc0 M_DragLeave w = w /\ mstep doc0 (M_Drop (Some png_drop)) w = w.
Proof. apply drag_drop_read_only. reflexivity. Defined.

Lemma drop_image_uploads_witness :
  let w1 := mstep doc0 (M_SetReadOnly true) (mstep doc0 (M_Drop (Some png_drop)) w_two_sets) in
  let w2 := mrun doc0 (map M_ReaderLoadEnd (seq (length (m_readers w_two_sets)) (length (m_counters w_two_sets)))) w1 in
  m_ro w2 = true /\
  m_uploads w2 = m_uploads w_two_sets ++
    repeat {| up_data := Some (js "data:image/png;base64,AAAA"); up_date := m_now w_two_sets; up_pending := true |}
      (length (m_counters w_two_sets)).
Proof. apply (drop_image_uploads doc0 w_two_sets png_drop (js "photo.PNG") _ []); vm_compute; reflexivity. Defined.

Lemma upload_callbacks_witness :
  let w := mrun doc0 [M_ReadyHandlers; M_Drop (Some png_drop); M_ReaderLoadEnd 0] m_init in
  m_placed (mstep doc0 (M_UploadSuccess 0) w) =
    m_placed w ++ [uploaded_image_url doc0 (m_crw w) 0] /\
  m_placed (mstep doc0 (M_UploadError 0 (js "{}")) w) = m_placed w /\
  m_alerts (mstep doc0 (M_UploadError 0 (js "{}")) w) = m_alerts w ++ [ANotice (msg_upload_failed (js "{}"))].
Proof.
  apply (upload_callbacks doc0 _ 0 {| up_data := Some (js "data:image/png;base64,AAAA"); up_date := 0;
                                       up_pending := true |}); vm_compute; reflexivity.
Defined.

Definition link_probe : Probe :=
  {| pr_url := js "https://img.example/a.png"; pr_deadline := 2000; pr_timer := true; pr_loading := true;
     pr_cont := PFirst (js "https://img.example/a.png") (js "https://img.example/a.png>"); pr_answers := [] |}.

Lemma probe_answers_within_timeout_witness :
  exists p', m_probes (mstep doc0 (M_Tick 2000) w_link) !! 0%nat = Some p' /\ pr_answers p' = pr_answers link_probe ++ [false].
Proof.
  apply (probe_answers_within_timeout doc0 w_link 0 link_probe 2000);
    [apply mrun_reachable, mreach_init|vm_compute; reflexivity|reflexivity|lia].
Defined.

Lemma probe_double_callback_witness :
  exists p', m_probes (mstep doc0 (M_ImgLoad 0) (mstep doc0 (M_Tick 2000) w_link)) !! 0%nat = Some p' /\
    pr_answers p' = pr_answers link_probe ++ [false; true].
Proof. apply (probe_double_callback doc0 w_link 0 link_probe 2000); [vm_compute; reflexivity|reflexivity|reflexivity|vm_compute; congruence]. Defined.

Lemma paste_uploads_last_item_witness :
  let w := mrun doc0 [M_PasteListener] m_init in
  let n := length (m_readers w) in
  let w0 := mstep doc0 (M_Paste (Some [(js "image/png", js "D1"); (js "image/png", js "D2")])) w in
  m_uploads (mrun doc0 [M_ReaderLoadEnd n; M_ReaderLoadEnd (S n)] w0) =
    m_uploads w ++ [{| up_data := None; up_date := m_now w; up_pending := true |};
                    {| up_data := Some (js "D2"); up_date := m_now w; up_pending := true |}] /\
  m_uploads (mrun doc0 [M_ReaderLoadEnd (S n); M_ReaderLoadEnd n] w0) =
    m_uploads w ++ [{| up_data := Some (js "D2"); up_date := m_now w; up_pending := true |};
                    {| up_data := Some (js "D2"); up_date := m_now w; up_pending := true |}].
Proof. apply paste_uploads_last_item; vm_compute; reflexivity. Defined.

Definition w_pdf_page3 : MWorld :=
  mrun doc0 [M_ReadyHandlers; M_Drop (Some pdf_drop); M_ReaderLoadEnd 0; M_PdfResolved 0 3; M_PageSelect 0 3] m_init.

Lemma pdf_picker_uploads_last_render_witness :
  let w' := pdf_upload_click 0 (render_done 0 (js "page1") (render_done 1 (js "page3") w_pdf_page3)) in
  m_uploads w' = m_uploads w_pdf_page3 ++ [{| up_data := Some (js "page1"); up_date := m_now w_pdf_page3; up_pending := true |}] /\
  m_pdfs w' !! 0%nat = Some (PdfOpen 3 3 (Some (js "page1"))).
Proof.
  apply (pdf_picker_uploads_last_render w_pdf_page3 0 3 3 1 0 None
           {| rn_pdf := 0; rn_page := 3; rn_pending := true |} {| rn_pdf := 0; rn_page := 1; rn_pending := true |});
    try (vm_compute; reflexivity); vm_compute; discriminate.
Defined.
