(* ===== verification/ProbeChain.v ===== *)
(** * ProbeChain: the callbacks of the image-URL probes are finite

    A drop from another page starts a probe of [isValidImageUrl] (lines
    416-432, 527-542) whose callback may start a second probe, and a probe
    can answer twice: once from its timer and once from its image (the
    double callback of [Media.probe_double_callback]).  This file shows
    the chain still ends: with [probe_budget] the pending completions of
    every probe weighted by what its callback may start (3 for a first
    probe, which may start a second probe of budget 2; 1 for a second
    probe, which starts nothing), the number of callbacks that have run
    plus the budget never grows under an event other than a drop.  So
    after any sequence of events without a new drop, at most
    [probe_budget w] more callbacks run: six for one drop, a bound that
    the trace [probe_chain_six_callbacks] reaches. *)

From stdpp Require Import base list.
From Stdlib Require Import ZArith Lia.
From S2P Require Import Prelude JsString MediaNames Media.
Open Scope Z_scope.

(** ** The measure *)

(** Completions a probe still waits for: its timer and its image. *)
Definition probe_pending (p : Probe) : nat := ((if pr_timer p then 1 else 0) + (if pr_loading p then 1 else 0))%nat.

(** What one callback of the probe may start, plus one. *)
Definition probe_weight (p : Probe) : nat := match pr_cont p with PFirst _ _ => 3 | PSecond _ => 1 end%nat.

Definition probe_answers (w : MWorld) : nat := sum_list_with (fun p => length (pr_answers p)) (m_probes w).

Definition probe_budget (w : MWorld) : nat := sum_list_with (fun p => probe_pending p * probe_weight p)%nat (m_probes w).

Definition probe_measure (w : MWorld) : nat :=
  sum_list_with (fun p => length (pr_answers p) + probe_pending p * probe_weight p)%nat (m_probes w).

(** The events that start no probe of their own. *)
Definition starts_no_probe (i : MInput) : bool := match i with M_Drop _ => false | _ => true end.

(** ** The measure never grows without a drop *)

Section Chain.

Context (documentURL : jsstring).

Lemma probe_measure_split w : probe_measure w = (probe_answers w + probe_budget w)%nat.
Proof. apply sum_list_with_plus. Qed.

Lemma probe_measure_eq w' w : m_probes w' = m_probes w -> probe_measure w' = probe_measure w.
Proof. unfold probe_measure. by intros ->. Qed.

(** A callback starts at most one probe, and only a first probe's does. *)
Lemma probe_callback_measure k b w :
  (probe_measure (probe_callback k b w) <=
   probe_measure w + match k with PFirst _ _ => 2 | PSecond _ => 0 end)%nat.
Proof.
  unfold probe_callback. destruct k; repeat case_match; unfold probe_measure; cbn;
    rewrite ?sum_list_with_app; cbn; lia.
Qed.

(** An answer that removes at least one pending completion. *)
Lemma answer_measure i p (t l b : bool) w :
  m_probes w !! i = Some p ->
  ((if t then 1 else 0) + (if l then 1 else 0) + 1 <= probe_pending p)%nat ->
  (probe_measure (answer i p t l b w) <= probe_measure w)%nat.
Proof.
  intros Hp Hd. unfold answer. eapply Nat.le_trans; [apply probe_callback_measure|].
  match goal with |- context [set_probes (<[i := ?p']> _) w] =>
    pose proof (sum_list_with_insert (fun p => length (pr_answers p) + probe_pending p * probe_weight p)%nat
                  (m_probes w) i p p' Hp) as Hs end.
  unfold probe_measure. cbn [m_probes set_probes]. unfold probe_pending, probe_weight in *. cbn in Hs.
  rewrite length_app in Hs. cbn in Hs. destruct (pr_cont p); destruct t, l; cbn in *; lia.
Qed.

Lemma img_onload_measure i w : (probe_measure (img_onload i w) <= probe_measure w)%nat.
Proof.
  unfold img_onload. case_match eqn:Hp; [|done]. case_match eqn:Hl; [|done].
  apply answer_measure; [done|]. unfold probe_pending. rewrite Hl. cbn. lia.
Qed.

Lemma img_onerror_measure i w : (probe_measure (img_onerror i w) <= probe_measure w)%nat.
Proof.
  unfold img_onerror. case_match eqn:Hp; [|done]. case_match eqn:Hl; [|done].
  apply answer_measure; [done|]. unfold probe_pending. rewrite Hl. cbn. lia.
Qed.

Lemma timer_fire_measure i w : (probe_measure (timer_fire i w) <= probe_measure w)%nat.
Proof.
  unfold timer_fire. case_match eqn:Hp; [|done]. case_match eqn:Ht; [|done].
  apply andb_prop in Ht as [Ht _]. apply answer_measure; [done|].
  unfold probe_pending. rewrite Ht. destruct (pr_loading _); cbn; lia.
Qed.

(** A fold whose steps never raise the measure. *)
Lemma fold_measure {B} (f : MWorld -> B -> MWorld) (l : list B) w :
  (forall x b, (probe_measure (f x b) <= probe_measure x)%nat) ->
  (probe_measure (fold_left f l w) <= probe_measure w)%nat.
Proof.
  intros Hf. apply (fold_left_inv (fun x => probe_measure x <= probe_measure w)%nat); [|done].
  intros x b _ Hx. etransitivity; [apply Hf|exact Hx].
Qed.

Lemma tick_measure ms w : (probe_measure (tick ms w) <= probe_measure w)%nat.
Proof.
  unfold tick. cbv zeta. etransitivity; [apply fold_measure; intros x j; apply timer_fire_measure|].
  by apply Nat.eq_le_incl, probe_measure_eq.
Qed.

Lemma fold_probes {B} (f : MWorld -> B -> MWorld) (l : list B) w :
  (forall x b, m_probes (f x b) = m_probes x) -> m_probes (fold_left f l w) = m_probes w.
Proof. intros Hf. apply (fold_left_inv (fun x => m_probes x = m_probes w)); [|done]. intros x b _ <-. apply Hf. Qed.

Lemma paste_probes clip w : m_probes (paste clip w) = m_probes w.
Proof.
  unfold paste. apply (iter_inv (fun x => m_probes x = m_probes w)); [|done].
  intros x <-. unfold paste_one. repeat case_match; try done; cbn; by rewrite fold_probes.
Qed.

Lemma mstep_measure i w :
  starts_no_probe i = true -> (probe_measure (mstep documentURL i w) <= probe_measure w)%nat.
Proof.
  intros Hi. destruct i; try done; cbn [mstep];
    first [ apply img_onload_measure | apply img_onerror_measure
          | apply tick_measure
          | apply Nat.eq_le_incl, probe_measure_eq ].
  - apply fold_probes. intros x k. unfold dragenter_one. by case_match.
  - apply fold_probes. intros x k. unfold dragleave_one. by repeat case_match.
  - unfold reader_loadend. repeat case_match; cbn; done.
  - unfold pdf_resolved. repeat case_match; cbn; done.
  - unfold pdf_rejected. repeat case_match; cbn; done.
  - unfold page_select. repeat case_match; cbn; done.
  - unfold render_done. repeat case_match; cbn; done.
  - unfold pdf_upload_click. repeat case_match; cbn; done.
  - unfold upload_success. repeat case_match; cbn; done.
  - unfold upload_error. repeat case_match; cbn; done.
  - apply paste_probes.
Qed.

Lemma mrun_measure ins w :
  forallb starts_no_probe ins = true -> (probe_measure (mrun documentURL ins w) <= probe_measure w)%nat.
Proof.
  revert w. induction ins as [|i ins IH]; intros w Hins; [done|].
  cbn in Hins. apply andb_prop in Hins as [Hi Hins]. cbn [mrun fold_left].
  etransitivity; [apply IH, Hins|]. by apply mstep_measure.
Qed.

End Chain.

Section Claims.

Context (documentURL : jsstring).

(** C39: The chain of probe callbacks terminates: after any sequence of
    events without a new drop, at most [probe_budget w] more probe
    callbacks have run, although a first probe may answer twice and each
    answer may start a second probe. *)
Theorem probe_callbacks_terminate (w : MWorld) (ins : list MInput) :
  forallb starts_no_probe ins = true ->
  (probe_answers (mrun documentURL ins w) <= probe_answers w + probe_budget w)%nat.
Proof.
  intros Hins. pose proof (mrun_measure documentURL ins w Hins) as Hm.
  rewrite !probe_measure_split in Hm. lia.
Qed.

End Claims.

(** ** Witnesses *)

(** The dropped link of [Media.w_link]: its unquoted [src] makes the
    extracted URL end with [>], which is no image file name, so both
    answers of the first probe start a second probe, and each second probe
    answers twice: six callbacks, the budget of one drop. *)
Example probe_chain_six_callbacks :
  let w := mrun doc0 [M_Tick 2000; M_ImgLoad 0; M_Tick 2000; M_ImgLoad 1; M_ImgLoad 2] w_link in
  probe_budget w_link = 6%nat /\ probe_answers w_link = 0%nat /\ probe_answers w = 6%nat /\ probe_budget w = 0%nat.
Proof. vm_compute. repeat split. Qed.

Lemma probe_callbacks_terminate_witness :
  let ins := [M_Tick 2000; M_ImgLoad 0; M_Tick 2000; M_ImgLoad 1; M_ImgLoad 2] in
  forallb starts_no_probe ins = true /\
  (probe_answers (mrun doc0 ins w_link) <= probe_answers w_link + probe_budget w_link)%nat.
Proof. split; [reflexivity|]. apply probe_callbacks_terminate. reflexivity. Defined.
