(* ===== verification/Toolbar.v ===== *)
(** * Toolbar: the toolbar wiring of the ready callback (lines 176-267, 439-450)

    The ready callback of [initWhiteboard] wires the toolbar each time it
    runs.  Most buttons are wired with [.off("click").click(h)], which
    first removes every click handler of the element, so they keep one
    handler however often the callback runs.  The mouse-out handler of
    the confirm button ([.mouseout(h)]), the thickness slider
    ([.on("input", h)]) and the colour picker ([new Picker]) are added
    without removing the previous ones.  The min/max button's handler
    closes over a [var btnsMini] of its own callback run, while the
    groups it hides and shows belong to the page.  [initWhiteboard] also
    adds two window listeners that only call [preventDefault] (lines
    469-484).

    The state [TB] holds the read-only flag, the registered handlers in
    order, the [btnsMini] cell of every callback run, the pickers, the
    DOM state the handlers change, the calls into the drawing surface and
    the open notices.  [tstep] runs one input: the toolbar part of a
    ready callback, a DOM event dispatched to the handlers of its target,
    a picker change, or a change of the read-only flag. *)

From stdpp Require Import base list sets.
From Stdlib Require Import ZArith Lia.
From S2P Require Import Prelude.
Open Scope Z_scope.

(** ** Data *)

(** The elements that carry handlers; [ToolBtns] is the class
    [.whiteboard-tool], wired as one selection. *)
Inductive Elem := TrashBtn | TrashConfirm | UndoBtn | RedoBtn | ToolBtns | AddImgBtn | MinMaxBtn
                | ThicknessSlider.

Inductive DomEvent := Click | MouseOut | InputEv.

#[export] Instance Elem_eq_dec : EqDecision Elem.
Proof. solve_decision. Defined.
#[export] Instance DomEvent_eq_dec : EqDecision DomEvent.
Proof. solve_decision. Defined.

(** The handler functions of lines 186-266; [H_MinMax k] closes over the
    [btnsMini] of the [k]-th callback run. *)
Inductive THandler :=
| H_TrashClick
| H_ConfirmMouseOut
| H_ConfirmClick
| H_Undo
| H_Redo
| H_Tool
| H_AddImg
| H_MinMax (k : nat)
| H_Thickness.

(** A DOM event and its data: the [tool] attribute and the HTML of the
    tool button clicked, the value of the slider. *)
Inductive TEvent :=
| EvClick (e : Elem)
| EvToolClick (tool html : jsstring)
| EvMouseOut (e : Elem)
| EvInput (value : jsstring).

(** Calls into the drawing surface and [shortcutFunctions]. *)
Inductive TbCall :=
| TClear
| TUndo
| TRedo
| TSetTool (tool : jsstring)
| TSetStrokeThickness (value : jsstring)
| TSetDrawColor (rgba : jsstring)
| TSetToolMouse
| TRefreshCursor.

(** The DOM state the handlers change. *)
Record Dom := {
  d_trash_visible : bool;    (** [#whiteboardTrashBtn]: visibility inherit, or hidden *)
  d_confirm_shown : bool;    (** [#whiteboardTrashBtnConfirm] shown *)
  d_active : option jsstring; (** the tool button with class [active] *)
  d_icon : option jsstring;  (** the HTML of [.activeToolIcon]; [None] when empty *)
  d_groups_hidden : bool;    (** the [.btn-group]s other than [.minGroup] hidden *)
  d_min_shown : bool;
  d_max_shown : bool;
  d_toolbar_hidden : bool;
}.

Record TB := {
  tb_ro : bool;
  tb_handlers : list (Elem * DomEvent * THandler);
  tb_mini : list bool;
  tb_pickers : nat;
  tb_prevent : nat;
  tb_dom : Dom;
  tb_calls : list TbCall;
  tb_alerts : list jsstring;
}.

Definition mk_tb ro hs mini pk pv dom calls al : TB :=
  {| tb_ro := ro; tb_handlers := hs; tb_mini := mini; tb_pickers := pk; tb_prevent := pv;
     tb_dom := dom; tb_calls := calls; tb_alerts := al |}.

Definition set_handlers hs t := mk_tb (tb_ro t) hs (tb_mini t) (tb_pickers t) (tb_prevent t) (tb_dom t) (tb_calls t) (tb_alerts t).
Definition set_mini mini t := mk_tb (tb_ro t) (tb_handlers t) mini (tb_pickers t) (tb_prevent t) (tb_dom t) (tb_calls t) (tb_alerts t).
Definition set_dom dom t := mk_tb (tb_ro t) (tb_handlers t) (tb_mini t) (tb_pickers t) (tb_prevent t) dom (tb_calls t) (tb_alerts t).
Definition tb_call c t := mk_tb (tb_ro t) (tb_handlers t) (tb_mini t) (tb_pickers t) (tb_prevent t) (tb_dom t) (tb_calls t ++ [c]) (tb_alerts t).
Definition tb_alert msg t := mk_tb (tb_ro t) (tb_handlers t) (tb_mini t) (tb_pickers t) (tb_prevent t) (tb_dom t) (tb_calls t) (tb_alerts t ++ [msg]).

Definition msg_drag_image : jsstring := js "Please drag the image into the browser.".

(** ** DOM updates *)

Definition trash_state (trash confirm : bool) (d : Dom) : Dom :=
  {| d_trash_visible := trash; d_confirm_shown := confirm; d_active := d_active d; d_icon := d_icon d;
     d_groups_hidden := d_groups_hidden d; d_min_shown := d_min_shown d; d_max_shown := d_max_shown d;
     d_toolbar_hidden := d_toolbar_hidden d |}.

Definition tool_state (active icon : option jsstring) (d : Dom) : Dom :=
  {| d_trash_visible := d_trash_visible d; d_confirm_shown := d_confirm_shown d; d_active := active;
     d_icon := icon; d_groups_hidden := d_groups_hidden d; d_min_shown := d_min_shown d;
     d_max_shown := d_max_shown d; d_toolbar_hidden := d_toolbar_hidden d |}.

Definition minmax_state (groups_hidden min_shown max_shown : bool) (d : Dom) : Dom :=
  {| d_trash_visible := d_trash_visible d; d_confirm_shown := d_confirm_shown d; d_active := d_active d;
     d_icon := d_icon d; d_groups_hidden := groups_hidden; d_min_shown := min_shown;
     d_max_shown := max_shown; d_toolbar_hidden := d_toolbar_hidden d |}.

Definition hide_toolbar (d : Dom) : Dom :=
  {| d_trash_visible := d_trash_visible d; d_confirm_shown := d_confirm_shown d; d_active := d_active d;
     d_icon := d_icon d; d_groups_hidden := d_groups_hidden d; d_min_shown := d_min_shown d;
     d_max_shown := d_max_shown d; d_toolbar_hidden := true |}.

Local Open Scope wb_scope.

(** ** The handlers (lines 185-266) *)

(** [activeTool == "mouse" || activeTool == "recSelect"] (line 225). *)
Definition icon_less (tool : jsstring) : bool :=
  bool_decide (tool = js "mouse") || bool_decide (tool = js "recSelect").

Definition run_th (h : THandler) (ev : TEvent) (t : TB) : TB :=
  match h with
  | H_TrashClick => set_dom (trash_state false true (tb_dom t)) t
  | H_ConfirmMouseOut => set_dom (trash_state true false (tb_dom t)) t
  | H_ConfirmClick => (set_dom (trash_state true false (tb_dom t)) >>> tb_call TClear) t
  | H_Undo => tb_call TUndo t
  | H_Redo => tb_call TRedo t
  | H_Tool =>
      match ev with
      | EvToolClick tool html =>
          ((fun t' => set_dom (tool_state (Some tool) (d_icon (tb_dom t')) (tb_dom t')) t')
           >>> tb_call (TSetTool tool)
           >>> (fun t' => set_dom (tool_state (d_active (tb_dom t'))
                                     (if icon_less tool then None else Some html) (tb_dom t')) t')) t
      | _ => t
      end
  | H_AddImg => if tb_ro t then t else tb_alert msg_drag_image t
  | H_MinMax k =>
      let mini := default false (tb_mini t !! k) in
      (set_dom (minmax_state (negb mini) mini (negb mini) (tb_dom t))
       >>> (fun t' => set_mini (<[k := negb mini]> (tb_mini t')) t')) t
  | H_Thickness =>
      match ev with
      | EvInput v => if tb_ro t then t else tb_call (TSetStrokeThickness v) t
      | _ => t
      end
  end.

(** The element and event type a DOM event is dispatched to. *)
Definition ev_target (ev : TEvent) : Elem * DomEvent :=
  match ev with
  | EvClick e => (e, Click)
  | EvToolClick _ _ => (ToolBtns, Click)
  | EvMouseOut e => (e, MouseOut)
  | EvInput _ => (ThicknessSlider, InputEv)
  end.

(** The events a user can cause: nothing inside a hidden [#toolbar], no
    click on the trash button while it is hidden, nothing on the confirm
    button while it is not shown, and a click on a tool button carries
    its attributes. *)
Definition can_fire (ev : TEvent) (t : TB) : bool :=
  negb (d_toolbar_hidden (tb_dom t)) &&
  match ev with
  | EvClick TrashBtn => d_trash_visible (tb_dom t)
  | EvClick TrashConfirm | EvMouseOut TrashConfirm => d_confirm_shown (tb_dom t)
  | EvClick ToolBtns => false
  | _ => true
  end.

(** jQuery's dispatch: the handlers of the target, in registration order. *)
Definition dispatch (ev : TEvent) (t : TB) : TB :=
  fold_left (fun t' (r : Elem * DomEvent * THandler) =>
               if decide (r.1 = ev_target ev) then run_th r.2 ev t' else t') (tb_handlers t) t.

(** ** Registration *)

(** [.off("click")]: every click handler of the element removed. *)
Definition off_click (e : Elem) (t : TB) : TB :=
  set_handlers (List.filter (fun r : Elem * DomEvent * THandler => negb (bool_decide (r.1 = (e, Click))))
                  (tb_handlers t)) t.

(** [.click(h)], [.mouseout(h)], [.on("input", h)]: one more handler. *)
Definition add_handler (e : Elem) (d : DomEvent) (h : THandler) (t : TB) : TB :=
  set_handlers (tb_handlers t ++ [(e, d, h)]) t.

Definition rebind_click (e : Elem) (h : THandler) : TB -> TB := off_click e >>> add_handler e Click h.

(** [new Picker({...})] (lines 439-445): one more picker. *)
Definition new_picker (t : TB) : TB :=
  mk_tb (tb_ro t) (tb_handlers t) (tb_mini t) (S (tb_pickers t)) (tb_prevent t) (tb_dom t) (tb_calls t) (tb_alerts t).

(** Lines 469-484: two window listeners calling [preventDefault]. *)
Definition add_prevent_listeners (t : TB) : TB :=
  mk_tb (tb_ro t) (tb_handlers t) (tb_mini t) (tb_pickers t) (2 + tb_prevent t)%nat (tb_dom t) (tb_calls t) (tb_alerts t).

Section Wiring.

(** [urlParams.get("hidetoolbar")]. *)
Variable hidetoolbar : option jsstring.

(** The toolbar part of the ready callback (lines 181-267, 439-450): a
    fresh [btnsMini = false] for this run's min/max handler. *)
Definition tb_ready (t : TB) : TB :=
  let k := length (tb_mini t) in
  (rebind_click TrashBtn H_TrashClick
   >>> add_handler TrashConfirm MouseOut H_ConfirmMouseOut
   >>> rebind_click TrashConfirm H_ConfirmClick
   >>> rebind_click UndoBtn H_Undo
   >>> rebind_click RedoBtn H_Redo
   >>> rebind_click ToolBtns H_Tool
   >>> rebind_click AddImgBtn H_AddImg
   >>> (fun t' => set_mini (tb_mini t' ++ [false]) t')
   >>> rebind_click MinMaxBtn (H_MinMax k)
   >>> (fun t' => if bool_decide (hidetoolbar = Some (js "true"))
                  then set_dom (hide_toolbar (tb_dom t')) t' else t')
   >>> add_handler ThicknessSlider InputEv H_Thickness
   >>> new_picker
   >>> tb_call TSetToolMouse
   >>> tb_call TRefreshCursor) t.

Inductive TInput :=
| T_Ready
| T_InitWhiteboard
| T_Event (ev : TEvent)
| T_Color (picker : nat) (rgba : jsstring)
| T_SetReadOnly (b : bool).

Definition tstep (i : TInput) (t : TB) : TB :=
  match i with
  | T_Ready => tb_ready t
  | T_InitWhiteboard => add_prevent_listeners t
  | T_Event ev => if can_fire ev t then dispatch ev t else t
  | T_Color k c => if bool_decide (k < tb_pickers t)%nat then tb_call (TSetDrawColor c) t else t
  | T_SetReadOnly b =>
      mk_tb b (tb_handlers t) (tb_mini t) (tb_pickers t) (tb_prevent t) (tb_dom t) (tb_calls t) (tb_alerts t)
  end.

Definition trun (ins : list TInput) (t : TB) : TB := fold_left (fun t i => tstep i t) ins t.

(** The page as loaded: nothing registered, the DOM as the HTML has it. *)
Definition tb_init (d : Dom) : TB := mk_tb false [] [] 0 0 d [] [].

Inductive treachable : TB -> Prop :=
| treach_init d : treachable (tb_init d)
| treach_step i t : treachable t -> treachable (tstep i t).

End Wiring.

(** ** The registered handlers *)

(** The handlers registered for a target, in order. *)
Definition tgt_list (hs : list (Elem * DomEvent * THandler)) (tgt : Elem * DomEvent) : list THandler :=
  map snd (List.filter (fun r : Elem * DomEvent * THandler => bool_decide (r.1 = tgt)) hs).

Definition targets_of (t : TB) (tgt : Elem * DomEvent) : list THandler := tgt_list (tb_handlers t) tgt.

(** The handler list after [.off("click").click(h)]. *)
Definition rebind_list (e : Elem) (h : THandler) (hs : list (Elem * DomEvent * THandler)) :=
  List.filter (fun r : Elem * DomEvent * THandler => negb (bool_decide (r.1 = (e, Click)))) hs ++ [(e, Click, h)].

(** The click handler the [(m+1)]-th ready callback binds to an element. *)
Definition click_handler (e : Elem) (m : nat) : option THandler :=
  match e with
  | TrashBtn => Some H_TrashClick
  | TrashConfirm => Some H_ConfirmClick
  | UndoBtn => Some H_Undo
  | RedoBtn => Some H_Redo
  | ToolBtns => Some H_Tool
  | AddImgBtn => Some H_AddImg
  | MinMaxBtn => Some (H_MinMax m)
  | ThicknessSlider => None
  end.

(** After [n] ready callbacks: one click handler per rebound element (the
    last one bound), but [n] mouse-out handlers on the confirm button and
    [n] input handlers on the slider. *)
Definition expected_handlers (n : nat) (tgt : Elem * DomEvent) : list THandler :=
  match tgt with
  | (e, Click) => match n with O => [] | S m => option_list (click_handler e m) end
  | (TrashConfirm, MouseOut) => repeat H_ConfirmMouseOut n
  | (ThicknessSlider, InputEv) => repeat H_Thickness n
  | _ => []
  end.

Definition tb_inv (t : TB) : Prop :=
  (forall tgt, targets_of t tgt = expected_handlers (length (tb_mini t)) tgt) /\
  tb_pickers t = length (tb_mini t).

(** ** Lemmas *)

Create Rewrite HintDb tb_rw.

Section HandlerLists.

Lemma tgt_list_app hs1 hs2 tgt : tgt_list (hs1 ++ hs2) tgt = tgt_list hs1 tgt ++ tgt_list hs2 tgt.
Proof. unfold tgt_list. by rewrite List.filter_app, map_app. Qed.

Lemma tgt_list_one e d h tgt : tgt_list [(e, d, h)] tgt = if bool_decide ((e, d) = tgt) then [h] else [].
Proof. unfold tgt_list. simpl. by case_bool_decide. Qed.

Lemma tgt_list_off e hs tgt :
  tgt_list (List.filter (fun r : Elem * DomEvent * THandler => negb (bool_decide (r.1 = (e, Click)))) hs) tgt =
  if bool_decide (tgt = (e, Click)) then [] else tgt_list hs tgt.
Proof.
  unfold tgt_list. case_bool_decide as Ht; induction hs as [|r hs IH]; simpl; try done;
    repeat (case_bool_decide; simpl); subst; try congruence; by rewrite IH.
Qed.

(** Dispatch runs the handlers of the target, in registration order. *)
Lemma dispatch_targets ev t :
  dispatch ev t = fold_left (fun t' h => run_th h ev t') (targets_of t (ev_target ev)) t.
Proof.
  unfold dispatch, targets_of, tgt_list. generalize t at 2 4. induction (tb_handlers t) as [|r hs IH]; intros t0; [done|].
  simpl. case_decide; case_bool_decide; try done; simpl; apply IH.
Qed.

End HandlerLists.

#[export] Hint Rewrite tgt_list_app tgt_list_one tgt_list_off : tb_rw.

Section Invariant.

Variable hidetoolbar : option jsstring.

Lemma tb_ready_handlers t :
  tb_handlers (tb_ready hidetoolbar t) =
  rebind_list MinMaxBtn (H_MinMax (length (tb_mini t)))
    (rebind_list AddImgBtn H_AddImg (rebind_list ToolBtns H_Tool (rebind_list RedoBtn H_Redo
      (rebind_list UndoBtn H_Undo (rebind_list TrashConfirm H_ConfirmClick
        (rebind_list TrashBtn H_TrashClick (tb_handlers t) ++ [(TrashConfirm, MouseOut, H_ConfirmMouseOut)]))))))
  ++ [(ThicknessSlider, InputEv, H_Thickness)].
Proof. unfold tb_ready. cbn. by case_bool_decide. Qed.

Lemma tb_ready_mini t : tb_mini (tb_ready hidetoolbar t) = tb_mini t ++ [false] /\
  tb_pickers (tb_ready hidetoolbar t) = S (tb_pickers t).
Proof. unfold tb_ready. cbn. by case_bool_decide. Qed.

Lemma tb_ready_inv t : tb_inv t -> tb_inv (tb_ready hidetoolbar t).
Proof.
  intros [Hh Hp]. destruct (tb_ready_mini t) as [Hm Hk]. split; [|rewrite Hk, Hm, length_app; simpl; lia].
  intros tgt. unfold targets_of. rewrite tb_ready_handlers, Hm, length_app, Nat.add_1_r.
  unfold rebind_list. autorewrite with tb_rw. change (tgt_list (tb_handlers t) tgt) with (targets_of t tgt).
  rewrite Hh. destruct tgt as [[] []]; cbv [bool_decide decide decide_rel prod_eq_dec Elem_eq_dec DomEvent_eq_dec];
    cbn; rewrite ?app_nil_r, <- ?repeat_S_r; try done; by destruct (length (tb_mini t)).
Qed.

End Invariant.

Section Reachable.

Variable hidetoolbar : option jsstring.

(** [tb_inv] only reads the handlers, the number of callback runs and
    the pickers. *)
Lemma tb_inv_frame t' t :
  tb_handlers t' = tb_handlers t -> length (tb_mini t') = length (tb_mini t) ->
  tb_pickers t' = tb_pickers t -> tb_inv t -> tb_inv t'.
Proof. unfold tb_inv, targets_of. by intros -> -> ->. Qed.

Definition tb_frame (t' t : TB) : Prop :=
  tb_handlers t' = tb_handlers t /\ length (tb_mini t') = length (tb_mini t) /\ tb_pickers t' = tb_pickers t.

Lemma run_th_frame h ev t : tb_frame (run_th h ev t) t.
Proof. unfold tb_frame. destruct h; cbn; repeat case_match; cbn; rewrite ?length_insert; done. Qed.

Lemma dispatch_frame ev t : tb_frame (dispatch ev t) t.
Proof.
  unfold dispatch. apply (fold_left_inv (fun x => tb_frame x t)); [|done].
  intros x r _ (H1 & H2 & H3). case_decide; [|done].
  destruct (run_th_frame r.2 ev x) as (G1 & G2 & G3). unfold tb_frame. by rewrite G1, G2, G3.
Qed.

Lemma tstep_inv i t : tb_inv t -> tb_inv (tstep hidetoolbar i t).
Proof.
  intros H. destruct i as [| |ev|k c|b]; cbn [tstep]; [by apply tb_ready_inv|exact H| |destruct (bool_decide _); exact H|exact H].
  case_match; [|done]. destruct (dispatch_frame ev t) as (H1 & H2 & H3). by apply (tb_inv_frame _ t).
Qed.

Lemma treachable_inv t : treachable hidetoolbar t -> tb_inv t.
Proof.
  induction 1 as [d|i t _ IH]; [|by apply tstep_inv].
  split; [|done]. intros [[] []]; done.
Qed.

(** A click on an element wired with [.off("click").click(h)] runs the
    handler of the last ready callback, once. *)
Lemma dispatch_click ev e t m h :
  tb_inv t -> length (tb_mini t) = S m -> ev_target ev = (e, Click) -> click_handler e m = Some h ->
  dispatch ev t = run_th h ev t.
Proof.
  intros [Hh _] Hn He Hc. rewrite dispatch_targets, He, Hh, Hn. by destruct e; simplify_eq/=.
Qed.

Lemma tb_ready_dom t :
  tb_dom (tb_ready hidetoolbar t) =
    if bool_decide (hidetoolbar = Some (js "true")) then hide_toolbar (tb_dom t) else tb_dom t.
Proof. unfold tb_ready. cbn. by case_bool_decide. Qed.

End Reachable.

Section Calls.

Variable hidetoolbar : option jsstring.

Lemma calls_suffix (c l l' : list TbCall) : c ++ l' = c ++ l -> l = l'.
Proof. intros H. symmetry. by eapply app_inv_head. Qed.

Lemma calls_suffix_nil (c l : list TbCall) : c = c ++ l -> l = [].
Proof. intros H. apply (calls_suffix c). by rewrite app_nil_r. Qed.

(** A handler only appends calls, and only the confirm button's click
    handler appends [TClear]. *)
Lemma run_th_calls h ev t :
  exists l, tb_calls (run_th h ev t) = tb_calls t ++ l /\ (TClear ∈ l -> h = H_ConfirmClick).
Proof.
  destruct h; cbn; repeat case_match; cbn;
    first [ exists []; split; [by rewrite app_nil_r|set_solver]
          | eexists; split; [reflexivity|set_solver] ].
Qed.

Lemma fold_run_th_calls hs ev t :
  exists l, tb_calls (fold_left (fun t' h => run_th h ev t') hs t) = tb_calls t ++ l /\
    (TClear ∈ l -> H_ConfirmClick ∈ hs).
Proof.
  revert t. induction hs as [|h hs IH]; intros t; [exists []; split; [by rewrite app_nil_r|set_solver]|].
  cbn [fold_left]. destruct (run_th_calls h ev t) as (l1 & Hl1 & Hc1).
  destruct (IH (run_th h ev t)) as (l2 & Hl2 & Hc2). exists (l1 ++ l2).
  rewrite Hl2, Hl1, app_assoc. split; [done|]. intros [Hin|Hin]%elem_of_app; [rewrite (Hc1 Hin)|]; set_solver.
Qed.

(** The only target whose handlers include the confirm click handler. *)
Lemma expected_confirm n tgt : H_ConfirmClick ∈ expected_handlers n tgt -> tgt = (TrashConfirm, Click).
Proof.
  destruct tgt as [[] []]; destruct n; cbn; intros Hin; try done; try set_solver;
    apply list_elem_of_In, (repeat_spec (S n)) in Hin; discriminate.
Qed.

Lemma tb_ready_calls t :
  tb_calls (tb_ready hidetoolbar t) = tb_calls t ++ [TSetToolMouse; TRefreshCursor].
Proof. unfold tb_ready. cbn. case_bool_decide; cbn; by rewrite <- app_assoc. Qed.

(** The thickness handlers registered by [n] ready callbacks, run on one
    input event. *)
Lemma thickness_run_ro n v t :
  tb_ro t = true -> fold_left (fun t' h => run_th h (EvInput v) t') (repeat H_Thickness n) t = t.
Proof. intros Hro. induction n as [|n IH]; [done|]. cbn [repeat fold_left run_th]. by rewrite Hro. Qed.

Lemma thickness_run_calls n v t :
  tb_ro t = false ->
  tb_calls (fold_left (fun t' h => run_th h (EvInput v) t') (repeat H_Thickness n) t) =
    tb_calls t ++ repeat (TSetStrokeThickness v) n.
Proof.
  revert t. induction n as [|n IH]; intros t Hro; [by rewrite app_nil_r|].
  cbn [repeat fold_left run_th]. rewrite Hro, IH by done. cbn. by rewrite <- app_assoc.
Qed.

End Calls.

Section Claims.

Variable hidetoolbar : option jsstring.

(** C40: In read-only mode the add-image button and the thickness slider
    do nothing (the guards of lines 235 and 264), however many ready
    callbacks ran, but undo, redo and the confirmed clear still reach the
    drawing surface: lines 185-216 do not read the read-only flag. *)
Theorem toolbar_read_only (t : TB) (v : jsstring) :
  treachable hidetoolbar t -> tb_ro t = true -> (1 <= length (tb_mini t))%nat ->
  d_toolbar_hidden (tb_dom t) = false ->
  tstep hidetoolbar (T_Event (EvClick AddImgBtn)) t = t /\
  tstep hidetoolbar (T_Event (EvInput v)) t = t /\
  tb_calls (tstep hidetoolbar (T_Event (EvClick UndoBtn)) t) = tb_calls t ++ [TUndo] /\
  tb_calls (tstep hidetoolbar (T_Event (EvClick RedoBtn)) t) = tb_calls t ++ [TRedo] /\
  (d_confirm_shown (tb_dom t) = true ->
   tb_calls (tstep hidetoolbar (T_Event (EvClick TrashConfirm)) t) = tb_calls t ++ [TClear]).
Proof.
  intros Hr Hro Hn Hv. pose proof (treachable_inv _ _ Hr) as Hi.
  destruct (length (tb_mini t)) as [|m] eqn:Hm; [lia|].
  cbn [tstep]. unfold can_fire. rewrite Hv. cbn [negb andb].
  split_and!; [| | | |intros Hc; rewrite Hc];
    try (erewrite dispatch_click by (done || reflexivity); cbn [run_th]; by rewrite ?Hro).
  rewrite dispatch_targets. destruct Hi as [Hh _]. rewrite Hh, Hm.
  cbn [ev_target expected_handlers]. by apply thickness_run_ro.
Qed.

(** C8: The min/max toggle of the last ready callback starts from
    [btnsMini = false] whatever the toolbar shows: when the groups are
    hidden and the ready callback runs again, the next click hides them
    again instead of showing them. *)
Theorem minmax_reset_after_ready (t : TB) :
  treachable hidetoolbar t -> hidetoolbar <> Some (js "true") ->
  d_toolbar_hidden (tb_dom t) = false -> d_groups_hidden (tb_dom t) = true ->
  d_groups_hidden (tb_dom (tstep hidetoolbar (T_Event (EvClick MinMaxBtn)) (tstep hidetoolbar T_Ready t))) = true.
Proof.
  intros Hr Hh Hv Hg. pose proof (treachable_inv _ _ (treach_step _ T_Ready t Hr)) as Hi.
  destruct (tb_ready_mini hidetoolbar t) as [Hm _].
  cbn [tstep]. unfold can_fire. rewrite tb_ready_dom, bool_decide_false, Hv by done. cbn [negb andb].
  erewrite (dispatch_click _ MinMaxBtn _ (length (tb_mini t)));
    [| exact Hi | rewrite Hm, length_app; simpl; lia | reflexivity | reflexivity].
  cbn [run_th]. rewrite Hm, lookup_app_r, Nat.sub_diag by lia. done.
Qed.

(** C13: The slider's input handler is added by every ready callback and
    never removed (line 264 binds with [.on("input")], not after an
    [.off]): after [n] ready callbacks, with read-only mode off, one
    input event on the slider calls [setStrokeThickness] [n] times. *)
Theorem thickness_handlers_accumulate (t : TB) (v : jsstring) :
  treachable hidetoolbar t -> tb_ro t = false -> d_toolbar_hidden (tb_dom t) = false ->
  tb_calls (tstep hidetoolbar (T_Event (EvInput v)) t) =
    tb_calls t ++ repeat (TSetStrokeThickness v) (length (tb_mini t)).
Proof.
  intros Hr Hro Hv. destruct (treachable_inv _ _ Hr) as [Hh _].
  cbn [tstep]. unfold can_fire. rewrite Hv. cbn [negb andb].
  rewrite dispatch_targets, Hh. cbn [ev_target expected_handlers]. by apply thickness_run_calls.
Qed.

(** C22: The clear is confirmed in two steps: from any reachable state,
    an input that makes the surface clear ([TClear] among the calls it
    appends) is a click on the confirm button while it is shown; a click
    on the trash button only shows it. *)
Theorem clear_needs_confirm (t : TB) (i : TInput) (l : list TbCall) :
  treachable hidetoolbar t -> tb_calls (tstep hidetoolbar i t) = tb_calls t ++ l -> TClear ∈ l ->
  i = T_Event (EvClick TrashConfirm) /\ d_confirm_shown (tb_dom t) = true.
Proof.
  intros Hr Hc Hin. destruct i as [| |ev|k c|b]; cbn [tstep] in Hc.
  - rewrite tb_ready_calls in Hc. apply calls_suffix in Hc. set_solver.
  - apply calls_suffix_nil in Hc. set_solver.
  - destruct (can_fire ev t) eqn:Hf; [|apply calls_suffix_nil in Hc; set_solver].
    rewrite dispatch_targets in Hc. destruct (fold_run_th_calls (targets_of t (ev_target ev)) ev t) as (l' & Hl & Himp).
    rewrite Hl in Hc. apply calls_suffix in Hc. subst l'. specialize (Himp Hin).
    destruct (treachable_inv _ _ Hr) as [Hh _]. rewrite Hh in Himp. apply expected_confirm in Himp.
    destruct ev as [e| | |]; cbn in Himp; simplify_eq. unfold can_fire in Hf.
    apply andb_prop in Hf as [_ Hf]. by split.
  - case_bool_decide; [|apply calls_suffix_nil in Hc; set_solver]. apply calls_suffix in Hc. set_solver.
  - apply calls_suffix_nil in Hc. set_solver.
Qed.

End Claims.

(** ** Scenarios and witnesses *)

Definition dom0 : Dom :=
  {| d_trash_visible := true; d_confirm_shown := false; d_active := None; d_icon := None;
     d_groups_hidden := false; d_min_shown := true; d_max_shown := false; d_toolbar_hidden := false |}.

(** With one ready callback the toggle alternates; after a second one it
    needs two clicks to show the groups again. *)
Example minmax_two_readies :
  let t1 := trun None [T_Ready; T_Event (EvClick MinMaxBtn)] (tb_init dom0) in
  d_groups_hidden (tb_dom t1) = true /\
  d_groups_hidden (tb_dom (tstep None (T_Event (EvClick MinMaxBtn)) t1)) = false /\
  d_groups_hidden (tb_dom (trun None [T_Ready; T_Event (EvClick MinMaxBtn)] t1)) = true /\
  d_groups_hidden (tb_dom (trun None [T_Ready; T_Event (EvClick MinMaxBtn); T_Event (EvClick MinMaxBtn)] t1)) = false.
Proof. vm_compute. repeat split. Qed.

Lemma toolbar_read_only_witness :
  let t := trun None [T_Ready; T_Ready; T_SetReadOnly true; T_Event (EvClick TrashBtn)] (tb_init dom0) in
  tstep None (T_Event (EvClick AddImgBtn)) t = t /\
  tstep None (T_Event (EvInput (js "5"))) t = t /\
  tb_calls (tstep None (T_Event (EvClick UndoBtn)) t) = tb_calls t ++ [TUndo] /\
  tb_calls (tstep None (T_Event (EvClick RedoBtn)) t) = tb_calls t ++ [TRedo] /\
  (d_confirm_shown (tb_dom t) = true ->
   tb_calls (tstep None (T_Event (EvClick TrashConfirm)) t) = tb_calls t ++ [TClear]).
Proof.
  apply toolbar_read_only; [|vm_compute; first [reflexivity | lia]..].
  repeat apply treach_step. apply treach_init.
Defined.

Lemma minmax_reset_after_ready_witness :
  let t := trun None [T_Ready; T_Event (EvClick MinMaxBtn)] (tb_init dom0) in
  d_groups_hidden (tb_dom (tstep None (T_Event (EvClick MinMaxBtn)) (tstep None T_Ready t))) = true.
Proof.
  apply minmax_reset_after_ready; [repeat apply treach_step; apply treach_init|done|reflexivity|reflexivity].
Defined.

Lemma thickness_handlers_accumulate_witness :
  let t := trun None [T_Ready; T_Ready; T_Ready] (tb_init dom0) in
  tb_calls (tstep None (T_Event (EvInput (js "5"))) t) =
    tb_calls t ++ [TSetStrokeThickness (js "5"); TSetStrokeThickness (js "5"); TSetStrokeThickness (js "5")].
Proof.
  apply (thickness_handlers_accumulate None); [repeat apply treach_step; apply treach_init|reflexivity|reflexivity].
Defined.

Lemma clear_needs_confirm_witness :
  let t := trun None [T_Ready; T_Event (EvClick TrashBtn)] (tb_init dom0) in
  tb_calls (tstep None (T_Event (EvClick TrashConfirm)) t) = tb_calls t ++ [TClear] /\
  T_Event (EvClick TrashConfirm) = T_Event (EvClick TrashConfirm) /\ d_confirm_shown (tb_dom t) = true.
Proof.
  intros t. assert (Hc : tb_calls (tstep None (T_Event (EvClick TrashConfirm)) t) = tb_calls t ++ [TClear])
    by (vm_compute; reflexivity).
  split; [exact Hc|]. apply (clear_needs_confirm None t _ [TClear]); [|exact Hc|by left].
  repeat apply treach_step. apply treach_init.
Defined.
