(* ===== verification/Services.v ===== *)
(** * Services: what the core needs from ConfigService, InfoService and ReadOnlyService

    [main.js] imports three singleton services from [./services/] (not
    under src/, so modelled from the spec, sections 3 and 4.3).  Each is
    given as a type class of operations, a class of laws that the core's
    theorems in [SyncEngine] are proved against, and an instance that
    discharges the laws:
    - [ConfigStore]: [ConfigService.initFromServer] replaces the whole
      configuration pushed by [whiteboardConfig]; readers see nothing
      before the first push;
    - [InfoStore]: [InfoService.updateInfoFromServer] replaces the relay's
      presence fields, and the two message counters are local to the
      client and moved only by [incrementNbMessagesSent] and
      [incrementNbMessagesReceived]; [displayInfo]/[hideInfo] toggle the
      panel;
    - [ReadOnlyStore]: the process-wide read-only flag of
      [ReadOnlyService], off at start. *)

From stdpp Require Import base list.
From Stdlib Require Import ZArith.
From S2P Require Import Prelude.

(** The [whiteboardConfig] payload (spec section 3, SessionConfig). *)
Record SessionConfig := {
  readOnlyOnWhiteboardLoad : bool;
  displayInfoOnWhiteboardLoad : bool;
  isReadOnly : bool;
  backgroundGridImage : jsstring;
  correspondingReadOnlyWid : jsstring;
}.

(** The [whiteboardInfoUpdate] payload: the relay-authoritative fields. *)
Record InfoPush := {
  nbConnectedUsers : nat;
  smallestScreenResolution : option (Z * Z);
}.

(** ** Interfaces *)

Class ConfigStore (C : Type) := {
  config_empty : C;
  initFromServer : SessionConfig -> C -> C;
  config_of : C -> option SessionConfig;
}.

Class ConfigStoreLaws (C : Type) `{ConfigStore C} := {
  config_of_empty : config_of config_empty = None;
  config_of_init p c : config_of (initFromServer p c) = Some p;
}.

Class InfoStore (I : Type) := {
  info_empty : I;
  updateInfoFromServer : InfoPush -> I -> I;
  incrementNbMessagesSent : I -> I;
  incrementNbMessagesReceived : I -> I;
  displayInfo : I -> I;
  hideInfo : I -> I;
  info_of : I -> option InfoPush;
  nbMessagesSent : I -> nat;
  nbMessagesReceived : I -> nat;
  infoDisplayed : I -> bool;
}.

Class InfoStoreLaws (I : Type) `{InfoStore I} := {
  sent_empty : nbMessagesSent info_empty = 0%nat;
  received_empty : nbMessagesReceived info_empty = 0%nat;
  sent_incrementSent i : nbMessagesSent (incrementNbMessagesSent i) = S (nbMessagesSent i);
  received_incrementSent i : nbMessagesReceived (incrementNbMessagesSent i) = nbMessagesReceived i;
  sent_incrementReceived i : nbMessagesSent (incrementNbMessagesReceived i) = nbMessagesSent i;
  received_incrementReceived i :
    nbMessagesReceived (incrementNbMessagesReceived i) = S (nbMessagesReceived i);
  info_of_update p i : info_of (updateInfoFromServer p i) = Some p;
  sent_update p i : nbMessagesSent (updateInfoFromServer p i) = nbMessagesSent i;
  received_update p i : nbMessagesReceived (updateInfoFromServer p i) = nbMessagesReceived i;
  displayed_display i : infoDisplayed (displayInfo i) = true;
  displayed_hide i : infoDisplayed (hideInfo i) = false;
  sent_display i : nbMessagesSent (displayInfo i) = nbMessagesSent i;
  sent_hide i : nbMessagesSent (hideInfo i) = nbMessagesSent i;
  received_display i : nbMessagesReceived (displayInfo i) = nbMessagesReceived i;
  received_hide i : nbMessagesReceived (hideInfo i) = nbMessagesReceived i;
}.

Class ReadOnlyStore (R : Type) := {
  readonly_init : R;
  activateReadOnlyMode : R -> R;
  deactivateReadOnlyMode : R -> R;
  readOnlyActive : R -> bool;
}.

Class ReadOnlyStoreLaws (R : Type) `{ReadOnlyStore R} := {
  readOnlyActive_init : readOnlyActive readonly_init = false;
  readOnlyActive_activate r : readOnlyActive (activateReadOnlyMode r) = true;
  readOnlyActive_deactivate r : readOnlyActive (deactivateReadOnlyMode r) = false;
}.

#[export] Hint Rewrite @config_of_init @sent_incrementSent @received_incrementSent
  @sent_incrementReceived @received_incrementReceived @info_of_update @sent_update
  @received_update @displayed_display @displayed_hide @sent_display @sent_hide
  @received_display @received_hide @readOnlyActive_activate @readOnlyActive_deactivate : wb_rw.

(** ** The services as the spec describes them *)

Record ConfigService := { cs_config : option SessionConfig }.

#[export] Instance configService : ConfigStore ConfigService := {|
  config_empty := {| cs_config := None |};
  initFromServer p _ := {| cs_config := Some p |};
  config_of := cs_config;
|}.

Record InfoService := {
  is_info : option InfoPush;
  is_sent : nat;
  is_received : nat;
  is_displayed : bool;
}.

#[export] Instance infoService : InfoStore InfoService := {|
  info_empty := {| is_info := None; is_sent := 0; is_received := 0; is_displayed := false |};
  updateInfoFromServer p i := {| is_info := Some p; is_sent := is_sent i;
                                 is_received := is_received i; is_displayed := is_displayed i |};
  incrementNbMessagesSent i := {| is_info := is_info i; is_sent := S (is_sent i);
                                  is_received := is_received i; is_displayed := is_displayed i |};
  incrementNbMessagesReceived i := {| is_info := is_info i; is_sent := is_sent i;
                                      is_received := S (is_received i); is_displayed := is_displayed i |};
  displayInfo i := {| is_info := is_info i; is_sent := is_sent i;
                      is_received := is_received i; is_displayed := true |};
  hideInfo i := {| is_info := is_info i; is_sent := is_sent i;
                   is_received := is_received i; is_displayed := false |};
  info_of := is_info;
  nbMessagesSent := is_sent;
  nbMessagesReceived := is_received;
  infoDisplayed := is_displayed;
|}.

Record ReadOnlyService := { readOnlyActive_ : bool }.

#[export] Instance readOnlyService : ReadOnlyStore ReadOnlyService := {|
  readonly_init := {| readOnlyActive_ := false |};
  activateReadOnlyMode _ := {| readOnlyActive_ := true |};
  deactivateReadOnlyMode _ := {| readOnlyActive_ := false |};
  readOnlyActive := readOnlyActive_;
|}.

(** ** The services satisfy the laws *)

#[export] Instance configService_laws : ConfigStoreLaws ConfigService.
Proof. by split. Qed.

#[export] Instance infoService_laws : InfoStoreLaws InfoService.
Proof. by split. Qed.

#[export] Instance readOnlyService_laws : ReadOnlyStoreLaws ReadOnlyService.
Proof. by split. Qed.
