(* ===== verification/SyncEngine.v ===== *)
(** * SyncEngine: the socket handlers, the send gate and the page's event loop

    [main] (lines 48-88), [initWhiteboard] (143-578) and the handlers they
    install, as functions on an explicit world: the three services (through
    the interfaces of [Services]), the socket's registered handlers and the
    [accessDenied] variable of each ["connect"] closure, the messages the
    socket emitted, the calls made into the drawing surface ([whiteboard],
    recorded in order), the open notices, and the pending asynchronous
    work of the page (ready callbacks, snapshot requests, listeners).
    [step] runs one input of the event loop to completion; [reachable] is
    its reflexive-transitive closure from the world after [main()].

    The socket dispatches a message to every handler registered under its
    name, in registration order, over the list as it was when the message
    arrived (as socket.io's emitter does); handlers are registered inside
    the ["connect"] handler, so every reconnection registers a new set
    beside the old ones.  The theorems give the send gate, the read-only
    policy of the ready callback and its invariant, the effect of each
    relay message on a world with [n] connections (one application per
    connection, in arrival order), the ready callback with and without a
    [btoa] exception, and the ["connect"] handler.  The concrete traces
    (live events before the snapshot, a reconnection) are in [Scenarios]. *)

From stdpp Require Import base list.
From Stdlib Require Import ZArith Lia.
From S2P Require Import Prelude JsString Services.
Open Scope Z_scope.

(** ** Data *)

(** The handlers [main] registers on the socket (lines 54-80);
    [OnWrongToken k] closes over the [accessDenied] variable of the
    [k]-th ["connect"] (line 74). *)
Inductive Handler :=
| OnConfig
| OnInfoUpdate
| OnDraw
| OnRefreshBadges
| OnWrongToken (cell : nat).

(** Relay to client messages. *)
Inductive ServerMsg :=
| MsgConfig (p : SessionConfig)
| MsgInfoUpdate (p : InfoPush)
| MsgDraw (content : jsobj)
| MsgRefreshBadges
| MsgWrongToken.

Definition msg_name (m : ServerMsg) : jsstring :=
  match m with
  | MsgConfig _ => js "whiteboardConfig"
  | MsgInfoUpdate _ => js "whiteboardInfoUpdate"
  | MsgDraw _ => js "drawToWhiteboard"
  | MsgRefreshBadges => js "refreshUserBadges"
  | MsgWrongToken => js "wrongAccessToken"
  end.

(** Calls into the drawing surface [whiteboard] (external). *)
Inductive WbCall :=
| WbLoadWhiteboard (wid username backgroundGridUrl : jsstring)
| WbHandleEventsAndData (content : jsobj) (isNewData : bool)
| WbLoadData (data : jsval)
| WbUpdateSmallestScreenResolution
| WbRefreshUserBadges
| WbSetToolMouse
| WbRefreshCursorAppearance.

(** The page's inputs: socket events, completions of asynchronous work,
    and user actions. *)
Inductive Input :=
| I_Connect
| I_Server (m : ServerMsg)
| I_Ready
| I_LoadDone (data : jsval)
| I_LoadFail
| I_LocalDraw (content : jsobj)
| I_Resize (wh : Z * Z)
| I_Dismiss.

(** The constants of the page: lines 29-37, and the build mode of line 452. *)
Record Env := {
  env_wid : jsstring;
  env_at : jsstring;
  env_username : jsstring;
  env_production : bool;
}.

(** Listeners added with [on]/[addEventListener] without removing the
    previous ones: window resize (line 170), the drop handlers of the
    container (lines 269-437), and window paste (line 545). *)
Record Listeners := { l_resize : nat; l_drop : nat; l_paste : nat }.

Definition notice_denied : jsstring := js "Access denied! Wrong accessToken!".

Section Engine.
Context {C I R : Type} `{ConfigStoreLaws C} `{InfoStoreLaws I} `{ReadOnlyStoreLaws R}.
Context (env : Env).

Record World := {
  w_cfg : C;
  w_info : I;
  w_ro : R;
  w_handlers : list (jsstring * Handler);
  w_cells : list bool;
  w_out : list (jsstring * jsval);
  w_wb : list WbCall;
  w_send : bool;
  w_alerts : list jsstring;
  w_ready : nat;
  w_loads : list jsobj;
  w_listeners : Listeners;
  w_window : Z * Z;
}.

(** ** World updates *)

Definition upd_cfg (f : C -> C) (w : World) : World :=
  {| w_cfg := f (w_cfg w); w_info := w_info w; w_ro := w_ro w; w_handlers := w_handlers w;
     w_cells := w_cells w; w_out := w_out w; w_wb := w_wb w; w_send := w_send w;
     w_alerts := w_alerts w; w_ready := w_ready w; w_loads := w_loads w;
     w_listeners := w_listeners w; w_window := w_window w |}.
Definition upd_info (f : I -> I) (w : World) : World :=
  {| w_cfg := w_cfg w; w_info := f (w_info w); w_ro := w_ro w; w_handlers := w_handlers w;
     w_cells := w_cells w; w_out := w_out w; w_wb := w_wb w; w_send := w_send w;
     w_alerts := w_alerts w; w_ready := w_ready w; w_loads := w_loads w;
     w_listeners := w_listeners w; w_window := w_window w |}.
Definition upd_ro (f : R -> R) (w : World) : World :=
  {| w_cfg := w_cfg w; w_info := w_info w; w_ro := f (w_ro w); w_handlers := w_handlers w;
     w_cells := w_cells w; w_out := w_out w; w_wb := w_wb w; w_send := w_send w;
     w_alerts := w_alerts w; w_ready := w_ready w; w_loads := w_loads w;
     w_listeners := w_listeners w; w_window := w_window w |}.
Definition upd_socket (hs : list (jsstring * Handler)) (cells : list bool) (w : World) : World :=
  {| w_cfg := w_cfg w; w_info := w_info w; w_ro := w_ro w; w_handlers := hs;
     w_cells := cells; w_out := w_out w; w_wb := w_wb w; w_send := w_send w;
     w_alerts := w_alerts w; w_ready := w_ready w; w_loads := w_loads w;
     w_listeners := w_listeners w; w_window := w_window w |}.
Definition upd_out (f : list (jsstring * jsval) -> list (jsstring * jsval)) (w : World) : World :=
  {| w_cfg := w_cfg w; w_info := w_info w; w_ro := w_ro w; w_handlers := w_handlers w;
     w_cells := w_cells w; w_out := f (w_out w); w_wb := w_wb w; w_send := w_send w;
     w_alerts := w_alerts w; w_ready := w_ready w; w_loads := w_loads w;
     w_listeners := w_listeners w; w_window := w_window w |}.
Definition upd_page (wb : list WbCall) (send : bool) (alerts : list jsstring) (ready : nat)
    (loads : list jsobj) (ls : Listeners) (win : Z * Z) (w : World) : World :=
  {| w_cfg := w_cfg w; w_info := w_info w; w_ro := w_ro w; w_handlers := w_handlers w;
     w_cells := w_cells w; w_out := w_out w; w_wb := wb; w_send := send;
     w_alerts := alerts; w_ready := ready; w_loads := loads;
     w_listeners := ls; w_window := win |}.

(** [socket.emit(name, payload)]. *)
Definition emit (name : jsstring) (payload : jsval) : World -> World :=
  upd_out (fun o => o ++ [(name, payload)]).

(** A call into the drawing surface. *)
Definition wb_call (c : WbCall) (w : World) : World :=
  upd_page (w_wb w ++ [c]) (w_send w) (w_alerts w) (w_ready w) (w_loads w)
    (w_listeners w) (w_window w) w.

(** [showBasicAlert(html)] (lines 90-141): one more open notice. *)
Definition showBasicAlert (msg : jsstring) (w : World) : World :=
  upd_page (w_wb w) (w_send w) (w_alerts w ++ [msg]) (w_ready w) (w_loads w)
    (w_listeners w) (w_window w) w.

(** [socket.on(name, handler)]. *)
Definition on (name : jsstring) (h : Handler) (w : World) : World :=
  upd_socket (w_handlers w ++ [(name, h)]) (w_cells w) w.

Definition cell (k : nat) (w : World) : bool := default false (w_cells w !! k).

Definition set_cell (k : nat) (w : World) : World :=
  upd_socket (w_handlers w) (<[k := true]> (w_cells w)) w.

(** The [{ w, h }] object of [$(window).width()] and [$(window).height()]. *)
Definition window_wh (w : World) : jsval :=
  JObj [(js "w", JNum (w_window w).1); (js "h", JNum (w_window w).2)].

(** The configuration as the code reads it: [undefined] (falsy) fields
    before the first push. *)
Definition cfg_field {A} (f : SessionConfig -> A) (d : A) (w : World) : A :=
  match config_of (w_cfg w) with Some p => f p | None => d end.

Definition upd_listeners (f : Listeners -> Listeners) (w : World) : World :=
  upd_page (w_wb w) (w_send w) (w_alerts w) (w_ready w) (w_loads w) (f (w_listeners w)) (w_window w) w.

Local Open Scope wb_scope.

(** ** The handlers of lines 54-80 *)

(** [initWhiteboard()] (line 143): line 144 schedules the ready callback,
    lines 469-484 add window listeners that only call [preventDefault],
    line 545 adds one more paste listener. *)
Definition initWhiteboard (w : World) : World :=
  upd_page (w_wb w) (w_send w) (w_alerts w) (S (w_ready w)) (w_loads w)
    {| l_resize := l_resize (w_listeners w); l_drop := l_drop (w_listeners w);
       l_paste := S (l_paste (w_listeners w)) |} (w_window w) w.

(** Lines 54-58. *)
Definition on_whiteboardConfig (p : SessionConfig) : World -> World :=
  upd_cfg (initFromServer p) >>> initWhiteboard.

(** Lines 60-63. *)
Definition on_whiteboardInfoUpdate (p : InfoPush) : World -> World :=
  upd_info (updateInfoFromServer p) >>> wb_call WbUpdateSmallestScreenResolution.

(** Lines 65-68. *)
Definition on_drawToWhiteboard (content : jsobj) : World -> World :=
  wb_call (WbHandleEventsAndData content true) >>> upd_info incrementNbMessagesReceived.

(** Lines 70-72. *)
Definition on_refreshUserBadges : World -> World := wb_call WbRefreshUserBadges.

(** Lines 75-80, for the [accessDenied] variable of the [k]-th connection. *)
Definition on_wrongAccessToken (k : nat) (w : World) : World :=
  if cell k w then w else (set_cell k >>> showBasicAlert notice_denied) w.

(** A handler applied to a message of its event name. *)
Definition run_handler (h : Handler) (m : ServerMsg) : World -> World :=
  match h, m with
  | OnConfig, MsgConfig p => on_whiteboardConfig p
  | OnInfoUpdate, MsgInfoUpdate p => on_whiteboardInfoUpdate p
  | OnDraw, MsgDraw c => on_drawToWhiteboard c
  | OnRefreshBadges, MsgRefreshBadges => on_refreshUserBadges
  | OnWrongToken k, MsgWrongToken => on_wrongAccessToken k
  | _, _ => id
  end.

(** The socket's dispatch: every handler registered under the message's
    name, in registration order, over the given list. *)
Definition deliver_list (hs : list (jsstring * Handler)) (m : ServerMsg) (w : World) : World :=
  fold_left (fun w' nh => if decide (nh.1 = msg_name m) then run_handler nh.2 m w' else w') hs w.

(** A message is dispatched over the handlers registered when it arrives. *)
Definition deliver (m : ServerMsg) (w : World) : World := deliver_list (w_handlers w) m w.

(** ** The ["connect"] handler (lines 51-87) *)

Definition new_cell (w : World) : World := upd_socket (w_handlers w) (w_cells w ++ [false]) w.

Definition joinWhiteboard_payload (w : World) : jsval :=
  JObj [(js "wid", JStr (env_wid env)); (js "at", JStr (env_at env));
        (js "windowWidthHeight", window_wh w)].

Definition connect_handler (w : World) : World :=
  let k := length (w_cells w) in
  (on (js "whiteboardConfig") OnConfig
   >>> on (js "whiteboardInfoUpdate") OnInfoUpdate
   >>> on (js "drawToWhiteboard") OnDraw
   >>> on (js "refreshUserBadges") OnRefreshBadges
   >>> new_cell
   >>> on (js "wrongAccessToken") (OnWrongToken k)
   >>> (fun w' => emit (js "joinWhiteboard") (joinWhiteboard_payload w') w')) w.

(** ** The ready callback of [initWhiteboard] (lines 144-466) *)

(** [sendFunction] (lines 151-160): the gate every local mutation of the
    drawing surface goes through. *)
Definition sendFunction (content : jsobj) (w : World) : World :=
  if readOnlyActive (w_ro w) then w
  else (emit (js "drawToWhiteboard") (JObj (js_set content (js "at") (JStr (env_at env))))
        >>> upd_info incrementNbMessagesSent) w.

Definition install_send (w : World) : World :=
  upd_page (w_wb w) true (w_alerts w) (w_ready w) (w_loads w) (w_listeners w) (w_window w) w.

(** Line 164: [$.get(subdir + "/api/loadwhiteboard", { wid, at })]. *)
Definition request_snapshot (w : World) : World :=
  upd_page (w_wb w) (w_send w) (w_alerts w) (w_ready w)
    (w_loads w ++ [[(js "wid", JStr (env_wid env)); (js "at", JStr (env_at env))]])
    (w_listeners w) (w_window w) w.

(** Line 170 and lines 269-437: one more resize handler and one more set of
    drop handlers. *)
Definition add_ready_listeners : World -> World :=
  upd_listeners (fun l => {| l_resize := S (l_resize l); l_drop := S (l_drop l); l_paste := l_paste l |}).

(** Lines 452-465. *)
Definition readOnlyPolicy (w : World) : World :=
  let ro_load := cfg_field readOnlyOnWhiteboardLoad false w in
  let info_load := cfg_field displayInfoOnWhiteboardLoad false w in
  let ro := cfg_field isReadOnly false w in
  ((if env_production env then
      upd_ro (if ro_load then activateReadOnlyMode else deactivateReadOnlyMode)
      >>> upd_info (if info_load then displayInfo else hideInfo)
    else upd_ro deactivateReadOnlyMode >>> upd_info displayInfo)
   >>> (if ro then upd_ro activateReadOnlyMode else id)) w.

(** Lines 144-466.  [btoa(myUsername)] is evaluated before
    [loadWhiteboard] is called: when it throws, nothing of the callback
    runs.  An absent [backgroundGridImage] is the string ["undefined"]. *)
Definition ready_callback (w : World) : World :=
  match btoa (env_username env) with
  | None => w
  | Some u =>
      (wb_call (WbLoadWhiteboard (env_wid env) u
                  (js "./images/" ++ cfg_field backgroundGridImage (js "undefined") w))
       >>> install_send
       >>> request_snapshot
       >>> add_ready_listeners
       >>> wb_call WbSetToolMouse
       >>> wb_call WbRefreshCursorAppearance
       >>> readOnlyPolicy) w
  end.

(** The resize handler (lines 170-175). *)
Definition resize_handler (w : World) : World :=
  emit (js "updateScreenResolution")
    (JObj [(js "at", JStr (env_at env)); (js "windowWidthHeight", window_wh w)]) w.

(** ** The event loop *)

Definition step (i : Input) (w : World) : World :=
  match i with
  | I_Connect => connect_handler w
  | I_Server m => deliver m w
  | I_Ready =>
      match w_ready w with
      | O => w
      | S n => ready_callback (upd_page (w_wb w) (w_send w) (w_alerts w) n (w_loads w)
                                 (w_listeners w) (w_window w) w)
      end
  | I_LoadDone d =>
      match w_loads w with
      | [] => w
      | _ :: ls => wb_call (WbLoadData d)
                     (upd_page (w_wb w) (w_send w) (w_alerts w) (w_ready w) ls
                        (w_listeners w) (w_window w) w)
      end
  | I_LoadFail =>
      match w_loads w with
      | [] => w
      | _ :: ls => upd_page (w_wb w) (w_send w) (w_alerts w) (w_ready w) ls
                     (w_listeners w) (w_window w) w
      end
  | I_LocalDraw c => if w_send w then sendFunction c w else w
  | I_Resize wh =>
      Nat.iter (l_resize (w_listeners w)) resize_handler
        (upd_page (w_wb w) (w_send w) (w_alerts w) (w_ready w) (w_loads w) (w_listeners w) wh w)
  | I_Dismiss =>
      match w_alerts w with
      | [] => w
      | _ :: al => upd_page (w_wb w) (w_send w) al (w_ready w) (w_loads w)
                     (w_listeners w) (w_window w) w
      end
  end.

Definition run (ins : list Input) (w : World) : World := fold_left (fun w i => step i w) ins w.

(** The world after [main()] (the socket is created, nothing registered). *)
Definition init_world (wh : Z * Z) : World :=
  {| w_cfg := config_empty; w_info := info_empty; w_ro := readonly_init; w_handlers := [];
     w_cells := []; w_out := []; w_wb := []; w_send := false; w_alerts := []; w_ready := 0;
     w_loads := []; w_listeners := {| l_resize := 0; l_drop := 0; l_paste := 0 |};
     w_window := wh |}.

Inductive reachable : World -> Prop :=
| reach_init wh : reachable (init_world wh)
| reach_step i w : reachable w -> reachable (step i w).

(** ** Invariants *)

(** The five handlers one ["connect"] registers, the last closing over the
    [k]-th [accessDenied]. *)
Definition block (k : nat) : list (jsstring * Handler) :=
  [(js "whiteboardConfig", OnConfig); (js "whiteboardInfoUpdate", OnInfoUpdate);
   (js "drawToWhiteboard", OnDraw); (js "refreshUserBadges", OnRefreshBadges);
   (js "wrongAccessToken", OnWrongToken k)].

(** The handler of [block k] that a message reaches. *)
Definition handler_for (m : ServerMsg) (k : nat) : Handler :=
  match m with
  | MsgConfig _ => OnConfig
  | MsgInfoUpdate _ => OnInfoUpdate
  | MsgDraw _ => OnDraw
  | MsgRefreshBadges => OnRefreshBadges
  | MsgWrongToken => OnWrongToken k
  end.

(** The socket holds one block per connection so far. *)
Definition handlers_inv (w : World) : Prop :=
  w_handlers w = flat_map block (seq 0 (length (w_cells w))).

(** The flag lines 452-465 compute from the configuration. *)
Definition ro_policy (w : World) : bool :=
  cfg_field isReadOnly false w || (env_production env && cfg_field readOnlyOnWhiteboardLoad false w).

(** Once a ready callback has run and none is pending, the flag is the
    policy of the current configuration; a surface with a [sendFunction]
    exists only if [btoa] accepted the user name. *)
Definition ro_inv (w : World) : Prop :=
  (w_send w = true -> is_Some (btoa (env_username env))) /\
  (w_send w = true -> w_ready w = 0%nat -> readOnlyActive (w_ro w) = ro_policy w).

(** The fields the read-only invariant reads. *)
Definition ro_frame (w' w : World) : Prop :=
  w_cfg w' = w_cfg w /\ w_ro w' = w_ro w /\ w_send w' = w_send w /\ w_ready w' = w_ready w.

(** ** Dispatch over the registered handlers *)

Section Dispatch.

Lemma deliver_list_app hs1 hs2 m w :
  deliver_list (hs1 ++ hs2) m w = deliver_list hs2 m (deliver_list hs1 m w).
Proof. apply fold_left_app. Qed.

Lemma deliver_block k m w : deliver_list (block k) m w = run_handler (handler_for m k) m w.
Proof. destruct m; unfold deliver_list, block; simpl; js_decide; reflexivity. Qed.

Lemma deliver_flat_map m ks w :
  deliver_list (flat_map block ks) m w = fold_left (fun w k => run_handler (handler_for m k) m w) ks w.
Proof.
  revert w. induction ks as [|k ks IH]; intros w; [done|].
  cbn [flat_map]. rewrite deliver_list_app, deliver_block. apply IH.
Qed.

(** On a world with [n] connections, a message runs its handler once per
    connection, oldest first. *)
Lemma deliver_inv m w :
  handlers_inv w ->
  deliver m w = fold_left (fun w k => run_handler (handler_for m k) m w) (seq 0 (length (w_cells w))) w.
Proof. unfold deliver, handlers_inv. intros ->. apply deliver_flat_map. Qed.

Lemma fold_left_const {A B} (f : A -> A) (ks : list B) (a : A) :
  fold_left (fun a _ => f a) ks a = Nat.iter (length ks) f a.
Proof.
  revert a. induction ks as [|k ks IH]; intros a; [done|].
  simpl. rewrite IH. symmetry. apply iter_succ_r.
Qed.

(** Messages other than [wrongAccessToken] reach the same handler in
    every block. *)
Lemma deliver_uniform m w :
  handlers_inv w -> m ≠ MsgWrongToken ->
  deliver m w = Nat.iter (length (w_cells w)) (run_handler (handler_for m 0) m) w.
Proof.
  intros Hinv Hm. rewrite deliver_inv by done.
  transitivity (fold_left (fun w _ => run_handler (handler_for m 0) m w) (seq 0 (length (w_cells w))) w).
  - set (ks := seq 0 _). clearbody ks. clear Hinv. revert w.
    induction ks as [|k ks IH]; intros w'; [done|]. simpl. rewrite <- IH.
    by destruct m.
  - by rewrite fold_left_const, length_seq.
Qed.

End Dispatch.

(** ** The handlers invariant *)

Section HandlersInvariant.

Lemma run_handler_socket h m w :
  w_handlers (run_handler h m w) = w_handlers w /\ length (w_cells (run_handler h m w)) = length (w_cells w).
Proof.
  destruct h, m; try (split; reflexivity).
  unfold run_handler, on_wrongAccessToken. case_match; [done|].
  cbn [w_handlers w_cells showBasicAlert set_cell upd_page upd_socket].
  by rewrite ?length_insert.
Qed.

Lemma deliver_list_socket hs m w :
  w_handlers (deliver_list hs m w) = w_handlers w /\ length (w_cells (deliver_list hs m w)) = length (w_cells w).
Proof.
  revert w. induction hs as [|[n h] hs IH]; intros w; [done|].
  unfold deliver_list in *. simpl. destruct (decide (n = msg_name m)).
  - destruct (IH (run_handler h m w)) as [-> ->]. apply run_handler_socket.
  - apply IH.
Qed.

Lemma connect_handler_socket w :
  w_handlers (connect_handler w) = w_handlers w ++ block (length (w_cells w)) /\
  w_cells (connect_handler w) = w_cells w ++ [false].
Proof. split; [|done]. simpl. by rewrite <- !app_assoc. Qed.

Lemma resize_socket n w :
  w_handlers (Nat.iter n resize_handler w) = w_handlers w /\ w_cells (Nat.iter n resize_handler w) = w_cells w.
Proof. apply (iter_inv (fun x => w_handlers x = w_handlers w /\ w_cells x = w_cells w)); done. Qed.

Lemma step_handlers_inv i w : handlers_inv w -> handlers_inv (step i w).
Proof.
  unfold handlers_inv. intros Hinv. destruct i; cbn [step].
  - destruct (connect_handler_socket w) as [-> ->].
    rewrite Hinv, length_app, seq_app, flat_map_app. cbn [flat_map seq Nat.add length]. by rewrite app_nil_r.
  - unfold deliver. destruct (deliver_list_socket (w_handlers w) m w) as [-> ->]. done.
  - destruct (w_ready w); [done|]. unfold ready_callback, readOnlyPolicy. by repeat case_match.
  - by destruct (w_loads w).
  - by destruct (w_loads w).
  - destruct (w_send w); [|done]. unfold sendFunction. by destruct (readOnlyActive (w_ro w)).
  - by destruct (resize_socket (l_resize (w_listeners w))
        (upd_page (w_wb w) (w_send w) (w_alerts w) (w_ready w) (w_loads w) (w_listeners w) wh w)) as [-> ->].
  - by destruct (w_alerts w).
Qed.

(** Every reachable world holds one block of handlers per connection. *)
Lemma run_reachable ins w : reachable w -> reachable (run ins w).
Proof.
  revert w. induction ins as [|i ins IH]; intros w Hr; [done|].
  apply IH. by apply reach_step.
Qed.

Lemma reachable_handlers_inv w : reachable w -> handlers_inv w.
Proof. induction 1; [done|]. by apply step_handlers_inv. Qed.

End HandlersInvariant.

(** ** Relay messages *)

Section Messages.

Lemma on_draw_wb c w : w_wb (on_drawToWhiteboard c w) = w_wb w ++ [WbHandleEventsAndData c true].
Proof. reflexivity. Qed.

Lemma on_draw_info c w : w_info (on_drawToWhiteboard c w) = incrementNbMessagesReceived (w_info w).
Proof. reflexivity. Qed.

Lemma iter_draw c n w :
  w_wb (Nat.iter n (on_drawToWhiteboard c) w) = w_wb w ++ repeat (WbHandleEventsAndData c true) n /\
  nbMessagesReceived (w_info (Nat.iter n (on_drawToWhiteboard c) w)) = (nbMessagesReceived (w_info w) + n)%nat.
Proof.
  induction n as [|n [IH1 IH2]]; [simpl; by rewrite app_nil_r, Nat.add_0_r|].
  rewrite Nat.iter_succ, on_draw_wb, on_draw_info, IH1, received_incrementReceived, IH2, repeat_S_r, app_assoc.
  split; [done|lia].
Qed.

Lemma deliver_draw_spec (w : World) (c : jsobj) :
  reachable w ->
  w_wb (deliver (MsgDraw c) w) = w_wb w ++ repeat (WbHandleEventsAndData c true) (length (w_cells w)) /\
  nbMessagesReceived (w_info (deliver (MsgDraw c) w)) =
    (nbMessagesReceived (w_info w) + length (w_cells w))%nat.
Proof.
  intros Hr. rewrite deliver_uniform by (apply reachable_handlers_inv in Hr; done || discriminate).
  apply iter_draw.
Qed.

(** C4: A [drawToWhiteboard] message is applied to the drawing surface,
    and counted as received, once per connection the page has made: once
    on a page that connected once, [n] times after [n - 1] reconnections,
    since every ["connect"] registers its handler again (lines 51, 65). *)
Theorem deliver_drawToWhiteboard (w : World) (c : jsobj) :
  reachable w ->
  w_wb (deliver (MsgDraw c) w) = w_wb w ++ repeat (WbHandleEventsAndData c true) (length (w_cells w)) /\
  nbMessagesReceived (w_info (deliver (MsgDraw c) w)) =
    (nbMessagesReceived (w_info w) + length (w_cells w))%nat.
Proof. apply deliver_draw_spec. Qed.

Lemma deliver_draw_cells w c : reachable w -> w_cells (deliver (MsgDraw c) w) = w_cells w.
Proof.
  intros Hr. rewrite deliver_uniform by (apply reachable_handlers_inv in Hr; done || discriminate).
  apply (iter_inv (fun x => w_cells x = w_cells w)); done.
Qed.

(** C5: Live events are applied in the order the relay forwards them,
    each as many times as there are connections, with nothing held back. *)
Theorem deliver_draws_in_order (w : World) (cs : list jsobj) :
  reachable w ->
  w_wb (fold_left (fun w c => deliver (MsgDraw c) w) cs w) =
    w_wb w ++ flat_map (fun c => repeat (WbHandleEventsAndData c true) (length (w_cells w))) cs.
Proof.
  revert w. induction cs as [|c cs IH]; intros w Hr; simpl; [by rewrite app_nil_r|].
  rewrite IH by (apply (reach_step (I_Server (MsgDraw c))); done).
  rewrite deliver_draw_cells by done. destruct (deliver_draw_spec w c Hr) as [-> _].
  by rewrite app_assoc.
Qed.

Lemma wrong_token_fold n w :
  (n <= length (w_cells w))%nat ->
  w_cells (fold_left (fun w k => on_wrongAccessToken k w) (seq 0 n) w) =
    repeat true n ++ drop n (w_cells w) /\
  w_alerts (fold_left (fun w k => on_wrongAccessToken k w) (seq 0 n) w) =
    w_alerts w ++ repeat notice_denied (length (List.filter negb (take n (w_cells w)))).
Proof.
  induction n as [|n IH]; intros Hn; [by rewrite app_nil_r|].
  destruct (lookup_lt_is_Some_2 (w_cells w) n) as [b Hb]; [lia|].
  rewrite seq_S, fold_left_app. simpl.
  destruct IH as [IHc IHa]; [lia|].
  set (w' := fold_left _ (seq 0 n) w) in *.
  rewrite (take_S_r _ _ b Hb), List.filter_app.
  rewrite (drop_S _ b n Hb) in IHc.
  assert (Hcell : cell n w' = b).
  { unfold cell. rewrite IHc, lookup_app_r, repeat_length, Nat.sub_diag by (rewrite repeat_length; lia).
    done. }
  unfold on_wrongAccessToken. rewrite Hcell, app_comm_cons, repeat_cons, <- app_assoc.
  destruct b; cbn iota.
  - rewrite IHc, IHa. cbn [List.filter negb]. by rewrite app_nil_r.
  - cbn [w_cells w_alerts showBasicAlert set_cell upd_page upd_socket].
    rewrite IHa, IHc. split.
    + rewrite insert_app_r_alt, repeat_length, Nat.sub_diag by (rewrite repeat_length; lia). done.
    + cbn [List.filter negb]. by rewrite length_app, Nat.add_1_r, repeat_S_r, app_assoc.
Qed.

(** C6: A [wrongAccessToken] message shows one denial notice for each
    connection whose [accessDenied] is still false, and sets them all:
    repeated messages add no notice on a page that connected once, but a
    page that reconnected shows one notice per connection. *)
Theorem deliver_wrongAccessToken (w : World) :
  reachable w ->
  w_alerts (deliver MsgWrongToken w) =
    w_alerts w ++ repeat notice_denied (length (List.filter negb (w_cells w))) /\
  w_cells (deliver MsgWrongToken w) = repeat true (length (w_cells w)).
Proof.
  intros Hr. rewrite deliver_inv by (by apply reachable_handlers_inv).
  destruct (wrong_token_fold (length (w_cells w)) w) as [Hc Ha]; [done|].
  cbn [handler_for run_handler]. rewrite Ha, Hc, drop_all, take_ge, app_nil_r by lia. done.
Qed.

End Messages.

(** ** The read-only policy and the send gate *)

Section ReadOnly.

Lemma ro_frame_refl w : ro_frame w w.
Proof. by repeat split. Qed.

Lemma ro_frame_trans w1 w2 w3 : ro_frame w3 w2 -> ro_frame w2 w1 -> ro_frame w3 w1.
Proof. intros (?&?&?&?) (?&?&?&?). repeat split; congruence. Qed.

Lemma ro_inv_frame w' w : ro_frame w' w -> ro_inv w -> ro_inv w'.
Proof.
  intros (Hc & Hr & Hs & Hy) [Hi1 Hi2]. unfold ro_inv, ro_policy, cfg_field.
  rewrite Hc, Hr, Hs, Hy. exact (conj Hi1 Hi2).
Qed.

Lemma run_handler_ro_frame h m w : (forall p, m ≠ MsgConfig p) -> ro_frame (run_handler h m w) w.
Proof.
  intros Hm. destruct h as [| | | |k], m; try (by exfalso; eapply Hm); try (by repeat split).
  unfold run_handler, on_wrongAccessToken. destruct (cell k w); by repeat split.
Qed.

Lemma deliver_list_ro_frame hs m w : (forall p, m ≠ MsgConfig p) -> ro_frame (deliver_list hs m w) w.
Proof.
  intros Hm. revert w. induction hs as [|[n h] hs IH]; intros w; [apply ro_frame_refl|].
  unfold deliver_list in *. simpl. destruct (decide (n = msg_name m)); [|apply IH].
  eapply ro_frame_trans; [apply IH|]. by apply run_handler_ro_frame.
Qed.

Lemma iter_config p n w :
  w_send (Nat.iter n (on_whiteboardConfig p) w) = w_send w /\
  w_ready (Nat.iter n (on_whiteboardConfig p) w) = (w_ready w + n)%nat.
Proof.
  induction n as [|n [IH1 IH2]]; [simpl; split; [done|lia]|].
  rewrite Nat.iter_succ. split; [exact IH1|]. cbn [w_ready on_whiteboardConfig initWhiteboard upd_page].
  change (w_ready (upd_cfg (initFromServer p) (Nat.iter n (on_whiteboardConfig p) w)))
    with (w_ready (Nat.iter n (on_whiteboardConfig p) w)). lia.
Qed.

(** The policy of lines 452-465 moves only the read-only flag and the
    info panel. *)
Lemma readOnlyPolicy_frame w :
  ro_frame (readOnlyPolicy w) (upd_ro (fun _ => w_ro (readOnlyPolicy w)) w).
Proof.
  unfold readOnlyPolicy.
  destruct (env_production env), (cfg_field readOnlyOnWhiteboardLoad false w),
    (cfg_field displayInfoOnWhiteboardLoad false w), (cfg_field isReadOnly false w); by repeat split.
Qed.

Lemma readOnlyPolicy_ro w : readOnlyActive (w_ro (readOnlyPolicy w)) = ro_policy w.
Proof.
  unfold readOnlyPolicy, ro_policy.
  destruct (env_production env), (cfg_field readOnlyOnWhiteboardLoad false w),
    (cfg_field displayInfoOnWhiteboardLoad false w), (cfg_field isReadOnly false w);
    cbn; by autorewrite with wb_rw.
Qed.

Lemma readOnlyPolicy_page w :
  w_loads (readOnlyPolicy w) = w_loads w /\ w_wb (readOnlyPolicy w) = w_wb w.
Proof.
  unfold readOnlyPolicy.
  destruct (env_production env), (cfg_field readOnlyOnWhiteboardLoad false w),
    (cfg_field displayInfoOnWhiteboardLoad false w), (cfg_field isReadOnly false w); by split.
Qed.

(** The ready callback when [btoa] accepts the user name. *)
Lemma ready_callback_spec w u :
  btoa (env_username env) = Some u ->
  w_send (ready_callback w) = true /\ w_ready (ready_callback w) = w_ready w /\
  w_cfg (ready_callback w) = w_cfg w /\ readOnlyActive (w_ro (ready_callback w)) = ro_policy w.
Proof.
  intros Hu. unfold ready_callback. rewrite Hu.
  match goal with |- context [readOnlyPolicy ?x] =>
    destruct (readOnlyPolicy_frame x) as (Hc & _ & Hs & Hy); pose proof (readOnlyPolicy_ro x) as Hro end.
  rewrite Hc, Hs, Hy, Hro. by repeat split.
Qed.

(** [sendFunction] touches neither the configuration, the read-only
    flag, nor the page's ready state. *)
Lemma sendFunction_ro_frame c w : ro_frame (sendFunction c w) w.
Proof. unfold sendFunction. repeat case_match; by repeat split. Qed.

Lemma step_ro_inv i w : handlers_inv w -> ro_inv w -> ro_inv (step i w).
Proof.
  intros Hh Hinv. destruct i; cbn [step].
  - eapply ro_inv_frame; [apply ro_frame_refl|done].
  - destruct m as [p|p|c| |];
      [|(eapply ro_inv_frame; [apply deliver_list_ro_frame; by intros ??|done])..].
    rewrite deliver_uniform by done. cbn [handler_for run_handler].
    destruct (iter_config p (length (w_cells w)) w) as [Hs Hy]. revert Hs Hy.
    destruct (length (w_cells w)) as [|n]; intros Hs Hy; [done|].
    destruct Hinv as [Hi1 _]. split; [by rewrite Hs|]. rewrite Hy. lia.
  - destruct (w_ready w) as [|n] eqn:Hy; [done|].
    destruct (btoa (env_username env)) as [u|] eqn:Hu.
    + destruct (ready_callback_spec
        (upd_page (w_wb w) (w_send w) (w_alerts w) n (w_loads w) (w_listeners w) (w_window w) w) u Hu)
        as (Hs & Hy' & Hc & Hro).
      split; [by rewrite Hu|]. intros _ _. rewrite Hro. unfold ro_policy, cfg_field. by rewrite Hc.
    + unfold ready_callback. rewrite Hu. destruct Hinv as [Hi1 _].
      split; intros Hs; simpl in Hs; destruct (Hi1 Hs) as [? Hb]; congruence.
  - destruct (w_loads w); eapply ro_inv_frame; try apply Hinv; by repeat split.
  - destruct (w_loads w); eapply ro_inv_frame; try apply Hinv; by repeat split.
  - destruct (w_send w); [|done]. eapply ro_inv_frame; [apply sendFunction_ro_frame|done].
  - eapply ro_inv_frame; [|exact Hinv].
    apply (iter_inv (fun x => ro_frame x w)); [|by repeat split].
    intros x Hx. eapply ro_frame_trans; [|exact Hx]. by repeat split.
  - destruct (w_alerts w); eapply ro_inv_frame; try apply Hinv; by repeat split.
Qed.

Lemma readonly_inv_reachable (w : World) :
  reachable w -> w_send w = true -> w_ready w = 0%nat -> readOnlyActive (w_ro w) = ro_policy w.
Proof.
  intros Hr. cut (handlers_inv w /\ ro_inv w); [intros [_ [_ Hi2]]; exact Hi2|].
  induction Hr as [wh|i w Hr [Hh Hi]].
  - split; [done|]. split; simpl; congruence.
  - split; [by apply step_handlers_inv|by apply step_ro_inv].
Qed.

(** C3: In every reachable world where a ready callback has installed the
    [sendFunction] and none is pending, the read-only flag is the policy
    of lines 452-465 applied to the current configuration:
    [isReadOnly], or [readOnlyOnWhiteboardLoad] in a production build. *)
Theorem readonly_invariant (w : World) :
  reachable w -> w_send w = true -> w_ready w = 0%nat -> readOnlyActive (w_ro w) = ro_policy w.
Proof. apply readonly_inv_reachable. Qed.

End ReadOnly.

(** ** The send gate *)

Section SendGate.

(** C1: In a reachable world whose configuration says [isReadOnly] and
    whose last ready callback has run, a local drawing action emits
    nothing and leaves [nbMessagesSent] unchanged. *)
Theorem local_draw_read_only (w : World) (c : jsobj) :
  reachable w -> w_ready w = 0%nat -> cfg_field isReadOnly false w = true ->
  w_out (step (I_LocalDraw c) w) = w_out w /\
  nbMessagesSent (w_info (step (I_LocalDraw c) w)) = nbMessagesSent (w_info w).
Proof.
  intros Hr Hy Hro. cbn [step]. destruct (w_send w) eqn:Hs; [|done].
  unfold sendFunction. rewrite (readonly_inv_reachable w Hr Hs Hy).
  unfold ro_policy. by rewrite Hro.
Qed.

(** C2: When read-only mode is off, [sendFunction] emits exactly one
    [drawToWhiteboard] whose payload is the content with its [at]
    property set to the access token (its other properties unchanged),
    and counts it as sent. *)
Theorem sendFunction_emits (w : World) (c : jsobj) :
  readOnlyActive (w_ro w) = false ->
  (exists o, w_out (sendFunction c w) = w_out w ++ [(js "drawToWhiteboard", JObj o)] /\
     js_get o (js "at") = Some (JStr (env_at env)) /\
     (forall k, k ≠ js "at" -> js_get o k = js_get c k)) /\
  nbMessagesSent (w_info (sendFunction c w)) = S (nbMessagesSent (w_info w)).
Proof.
  intros Hro. unfold sendFunction. rewrite Hro. split.
  - eexists. split; [reflexivity|]. split; [apply js_get_set_eq|].
    intros k Hk. by apply js_get_set_ne.
  - apply sent_incrementSent.
Qed.

End SendGate.

(** ** The ready callback and the connect handler *)

Section ReadyConnect.

(** C9: When a ready callback is pending and [btoa] accepts the user
    name, running it installs the [sendFunction], issues exactly one
    snapshot request keyed by the whiteboard id and the access token,
    loads the surface first, and leaves the read-only flag at the policy
    of the current configuration. *)
Theorem ready_step (w : World) (u : jsstring) :
  (0 < w_ready w)%nat -> btoa (env_username env) = Some u ->
  let w' := step I_Ready w in
  w_send w' = true /\ w_ready w' = pred (w_ready w) /\
  w_loads w' = w_loads w ++ [[(js "wid", JStr (env_wid env)); (js "at", JStr (env_at env))]] /\
  w_wb w' = w_wb w ++ [WbLoadWhiteboard (env_wid env) u
                          (js "./images/" ++ cfg_field backgroundGridImage (js "undefined") w);
                        WbSetToolMouse; WbRefreshCursorAppearance] /\
  readOnlyActive (w_ro w') = ro_policy w.
Proof.
  intros Hy Hu. cbn [step]. destruct (w_ready w) as [|n]; [lia|].
  set (w0 := upd_page _ _ _ n _ _ _ w).
  destruct (ready_callback_spec w0 u Hu) as (Hs & Hy' & _ & Hro).
  unfold ro_policy, cfg_field in Hro |- *. simpl in Hro.
  split_and!; [done|done| | |done]; unfold ready_callback; rewrite Hu;
    rewrite ?(proj1 (readOnlyPolicy_page _)), ?(proj2 (readOnlyPolicy_page _)); simpl;
    by rewrite <- ?app_assoc.
Qed.

(** C10: When [btoa] rejects the user name (a code unit above 0xFF), the
    ready callback throws before [loadWhiteboard]: no [sendFunction], no
    snapshot request, no read-only policy, whatever the configuration. *)
Theorem ready_step_btoa_throws (w : World) :
  (0 < w_ready w)%nat -> btoa (env_username env) = None ->
  let w' := step I_Ready w in
  w_send w' = w_send w /\ w_loads w' = w_loads w /\ w_wb w' = w_wb w /\ w_ro w' = w_ro w.
Proof.
  intros Hy Hu. cbn [step]. destruct (w_ready w) as [|n]; [lia|].
  unfold ready_callback. by rewrite Hu.
Qed.

(** C11: Every ["connect"] registers the five relay handlers, a fresh
    [accessDenied] set to false, and emits one [joinWhiteboard] carrying
    the whiteboard id, the access token and the window size. *)
Theorem connect_step (w : World) :
  let w' := step I_Connect w in
  w_handlers w' = w_handlers w ++ block (length (w_cells w)) /\
  w_cells w' = w_cells w ++ [false] /\
  w_out w' = w_out w ++ [(js "joinWhiteboard",
                          JObj [(js "wid", JStr (env_wid env)); (js "at", JStr (env_at env));
                                (js "windowWidthHeight", window_wh w)])].
Proof. cbn [step]. destruct (connect_handler_socket w) as [Hh Hc]. by split_and!. Qed.

End ReadyConnect.

End Engine.
