(* ===== verification/Scenarios.v ===== *)
(** * Scenarios: the sync engine on the services of the spec

    The theorems of [SyncEngine] hold for any services satisfying the laws
    of [Services]; this file runs the page on the instances of [Services]
    with the spec's example configuration: the scenario of section 8 of
    the spec (id ["My Board!!"], a read-only push, a stroke), a trace of
    the notices after a reconnection, and the witnesses of the engine's
    theorems.  The general departures from the spec are in [Protocol]. *)

From stdpp Require Import base list.
From Stdlib Require Import ZArith Lia.
From S2P Require Import Prelude JsString SessionIdentity Services SyncEngine.
Open Scope Z_scope.

Abbreviation W := (@World ConfigService InfoService ReadOnlyService).

(** The page of the spec's scenario: id ["My Board!!"] normalised by line 29. *)
Definition env0 : Env :=
  {| env_wid := default [] (normalize (js "My Board!!")); env_at := js "tok";
     env_username := js "bob"; env_production := true |}.

Definition cfg_of (ro : bool) : SessionConfig :=
  {| readOnlyOnWhiteboardLoad := false; displayInfoOnWhiteboardLoad := false; isReadOnly := ro;
     backgroundGridImage := js "bg.png"; correspondingReadOnlyWid := js "ro-id" |}.

Definition W0 : W := init_world (800, 600).

Definition stroke : jsobj := [(js "t", JStr (js "pen")); (js "d", JArr [JNum 1; JNum 2])].

Definition env_cjk : Env :=
  {| env_wid := js "MyBoard"; env_at := js "tok"; env_username := [0x5C71; 0x7530];
     env_production := true |}.

(** The spec's scenario (section 8): the id ["My Board!!"] resolves to
    ["MyBoard"], the relay pushes [isReadOnly], and once the ready
    callback has run a stroke emits nothing beyond [joinWhiteboard]. *)
Example scenario_read_only_board :
  env_wid env0 = js "MyBoard" /\
  w_out (run env0 [I_Connect; I_Server (MsgConfig (cfg_of true)); I_Ready; I_LocalDraw stroke] W0) =
    [(js "joinWhiteboard", JObj [(js "wid", JStr (js "MyBoard")); (js "at", JStr (js "tok"));
                                 (js "windowWidthHeight", JObj [(js "w", JNum 800); (js "h", JNum 600)])])].
Proof. split; vm_compute; reflexivity. Qed.

(** After one reconnection a single [wrongAccessToken] shows two
    denial notices, one per registered handler. *)
Example reconnect_two_notices :
  w_alerts (run env0 [I_Connect; I_Connect; I_Server MsgWrongToken; I_Server MsgWrongToken] W0) =
    [notice_denied; notice_denied].
Proof. vm_compute. reflexivity. Qed.

(** ** Witnesses *)

Lemma local_draw_read_only_witness :
  let w := run env0 [I_Connect; I_Server (MsgConfig (cfg_of true)); I_Ready] W0 in
  reachable env0 w /\ w_ready w = 0%nat /\ cfg_field isReadOnly false w = true /\
  (w_out (step env0 (I_LocalDraw stroke) w) = w_out w /\
   nbMessagesSent (w_info (step env0 (I_LocalDraw stroke) w)) = nbMessagesSent (w_info w)).
Proof.
  intros w. refine (conj _ (conj _ (conj _ _))); [apply run_reachable, reach_init|reflexivity|reflexivity|].
  apply local_draw_read_only; [apply run_reachable, reach_init|reflexivity|reflexivity].
Defined.

Lemma sendFunction_emits_witness :
  let w := run env0 [I_Connect; I_Server (MsgConfig (cfg_of false)); I_Ready] W0 in
  readOnlyActive (w_ro w) = false /\
  ((exists o, w_out (sendFunction env0 stroke w) = w_out w ++ [(js "drawToWhiteboard", JObj o)] /\
     js_get o (js "at") = Some (JStr (env_at env0)) /\
     (forall k, k ≠ js "at" -> js_get o k = js_get stroke k)) /\
   nbMessagesSent (w_info (sendFunction env0 stroke w)) = S (nbMessagesSent (w_info w))).
Proof. intros w. split; [reflexivity|]. apply sendFunction_emits. reflexivity. Defined.

Lemma deliver_drawToWhiteboard_witness :
  let w := run env0 [I_Connect; I_Connect] W0 in
  reachable env0 w /\
  (w_wb (deliver (MsgDraw stroke) w) = w_wb w ++ repeat (WbHandleEventsAndData stroke true) (length (w_cells w)) /\
   nbMessagesReceived (w_info (deliver (MsgDraw stroke) w)) =
     (nbMessagesReceived (w_info w) + length (w_cells w))%nat).
Proof.
  intros w. split; [apply run_reachable, reach_init|].
  apply (deliver_drawToWhiteboard env0). apply run_reachable, reach_init.
Defined.

Lemma deliver_draws_in_order_witness :
  let w := run env0 [I_Connect] W0 in
  reachable env0 w /\
  w_wb (fold_left (fun w c => deliver (MsgDraw c) w) [stroke; []] w) =
    w_wb w ++ flat_map (fun c => repeat (WbHandleEventsAndData c true) (length (w_cells w))) [stroke; []].
Proof.
  intros w. split; [apply run_reachable, reach_init|].
  apply (deliver_draws_in_order env0). apply run_reachable, reach_init.
Defined.

Lemma deliver_wrongAccessToken_witness :
  let w := run env0 [I_Connect; I_Connect] W0 in
  reachable env0 w /\
  (w_alerts (deliver MsgWrongToken w) =
     w_alerts w ++ repeat notice_denied (length (List.filter negb (w_cells w))) /\
   w_cells (deliver MsgWrongToken w) = repeat true (length (w_cells w))).
Proof.
  intros w. split; [apply run_reachable, reach_init|].
  apply (deliver_wrongAccessToken env0). apply run_reachable, reach_init.
Defined.

Lemma readonly_invariant_witness :
  let w := run env0 [I_Connect; I_Server (MsgConfig (cfg_of true)); I_Ready] W0 in
  reachable env0 w /\ w_send w = true /\ w_ready w = 0%nat /\
  readOnlyActive (w_ro w) = ro_policy env0 w.
Proof.
  intros w. refine (conj _ (conj _ (conj _ _))); [apply run_reachable, reach_init|reflexivity|reflexivity|].
  apply readonly_invariant; [apply run_reachable, reach_init|reflexivity|reflexivity].
Defined.

Lemma ready_step_witness :
  let w := run env0 [I_Connect; I_Server (MsgConfig (cfg_of false))] W0 in
  (0 < w_ready w)%nat /\ btoa (env_username env0) = Some (js "Ym9i") /\
  (let w' := step env0 I_Ready w in
   w_send w' = true /\ w_ready w' = pred (w_ready w) /\
   w_loads w' = w_loads w ++ [[(js "wid", JStr (env_wid env0)); (js "at", JStr (env_at env0))]] /\
   w_wb w' = w_wb w ++ [WbLoadWhiteboard (env_wid env0) (js "Ym9i")
                           (js "./images/" ++ cfg_field backgroundGridImage (js "undefined") w);
                         WbSetToolMouse; WbRefreshCursorAppearance] /\
   readOnlyActive (w_ro w') = ro_policy env0 w).
Proof.
  intros w. refine (conj _ (conj _ _)); [vm_compute; lia|reflexivity|].
  apply ready_step; [vm_compute; lia|reflexivity].
Defined.

Lemma ready_step_btoa_throws_witness :
  let w := run env_cjk [I_Connect; I_Server (MsgConfig (cfg_of true))] W0 in
  (0 < w_ready w)%nat /\ btoa (env_username env_cjk) = None /\
  (let w' := step env_cjk I_Ready w in
   w_send w' = w_send w /\ w_loads w' = w_loads w /\ w_wb w' = w_wb w /\ w_ro w' = w_ro w).
Proof.
  intros w. refine (conj _ (conj _ _)); [vm_compute; lia|reflexivity|].
  apply ready_step_btoa_throws; [vm_compute; lia|reflexivity].
Defined.

