(* ===== verification/Protocol.v ===== *)
(** * Protocol: the session state machine of the spec and the engine's refinement of it

    Section 4.4 of the spec describes the protocol core as a state machine
    [Connecting -> AwaitingConfig -> LoadingInitialState -> Live], with
    the terminal state [AccessDenied]: live events that arrive while the
    snapshot loads are queued and replayed after it, a [wrongAccessToken]
    denies the session in any state, and nothing happens after a denial.
    [SpecState] and [spec_step] are that machine, with the configuration,
    the queue, what the rendering collaborator was given (live events and
    the full state, in order) and the [messagesReceived] counter; a
    queued event is counted when it is replayed.

    [abs] reads the spec's state off a world of [SyncEngine]: the phase
    from the [accessDenied] cells, the configuration and the pending ready
    callbacks and snapshot requests; the live events and snapshots from
    the calls into the surface.  [env_ok] says what the environment of the spec's
    happy path delivers: one connection, the configuration once after
    the join, a snapshot response only to a request, no live event before
    the snapshot is applied or after a denial.  On such runs the engine
    refines the machine step for step ([step_refines]); outside them it
    does not: the section [Departures] and the claims C7 and C12 show,
    from every reachable world, that a live draw is applied before a
    pending snapshot and that a read-only push takes effect only when
    the ready callback runs. *)

From stdpp Require Import base list.
From Stdlib Require Import ZArith Lia.
From S2P Require Import Prelude JsString Services SyncEngine Scenarios.
Open Scope Z_scope.

(** ** The specification (spec section 4.4) *)

Inductive Phase := Connecting | AwaitingConfig | LoadingInitialState | Live | AccessDenied.

#[export] Instance Phase_eq_dec : EqDecision Phase.
Proof. solve_decision. Defined.

(** What the rendering collaborator is given, in order: live events and
    the full state. *)
Inductive SurfaceOp := OpDraw (c : jsobj) | OpSnapshot.

Record SpecState := {
  sp_phase : Phase;
  sp_config : option SessionConfig;
  sp_queue : list jsobj;          (** live events held back while loading *)
  sp_applied : list SurfaceOp;    (** what the rendering collaborator was given *)
  sp_received : nat;              (** [messagesReceived] *)
}.

(** What the machine reacts to; [S_Internal] is everything that does not
    move it (presence updates, badges, local strokes, resizes, notices,
    the engine's own callbacks). *)
Inductive SEvent :=
| S_Open
| S_Config (p : SessionConfig)
| S_Snapshot
| S_Draw (c : jsobj)
| S_WrongToken
| S_Internal.

Definition sp_make ph cfg q ap rc : SpecState :=
  {| sp_phase := ph; sp_config := cfg; sp_queue := q; sp_applied := ap; sp_received := rc |}.

Definition spec_step (e : SEvent) (s : SpecState) : SpecState :=
  let '{| sp_phase := ph; sp_config := cfg; sp_queue := q; sp_applied := ap; sp_received := rc |} := s in
  match ph, e with
  | AccessDenied, _ => s
  | _, S_WrongToken => sp_make AccessDenied cfg q ap rc
  | Connecting, S_Open => sp_make AwaitingConfig cfg q ap rc
  | AwaitingConfig, S_Config p => sp_make LoadingInitialState (Some p) q ap rc
  | LoadingInitialState, S_Draw c => sp_make LoadingInitialState cfg (q ++ [c]) ap rc
  | LoadingInitialState, S_Snapshot => sp_make Live cfg [] (ap ++ OpSnapshot :: map OpDraw q) (rc + length q)%nat
  | Live, S_Draw c => sp_make Live cfg q (ap ++ [OpDraw c]) (S rc)
  | _, _ => s
  end.

Definition spec_init : SpecState := sp_make Connecting None [] [] 0.

(** The requests a client sends the relay (spec sections 3 and 4.4): a
    known event name and an object payload carrying the access token
    (the mandatory [accessToken] field the core attaches). *)
Definition relay_names : list jsstring :=
  [js "joinWhiteboard"; js "drawToWhiteboard"; js "updateScreenResolution"].

Definition stamped (tok : jsstring) (v : jsval) : Prop :=
  exists o, v = JObj o /\ js_get o (js "at") = Some (JStr tok).

Definition request_ok (tok : jsstring) (m : jsstring * jsval) : Prop := m.1 ∈ relay_names /\ stamped tok m.2.

Definition spec_run (es : list SEvent) (s : SpecState) : SpecState := fold_left (fun s e => spec_step e s) es s.

(** ** The engine seen through the specification *)

(** The live events and snapshots among the calls into the surface. *)
Definition surface_of (cs : list WbCall) : list SurfaceOp :=
  flat_map (fun c => match c with
                     | WbHandleEventsAndData o _ => [OpDraw o]
                     | WbLoadData _ => [OpSnapshot]
                     | _ => []
                     end) cs.

(** The spec's input an engine input is. *)
Definition sev (i : Input) : SEvent :=
  match i with
  | I_Connect => S_Open
  | I_Server (MsgConfig p) => S_Config p
  | I_Server (MsgDraw c) => S_Draw c
  | I_Server MsgWrongToken => S_WrongToken
  | I_LoadDone _ => S_Snapshot
  | _ => S_Internal
  end.

Section Abstraction.
Context {C I R : Type} `{ConfigStoreLaws C} `{InfoStoreLaws I} `{ReadOnlyStoreLaws R}.

#[local] Abbreviation World := (@World C I R).

Definition phase_of (w : World) : Phase :=
  if existsb id (w_cells w) then AccessDenied
  else match w_cells w, config_of (w_cfg w) with
       | [], _ => Connecting
       | _, None => AwaitingConfig
       | _, Some _ =>
           if bool_decide (w_ready w = 0%nat) && bool_decide (w_loads w = []) then Live
           else LoadingInitialState
       end.

Definition abs (w : World) : SpecState :=
  sp_make (phase_of w) (config_of (w_cfg w)) [] (surface_of (w_wb w)) (nbMessagesReceived (w_info w)).

(** The environment of the spec's happy path. *)
Definition env_ok (w : World) (i : Input) : bool :=
  match i with
  | I_Connect => bool_decide (w_cells w = [])
  | I_Server (MsgConfig _) => bool_decide (phase_of w = AwaitingConfig)
  | I_Server (MsgDraw _) => bool_decide (phase_of w = Live)
  | I_Server MsgWrongToken => negb (bool_decide (w_cells w = []))
  | I_LoadDone _ => bool_decide (phase_of w = LoadingInitialState) && negb (bool_decide (w_loads w = []))
  | I_LoadFail => false
  | _ => true
  end.

(** What the engine keeps true on the happy path: one block of handlers
    per connection and at most one connection, no configuration before
    the join, nothing pending before the configuration, and at most one
    ready callback or snapshot request pending. *)
Definition good (w : World) : Prop :=
  handlers_inv w /\ (length (w_cells w) <= 1)%nat /\
  (w_cells w = [] -> config_of (w_cfg w) = None) /\
  (config_of (w_cfg w) = None -> w_ready w = 0%nat /\ w_loads w = []) /\
  (w_ready w + length (w_loads w) <= 1)%nat.

(** Two worlds that agree on everything [abs] and [good] read. *)
Definition aframe (w' w : World) : Prop :=
  w_handlers w' = w_handlers w /\ w_cells w' = w_cells w /\ w_cfg w' = w_cfg w /\
  w_ready w' = w_ready w /\ w_loads w' = w_loads w /\ surface_of (w_wb w') = surface_of (w_wb w) /\
  nbMessagesReceived (w_info w') = nbMessagesReceived (w_info w).

Variable env : Env.

(** A run all of whose inputs the environment of the happy path delivers. *)
Fixpoint ok_trace (w : World) (ins : list Input) : bool :=
  match ins with
  | [] => true
  | i :: ins' => env_ok w i && ok_trace (step env i w) ins'
  end.

End Abstraction.

(** Closes the conjuncts of [good] on a world whose fields are known. *)
Ltac good_close := split_and!; first [assumption | done | intros ?; discriminate | simpl in *; lia].

Section Refinement.
Context {C I R : Type} `{ConfigStoreLaws C} `{InfoStoreLaws I} `{ReadOnlyStoreLaws R}.

#[local] Abbreviation World := (@World C I R).

Variable env : Env.

Lemma surface_of_app l1 l2 : surface_of (l1 ++ l2) = surface_of l1 ++ surface_of l2.
Proof. apply flat_map_app. Qed.

Lemma spec_step_internal s : spec_step S_Internal s = s.
Proof. by destruct s as [[] ????]. Qed.

Lemma aframe_abs (w' w : World) : aframe w' w -> abs w' = abs w /\ (good w -> good w').
Proof.
  intros (Hh & Hc & Hf & Hr & Hl & Hs & Hn). unfold abs, phase_of, good, handlers_inv.
  by rewrite Hh, Hc, Hf, Hr, Hl, Hs, Hn.
Qed.

Lemma aframe_refl (w : World) : aframe w w.
Proof. by repeat split. Qed.

Lemma aframe_trans (w3 w2 w1 : World) : aframe w3 w2 -> aframe w2 w1 -> aframe w3 w1.
Proof. intros (?&?&?&?&?&?&?) (?&?&?&?&?&?&?). repeat split; congruence. Qed.

Lemma aframe_iter (f : World -> World) n w : (forall x, aframe (f x) x) -> aframe (Nat.iter n f w) w.
Proof.
  intros Hf. induction n as [|n IH]; [apply aframe_refl|].
  rewrite Nat.iter_succ. eapply aframe_trans; [apply Hf|exact IH].
Qed.

Lemma readOnlyPolicy_aframe w : aframe (readOnlyPolicy env w) w.
Proof.
  unfold aframe, readOnlyPolicy. cbv zeta. repeat case_match; cbn; rewrite ?received_display, ?received_hide;
    by repeat split.
Qed.

Lemma deliver_one m (w : World) :
  handlers_inv w -> length (w_cells w) = 1%nat -> deliver m w = run_handler (handler_for m 0) m w.
Proof. intros Hi Hl. by rewrite deliver_inv, Hl. Qed.

Lemma deliver_none m (w : World) : handlers_inv w -> w_cells w = [] -> deliver m w = w.
Proof. intros Hi Hc. by rewrite deliver_inv, Hc. Qed.

Lemma good_one (w : World) : good w -> w_cells w <> [] -> length (w_cells w) = 1%nat.
Proof. intros (_ & Hl & _) Hc. destruct (w_cells w) as [|? [|? ?]]; simpl in *; [done|done|lia]. Qed.

Lemma phase_awaiting (w : World) :
  phase_of w = AwaitingConfig ->
  existsb id (w_cells w) = false /\ w_cells w <> [] /\ config_of (w_cfg w) = None.
Proof.
  unfold phase_of. intros Hp. destruct (existsb id (w_cells w)); [done|].
  destruct (w_cells w); [done|]. destruct (config_of (w_cfg w)); [|done].
  by destruct (_ && _).
Qed.

Lemma phase_live (w : World) :
  phase_of w = Live ->
  existsb id (w_cells w) = false /\ w_cells w <> [] /\ is_Some (config_of (w_cfg w)) /\
  w_ready w = 0%nat /\ w_loads w = [].
Proof.
  unfold phase_of. intros Hp. destruct (existsb id (w_cells w)); [done|].
  destruct (w_cells w); [done|]. destruct (config_of (w_cfg w)); [|done].
  repeat case_bool_decide; done.
Qed.

Lemma phase_loading (w : World) :
  phase_of w = LoadingInitialState ->
  existsb id (w_cells w) = false /\ w_cells w <> [] /\ is_Some (config_of (w_cfg w)).
Proof.
  unfold phase_of. intros Hp. destruct (existsb id (w_cells w)); [done|].
  destruct (w_cells w); [done|]. by destruct (config_of (w_cfg w)).
Qed.

(** A world that is not denied and past the join, with a configuration,
    is live or loading according to what is pending. *)
Lemma phase_configured (w : World) p :
  existsb id (w_cells w) = false -> w_cells w <> [] -> config_of (w_cfg w) = Some p ->
  phase_of w = if bool_decide (w_ready w = 0%nat) && bool_decide (w_loads w = []) then Live
               else LoadingInitialState.
Proof. unfold phase_of. intros He Hc Hf. rewrite He, Hf. by destruct (w_cells w). Qed.

(** The ["connect"] of a page that has not connected yet. *)
Lemma refine_connect (w : World) :
  good w -> w_cells w = [] ->
  abs (step env I_Connect w) = spec_step S_Open (abs w) /\ good (step env I_Connect w).
Proof.
  intros Hg Hc. pose proof Hg as (Hi & _ & Hcf & Hnr & _). specialize (Hcf Hc).
  destruct (Hnr Hcf) as [Hr Hld].
  assert (Hi' : handlers_inv (step env I_Connect w)) by (by apply step_handlers_inv).
  unfold abs, phase_of, good in *. cbn [step connect_handler] in *. cbn in *. rewrite Hc, Hcf, Hr, Hld in *.
  cbn. split; [done|]. split_and!; try done; lia.
Qed.

(** The configuration, pushed once after the join. *)
Lemma refine_config (w : World) p :
  good w -> phase_of w = AwaitingConfig ->
  abs (step env (I_Server (MsgConfig p)) w) = spec_step (S_Config p) (abs w) /\
  good (step env (I_Server (MsgConfig p)) w).
Proof.
  intros Hg Hp. destruct (phase_awaiting w Hp) as (He & Hc & Hf).
  pose proof Hg as (Hi & Hl & _ & Hnr & _). destruct (Hnr Hf) as [Hr Hld].
  assert (Hi' : handlers_inv (step env (I_Server (MsgConfig p)) w)) by (by apply step_handlers_inv).
  pose proof (good_one w Hg Hc) as Hone.
  cbn [step] in *. rewrite deliver_one in * by done. unfold abs. rewrite Hp.
  unfold phase_of, good in *. cbn in *. rewrite He, config_of_init, Hr, Hld in *.
  destruct (w_cells w); [done|]. cbn. split; [done|]. split_and!; try done; lia.
Qed.

Lemma phase_denied (w : World) : phase_of w = AccessDenied <-> existsb id (w_cells w) = true.
Proof.
  unfold phase_of. destruct (existsb id (w_cells w)); [done|]. split; [|done].
  destruct (w_cells w); [done|]. destruct (config_of (w_cfg w)); [|done]. by destruct (_ && _).
Qed.

(** A live event on a live page. *)
Lemma refine_draw (w : World) c :
  good w -> phase_of w = Live ->
  abs (step env (I_Server (MsgDraw c)) w) = spec_step (S_Draw c) (abs w) /\
  good (step env (I_Server (MsgDraw c)) w).
Proof.
  intros Hg Hp. destruct (phase_live w Hp) as (He & Hc & [q Hf] & Hr & Hld).
  pose proof (good_one w Hg Hc) as Hone. destruct Hg as (Hi & Hg).
  cbn [step]. rewrite deliver_one by done. unfold abs. rewrite Hp.
  unfold phase_of, good, handlers_inv in *. cbn in *.
  rewrite He, Hf, Hr, Hld, received_incrementReceived, surface_of_app.
  destruct (w_cells w); [done|]. rewrite !bool_decide_true by done.
  split; [done|]. repeat split; first [done | simpl in *; lia].
Qed.

(** [wrongAccessToken] after the join. *)
Lemma refine_wrong (w : World) :
  good w -> w_cells w <> [] ->
  abs (step env (I_Server MsgWrongToken) w) = spec_step S_WrongToken (abs w) /\
  good (step env (I_Server MsgWrongToken) w).
Proof.
  intros Hg Hc. pose proof (good_one w Hg Hc) as Hone. pose proof Hg as (Hi & _).
  cbn [step]. rewrite deliver_one by done. cbn [handler_for run_handler].
  unfold on_wrongAccessToken, cell. destruct (w_cells w) as [|b [|? ?]] eqn:Hcs; try done. cbn [lookup list_lookup default id].
  destruct b.
  - cbn iota. unfold abs. rewrite (proj2 (phase_denied w)) by (by rewrite Hcs). by split.
  - unfold abs at 2. destruct (phase_of w) eqn:Hph;
      [| | | |by apply phase_denied in Hph; rewrite Hcs in Hph].
    all: unfold abs, phase_of, good, handlers_inv in *; cbn in *; rewrite Hcs in *; cbn in *;
      split; [reflexivity|]; destruct Hg as (? & _ & _ & ? & ?);
      split_and!; first [assumption | done | intros ?; discriminate].
Qed.

(** The ready callback: the surface is loaded and the snapshot requested
    (when [btoa] accepts the user name, as on the happy path). *)
Lemma refine_ready (w : World) :
  is_Some (btoa (env_username env)) -> good w ->
  abs (step env I_Ready w) = spec_step S_Internal (abs w) /\ good (step env I_Ready w).
Proof.
  intros [u Hu] Hg. rewrite spec_step_internal. cbn [step].
  destruct (w_ready w) as [|n] eqn:Hr; [done|].
  pose proof Hg as (Hi & Hl & Hcf & Hnr & Hs).
  assert (n = 0%nat /\ w_loads w = []) as [-> Hld]
    by (rewrite Hr in Hs; destruct (w_loads w); simpl in Hs; [split; [lia|done]|lia]).
  destruct (config_of (w_cfg w)) as [p|] eqn:Hf; [|destruct (Hnr eq_refl); congruence].
  assert (Hc : w_cells w <> []) by (intros Hc; specialize (Hcf Hc); congruence).
  unfold ready_callback. rewrite Hu.
  match goal with |- context [readOnlyPolicy env ?x] =>
    destruct (aframe_abs _ _ (readOnlyPolicy_aframe x)) as [Ha Hgood] end.
  rewrite Ha. split; [|apply Hgood].
  - unfold abs, phase_of. cbn. rewrite Hf, Hr, Hld, !surface_of_app. cbn [surface_of flat_map app].
    rewrite !app_nil_r.
    destruct (existsb id (w_cells w)); [done|]. destruct (w_cells w); [done|].
    repeat case_bool_decide; done.
  - unfold good, handlers_inv in *. cbn. rewrite Hf, Hld. good_close.
Qed.

(** The snapshot response, to the one request pending. *)
Lemma refine_load (w : World) d :
  good w -> phase_of w = LoadingInitialState -> w_loads w <> [] ->
  abs (step env (I_LoadDone d) w) = spec_step S_Snapshot (abs w) /\ good (step env (I_LoadDone d) w).
Proof.
  intros Hg Hp Hne. destruct (phase_loading w Hp) as (He & Hc & [p Hf]).
  pose proof Hg as (Hi & Hl & Hcf & Hnr & Hs).
  destruct (w_loads w) as [|r [|? ?]] eqn:Hld; [done| |simpl in Hs; lia].
  assert (Hr : w_ready w = 0%nat) by (simpl in Hs; lia).
  cbn [step]. rewrite Hld. unfold abs. rewrite Hp. unfold phase_of, good, handlers_inv in *. cbn.
  rewrite He, Hf, Hr, surface_of_app, Nat.add_0_r. destruct (w_cells w); [done|].
  rewrite !bool_decide_true by done. split; [done|]. good_close.
Qed.

(** Presence updates, badges, local strokes, resizes and dismissed
    notices leave the spec's state alone. *)
Lemma refine_frame (w : World) i :
  good w ->
  match i with
  | I_Server (MsgInfoUpdate _) | I_Server MsgRefreshBadges | I_LocalDraw _ | I_Resize _ | I_Dismiss => True
  | _ => False
  end ->
  aframe (step env i w) w.
Proof.
  intros Hg Hin. pose proof Hg as (Hi & _).
  destruct i as [|[p|p|c| |]| |d| |c|wh|]; try done; cbn [step].
  - destruct (w_cells w) eqn:Hc; [rewrite deliver_none by done; apply aframe_refl|].
    rewrite deliver_one by first [done | apply good_one; [done|by rewrite Hc]].
    unfold aframe. cbn. rewrite received_update, surface_of_app, app_nil_r. by split_and!.
  - destruct (w_cells w) eqn:Hc; [rewrite deliver_none by done; apply aframe_refl|].
    rewrite deliver_one by first [done | apply good_one; [done|by rewrite Hc]].
    unfold aframe. cbn. rewrite surface_of_app, app_nil_r. by split_and!.
  - destruct (w_send w); [|apply aframe_refl]. unfold sendFunction.
    destruct (readOnlyActive (w_ro w)); [apply aframe_refl|].
    unfold aframe. cbn. rewrite received_incrementSent. by split_and!.
  - eapply aframe_trans; [apply aframe_iter; intros x; by unfold aframe; cbn; split_and!|].
    unfold aframe. cbn. by split_and!.
  - destruct (w_alerts w); [apply aframe_refl|]. unfold aframe. cbn. by split_and!.
Qed.

Lemma refine_internal (w : World) i :
  good w ->
  match i with
  | I_Server (MsgInfoUpdate _) | I_Server MsgRefreshBadges | I_LocalDraw _ | I_Resize _ | I_Dismiss => True
  | _ => False
  end ->
  abs (step env i w) = abs w /\ good (step env i w).
Proof. intros Hg Hin. destruct (aframe_abs _ _ (refine_frame w i Hg Hin)) as [Ha Hg']. split; [done|by apply Hg']. Qed.

(** One step of the happy path is one step of the specification. *)
Lemma step_refines (w : World) i :
  is_Some (btoa (env_username env)) -> good w -> env_ok w i = true ->
  abs (step env i w) = spec_step (sev i) (abs w) /\ good (step env i w).
Proof.
  intros Hb Hg Hok. destruct i as [|[p|p|c| |]| |d| |c|wh|]; cbn [env_ok sev] in *;
    try (rewrite spec_step_internal; by apply refine_internal).
  - apply refine_connect; [done|by case_bool_decide].
  - apply refine_config; [done|by case_bool_decide].
  - apply refine_draw; [done|by case_bool_decide].
  - apply refine_wrong; [done|by case_bool_decide].
  - by apply refine_ready.
  - apply andb_prop in Hok as [Hok1 Hok2]. apply refine_load; [done|by apply bool_decide_eq_true in Hok1|].
    by apply negb_true_iff, bool_decide_eq_false in Hok2.
Qed.

Lemma run_refines (w : World) ins :
  is_Some (btoa (env_username env)) -> good w -> ok_trace env w ins = true ->
  abs (run env ins w) = spec_run (map sev ins) (abs w) /\ good (run env ins w).
Proof.
  intros Hb. revert w. induction ins as [|i ins IH]; intros w Hg Hok; [done|].
  cbn [ok_trace] in Hok. apply andb_prop in Hok as [Hok1 Hok2].
  destruct (step_refines w i Hb Hg Hok1) as [Ha Hg']. unfold run, spec_run. cbn [fold_left map].
  fold (run env ins (step env i w)). fold (spec_run (map sev ins) (spec_step (sev i) (abs w))).
  rewrite <- Ha. by apply IH.
Qed.

Lemma good_init wh : good (init_world (C := C) (I := I) (R := R) wh).
Proof. unfold good, handlers_inv. cbn. rewrite config_of_empty. good_close. Qed.

Lemma abs_init wh : abs (init_world (C := C) (I := I) (R := R) wh) = spec_init.
Proof. unfold abs, phase_of, spec_init. cbn. by rewrite config_of_empty, received_empty. Qed.

End Refinement.

Section Requests.
Context {C I R : Type} `{ConfigStoreLaws C} `{InfoStoreLaws I} `{ReadOnlyStoreLaws R}.

#[local] Abbreviation World := (@World C I R).

Variable env : Env.

Lemma run_handler_out h m (w : World) : w_out (run_handler h m w) = w_out w.
Proof. destruct h, m; cbn; try unfold on_wrongAccessToken; try case_match; reflexivity. Qed.

Lemma deliver_out m (w : World) : w_out (deliver m w) = w_out w.
Proof.
  unfold deliver, deliver_list. apply (fold_left_inv (fun x => w_out x = w_out w)); [|done].
  intros x nh _ Hx. case_decide; [|done]. by rewrite run_handler_out.
Qed.

Lemma readOnlyPolicy_out (w : World) : w_out (readOnlyPolicy env w) = w_out w.
Proof. unfold readOnlyPolicy. cbv zeta. by repeat case_match. Qed.

Lemma ready_callback_out (w : World) : w_out (ready_callback env w) = w_out w.
Proof. unfold ready_callback. case_match; [|done]. by rewrite readOnlyPolicy_out. Qed.

Lemma request_ok_app tok l m : Forall (request_ok tok) l -> request_ok tok m -> Forall (request_ok tok) (l ++ [m]).
Proof. intros Hl Hm. apply Forall_app. by split; [|constructor]. Qed.

Lemma resize_ok (w : World) :
  Forall (request_ok (env_at env)) (w_out w) -> Forall (request_ok (env_at env)) (w_out (resize_handler env w)).
Proof.
  intros Hw. apply request_ok_app; [done|]. split; [by apply list_elem_of_In; cbn; tauto|].
  eexists; split; [reflexivity|]. cbn. js_decide. reflexivity.
Qed.

Lemma send_ok c (w : World) :
  Forall (request_ok (env_at env)) (w_out w) -> Forall (request_ok (env_at env)) (w_out (sendFunction env c w)).
Proof.
  intros Hw. unfold sendFunction. case_match; [done|]. apply request_ok_app; [done|].
  split; [by apply list_elem_of_In; cbn; tauto|]. eexists; split; [reflexivity|]. apply js_get_set_eq.
Qed.

Lemma connect_ok (w : World) :
  Forall (request_ok (env_at env)) (w_out w) -> Forall (request_ok (env_at env)) (w_out (step env I_Connect w)).
Proof.
  intros Hw. destruct (connect_step env w) as (_ & _ & ->). apply request_ok_app; [done|].
  split; [by apply list_elem_of_In; cbn; tauto|]. eexists; split; [reflexivity|]. cbn. js_decide. reflexivity.
Qed.

End Requests.

Section Departures.
Context {C I R : Type} `{ConfigStoreLaws C} `{InfoStoreLaws I} `{ReadOnlyStoreLaws R}.

#[local] Abbreviation World := (@World C I R).

Variable env : Env.

(** A live event leaves the pending snapshot requests alone. *)
Lemma deliver_draw_loads (w : World) c :
  reachable env w -> w_loads (deliver (MsgDraw c) w) = w_loads w.
Proof.
  intros Hr. rewrite deliver_uniform by (apply reachable_handlers_inv in Hr; done || discriminate).
  by apply (iter_inv (fun x => w_loads x = w_loads w)).
Qed.

(** A configuration push neither sets the read-only flag nor changes the
    installed [sendFunction]: it only schedules ready callbacks. *)
Lemma deliver_config_frame (w : World) p :
  reachable env w ->
  w_ro (deliver (MsgConfig p) w) = w_ro w /\ w_send (deliver (MsgConfig p) w) = w_send w /\
  w_ready (deliver (MsgConfig p) w) = (w_ready w + length (w_cells w))%nat.
Proof.
  intros Hr. rewrite deliver_uniform by (apply reachable_handlers_inv in Hr; done || discriminate).
  cbn [handler_for run_handler]. destruct (iter_config p (length (w_cells w)) w) as [Hs Hy].
  split; [|done]. by apply (iter_inv (fun x => w_ro x = w_ro w)).
Qed.

End Departures.

Section Claims.
Context {C I R : Type} `{ConfigStoreLaws C} `{InfoStoreLaws I} `{ReadOnlyStoreLaws R}.

(** C37: On the spec's happy path (one connection, the configuration
    once after the join, snapshot responses only to requests, no live
    event before the snapshot is applied or after a denial, [btoa]
    accepting the user name) the engine refines the session state machine
    of spec section 4.4: after any run, the phase, the configuration,
    what the drawing surface was given and [messagesReceived] are those
    of the specification run on the same inputs. *)
Theorem engine_refines_spec (env : Env) (wh : Z * Z) (ins : list Input) :
  is_Some (btoa (env_username env)) -> ok_trace env (init_world (C := C) (I := I) (R := R) wh) ins = true ->
  abs (run env ins (init_world wh)) = spec_run (map sev ins) spec_init.
Proof.
  intros Hb Hok. rewrite <- (abs_init wh).
  by destruct (run_refines env _ ins Hb (good_init wh) Hok) as [-> _].
Qed.

(** C38: Every message the page has emitted, in every reachable world, is
    a request the relay knows ([joinWhiteboard], [drawToWhiteboard],
    [updateScreenResolution]) whose payload is an object carrying the
    access token in [at]: the three emitting sites (lines 83-86, 157-158,
    171-174) all stamp it, whatever the inputs. *)
Theorem emitted_requests_stamped (env : Env) (w : @World C I R) :
  reachable env w -> Forall (request_ok (env_at env)) (w_out w).
Proof.
  induction 1 as [wh|i w _ IH]; [constructor|].
  destruct i as [|m| |d| |c|wh|]; [by apply connect_ok|..]; cbn [step].
  - by rewrite deliver_out.
  - case_match; [done|]. by rewrite ready_callback_out.
  - by case_match.
  - by case_match.
  - case_match; [by apply send_ok|done].
  - apply (iter_inv (fun x => Forall (request_ok (env_at env)) (w_out x))); [apply resize_ok|done].
  - by case_match.
Qed.

(** C7: Live events are not held back while the snapshot loads: in every
    reachable world with a snapshot request pending, a [drawToWhiteboard]
    followed by the snapshot response gives the surface the live event
    (once per connection) before [loadData], where the spec queues it and
    replays it after the full state. *)
Theorem live_event_before_snapshot (env : Env) (w : @World C I R) (c : jsobj) (d : jsval) :
  reachable env w -> w_loads w <> [] ->
  w_wb (step env (I_LoadDone d) (step env (I_Server (MsgDraw c)) w)) =
    w_wb w ++ repeat (WbHandleEventsAndData c true) (length (w_cells w)) ++ [WbLoadData d].
Proof.
  intros Hr Hl. cbn [step]. rewrite (deliver_draw_loads env w c Hr).
  destruct (w_loads w) as [|r ls] eqn:Hls; [done|]. cbn.
  destruct (deliver_draw_spec env w c Hr) as [-> _]. by rewrite <- app_assoc.
Qed.

(** C12: The read-only flag follows a [whiteboardConfig] push only when
    the ready callback it schedules runs: in every reachable world with
    the surface loaded and the flag off, a push of any configuration,
    [isReadOnly] included, leaves the flag off and schedules one ready
    callback per connection, and a local stroke drawn before they run is
    still emitted. *)
Theorem read_only_applied_late (env : Env) (w : @World C I R) (p : SessionConfig) (c : jsobj) :
  reachable env w -> w_send w = true -> readOnlyActive (w_ro w) = false ->
  let w' := step env (I_Server (MsgConfig p)) w in
  readOnlyActive (w_ro w') = false /\ w_ready w' = (w_ready w + length (w_cells w))%nat /\
  exists o, w_out (step env (I_LocalDraw c) w') = w_out w' ++ [(js "drawToWhiteboard", JObj o)].
Proof.
  intros Hr Hs Hro. cbn [step]. destruct (deliver_config_frame env w p Hr) as (Hro' & Hs' & Hy).
  rewrite Hro', Hy, Hs'. split_and!; [done|done|]. rewrite Hs. unfold sendFunction. rewrite Hro', Hro.
  by eexists.
Qed.

End Claims.

(** ** Witnesses and the departure from the spec *)

Definition happy_path : list Input :=
  [I_Connect; I_Server (MsgConfig (cfg_of false)); I_Ready;
   I_Server (MsgInfoUpdate {| nbConnectedUsers := 2; smallestScreenResolution := None |});
   I_LoadDone JNull; I_Server (MsgDraw stroke); I_LocalDraw stroke; I_Resize (1024, 768);
   I_Server MsgWrongToken; I_Dismiss].

Lemma emitted_requests_stamped_witness :
  reachable env0 (run env0 happy_path W0) /\
  Forall (request_ok (env_at env0)) (w_out (run env0 happy_path W0)).
Proof. split; [apply run_reachable, reach_init|]. apply emitted_requests_stamped, run_reachable, reach_init. Defined.

Lemma live_event_before_snapshot_witness :
  let w := run env0 [I_Connect; I_Server (MsgConfig (cfg_of false)); I_Ready] W0 in
  reachable env0 w /\ w_loads w <> [] /\
  w_wb (step env0 (I_LoadDone JNull) (step env0 (I_Server (MsgDraw stroke)) w)) =
    w_wb w ++ repeat (WbHandleEventsAndData stroke true) (length (w_cells w)) ++ [WbLoadData JNull].
Proof.
  intros w. assert (Hr : reachable env0 w) by apply run_reachable, reach_init.
  refine (conj Hr (conj _ _)); [vm_compute; discriminate|].
  apply live_event_before_snapshot; [exact Hr|vm_compute; discriminate].
Defined.

Lemma read_only_applied_late_witness :
  let w := run env0 [I_Connect; I_Server (MsgConfig (cfg_of false)); I_Ready] W0 in
  reachable env0 w /\ w_send w = true /\ readOnlyActive (w_ro w) = false /\
  (let w' := step env0 (I_Server (MsgConfig (cfg_of true))) w in
   readOnlyActive (w_ro w') = false /\ w_ready w' = (w_ready w + length (w_cells w))%nat /\
   exists o, w_out (step env0 (I_LocalDraw stroke) w') = w_out w' ++ [(js "drawToWhiteboard", JObj o)]).
Proof.
  intros w. assert (Hr : reachable env0 w) by apply run_reachable, reach_init.
  refine (conj Hr (conj _ (conj _ _))); [reflexivity|reflexivity|].
  apply read_only_applied_late; [exact Hr|reflexivity|reflexivity].
Defined.

Lemma engine_refines_spec_witness :
  is_Some (btoa (env_username env0)) /\ ok_trace env0 W0 happy_path = true /\
  abs (run env0 happy_path W0) = spec_run (map sev happy_path) spec_init.
Proof.
  refine (conj _ (conj _ _)); [eexists; reflexivity|vm_compute; reflexivity|].
  apply engine_refines_spec; [eexists; reflexivity|vm_compute; reflexivity].
Defined.

(** A live event during the snapshot load: the spec queues it and gives
    it to the surface after the full state; the engine gives it before. *)
Example draw_while_loading_diverges :
  let ins := [I_Connect; I_Server (MsgConfig (cfg_of false)); I_Ready; I_Server (MsgDraw stroke); I_LoadDone JNull] in
  ok_trace env0 W0 ins = false /\
  sp_applied (abs (run env0 ins W0)) = [OpDraw stroke; OpSnapshot] /\
  sp_applied (spec_run (map sev ins) spec_init) = [OpSnapshot; OpDraw stroke].
Proof. vm_compute. repeat split. Qed.

(** A live event after [wrongAccessToken]: the spec stops all protocol
    activity in [AccessDenied]; the engine's handlers stay registered and
    apply it. *)
Example draw_after_denial_applied :
  let ins := [I_Connect; I_Server (MsgConfig (cfg_of false)); I_Ready; I_LoadDone JNull;
              I_Server MsgWrongToken; I_Server (MsgDraw stroke)] in
  ok_trace env0 W0 ins = false /\
  sp_applied (abs (run env0 ins W0)) = [OpSnapshot; OpDraw stroke] /\
  sp_applied (spec_run (map sev ins) spec_init) = [OpSnapshot].
Proof. vm_compute. repeat split. Qed.
